(** * projeto_variabilidade: the CMIP6 retrieval driver (API.py) and the
      analysis tool (analysis.py), embedded as Rocq functions.

    Python values are modelled as follows.
    - [int] is [Z]; [str] is [string]; a [list] is a [list]; a [dict], whose
      iteration order is its insertion order, is an association list
      updated in place ([dict_set]).
    - A [pathlib.Path] is the list of its segments; [p / s] appends one
      segment.  What pathlib does besides (dropping ".", an absolute right
      operand replacing the left one) is not modelled.
    - A statement sequence that prints, touches the outside world or raises
      is a computation in [M]: it yields the events performed so far, in
      order, together with a value or the exception that stopped it.
    - Calls that leave the program (the CDS client, the file system) are
      answered by an oracle [world]: for every such call it says whether the
      call returns or which exception it raises.
    - xarray's arrays are values; where xarray itself may refuse an array
      ([sortby], [resample]) an oracle says whether it does and with which
      exception, and the functions on arrays give what the call returns
      when it returns.
    - [str.lower] and [str.strip] are those of ASCII text. *)

From Stdlib Require Import List Sorted String Ascii ZArith QArith Bool Lia.
From Stdlib Require Import DecimalString Uint63 PrimFloat.
From Stdlib Require Import DecimalPos DecimalZ FinFun Permutation.
Import ListNotations.

Local Open Scope string_scope.
Local Open Scope Z_scope.

(* ================================================================== *)
(** * Python prelude *)
(* ================================================================== *)

Module Py.

(** The built-in exceptions the two scripts raise or let through.  All of
    them derive from [Exception].  [ExternalError] stands for whatever a
    third-party library (cdsapi, xarray, scipy, the OS layer) raises. *)
Inductive exn : Type :=
| NameError (msg : string)
| IndexError (msg : string)
| KeyError (msg : string)
| ValueError (msg : string)
| ImportError (msg : string)
| FileNotFoundError (msg : string)
| ZeroDivisionError (msg : string)
| ExternalError (msg : string).

(** [str(exc)], as an f-string renders it. *)
Definition exn_str (e : exn) : string :=
  match e with
  | NameError m | IndexError m | ValueError m | ImportError m
  | FileNotFoundError m | ZeroDivisionError m | ExternalError m => m
  | KeyError m => "'" ++ m ++ "'"
  end.

Inductive result (A : Type) : Type :=
| Ok (a : A)
| Raise (e : exn).
Arguments Ok {A} a.
Arguments Raise {A} e.

Definition is_ok {A} (r : result A) : bool :=
  match r with Ok _ => true | Raise _ => false end.

(** [str(n)] for an [int]. *)
Definition str (n : Z) : string := NilZero.string_of_int (Z.to_int n).

(** [f"{n:02d}"]: zero-padded to width two. *)
Definition fmt_02d (n : Z) : string :=
  let s := str n in
  if (String.length s <? 2)%nat then "0" ++ s else s.

(** [range(a, b)]. *)
Definition range (a b : Z) : list Z :=
  map (fun i => a + Z.of_nat i) (seq 0 (Z.to_nat (b - a))).

(** [l[i]], negative indices counting from the end. *)
Definition getitem {A} (l : list A) (i : Z) : result A :=
  let n := Z.of_nat (List.length l) in
  let j := if i <? 0 then i + n else i in
  if (j <? 0) || (n <=? j) then Raise (IndexError "list index out of range")
  else match nth_error l (Z.to_nat j) with
       | Some x => Ok x
       | None => Raise (IndexError "list index out of range")
       end.

(** [x in l] for a list or set of strings. *)
Definition str_in (x : string) (l : list string) : bool :=
  existsb (String.eqb x) l.

(** [sep.join(l)]. *)
Definition join (sep : string) (l : list string) : string :=
  String.concat sep l.

(** ** Dictionaries, in insertion order *)

Section Assoc.
Context {K V : Type} (eqb : K -> K -> bool).

Fixpoint assoc_get (d : list (K * V)) (k : K) : option V :=
  match d with
  | [] => None
  | (k', v) :: d' => if eqb k k' then Some v else assoc_get d' k
  end.

(** [d[k] = v]: an existing key keeps its position. *)
Fixpoint assoc_set (d : list (K * V)) (k : K) (v : V) : list (K * V) :=
  match d with
  | [] => [(k, v)]
  | (k', v') :: d' =>
      if eqb k k' then (k', v) :: d' else (k', v') :: assoc_set d' k v
  end.

End Assoc.

(** A [dict] with [str] keys. *)
Definition dict (V : Type) := list (string * V).
Definition dict_get {V} (d : dict V) (k : string) : option V :=
  assoc_get String.eqb d k.
Definition dict_set {V} (d : dict V) (k : string) (v : V) : dict V :=
  assoc_set String.eqb d k v.
Definition dict_keys {V} (d : dict V) : list string := map fst d.

(** [{k: f(v) for k, v in d.items()}]. *)
Definition dict_map {V W} (f : V -> W) (d : dict V) : dict W :=
  map (fun kv => (fst kv, f (snd kv))) d.

(** [{k: f(v) for k, v in d.items()}] for an [f] that may raise: the
    items are taken in order, and the first exception ends the
    comprehension. *)
Fixpoint dict_traverse {V W} (f : V -> result W) (d : dict V)
  : result (dict W) :=
  match d with
  | [] => Ok []
  | (k, v) :: d' =>
      match f v with
      | Raise e => Raise e
      | Ok w =>
          match dict_traverse f d' with
          | Raise e => Raise e
          | Ok ws => Ok ((k, w) :: ws)
          end
      end
  end.

(** [{**d, **e}]. *)
Definition dict_update {V} (d e : dict V) : dict V :=
  fold_left (fun acc kv => dict_set acc (fst kv) (snd kv)) e d.

(** A [dict] with [int] keys. *)
Definition idict (V : Type) := list (Z * V).
Definition idict_get {V} (d : idict V) (k : Z) : option V :=
  assoc_get Z.eqb d k.
Definition idict_set {V} (d : idict V) (k : Z) (v : V) : idict V :=
  assoc_set Z.eqb d k v.

(** [a or b] where [a] is [None] or a truthy object. *)
Definition or_else {T} (a b : option T) : option T :=
  match a with Some _ => a | None => b end.

(** ** Strings *)

(** [s.lower()], on ASCII letters. *)
Definition lower_ascii (c : ascii) : ascii :=
  let n := nat_of_ascii c in
  if ((65 <=? n) && (n <=? 90))%nat then ascii_of_nat (n + 32) else c.

Fixpoint lower (s : string) : string :=
  match s with
  | EmptyString => EmptyString
  | String c s' => String (lower_ascii c) (lower s')
  end.

(** [needle in hay] for two strings. *)
Fixpoint contains (needle hay : string) : bool :=
  String.prefix needle hay
  || match hay with
     | EmptyString => false
     | String _ hay' => contains needle hay'
     end.

(** ** [list.sort(key=...)], which is stable

    [sort_by le key l] sorts [l] so that [le (key x) (key y)] holds for [x]
    before [y]; elements whose keys tie keep the order they had in [l].
    With [le := Z.leb] this is [sort(key=key)], with [le := Z.geb] it is
    [sort(key=key, reverse=True)]. *)
Section Sort.
Context {A K : Type} (le : K -> K -> bool) (key : A -> K).

Fixpoint insert_by (x : A) (l : list A) : list A :=
  match l with
  | [] => [x]
  | y :: l' => if le (key x) (key y) then x :: l else y :: insert_by x l'
  end.

Definition sort_by (l : list A) : list A := fold_right insert_by [] l.

End Sort.

(** ** Paths *)

Definition Path := list string.

Definition path_div (p : Path) (s : string) : Path := (p ++ [s])%list.

(** [str(p)]. *)
Definition path_str (p : Path) : string := join "/" p.

(** [p.name]: the last segment. *)
Definition path_name (p : Path) : string := last p "".

(** [p.parent]. *)
Definition path_parent (p : Path) : Path := removelast p.

(** ** Computations: the events performed, then a value or an exception *)

Section Monad.
Context {Ev : Type}.

Definition M (A : Type) : Type := list Ev * result A.

Definition ret {A} (a : A) : M A := ([], Ok a).

Definition raise {A} (e : exn) : M A := ([], Raise e).

Definition bind {A B} (c : M A) (k : A -> M B) : M B :=
  match c with
  | (out, Ok a) => let '(out', r) := k a in ((out ++ out')%list, r)
  | (out, Raise e) => (out, Raise e)
  end.

Definition lift {A} (r : result A) : M A := ([], r).

Definition emit (ev : Ev) : M unit := ([ev], Ok tt).

(** A call that leaves the program: the event is recorded, and the oracle
    tells whether the call returns. *)
Definition perform (world : Ev -> option exn) (ev : Ev) : M unit :=
  match world ev with
  | None => ([ev], Ok tt)
  | Some e => ([ev], Raise e)
  end.

(** [for x in l: body x]. *)
Fixpoint for_each {A} (l : list A) (body : A -> M unit) : M unit :=
  match l with
  | [] => ret tt
  | x :: l' => bind (body x) (fun _ => for_each l' body)
  end.

Definition events {A} (c : M A) : list Ev := fst c.
Definition outcome {A} (c : M A) : result A := snd c.

End Monad.

Declare Scope py_scope.
Delimit Scope py_scope with py.
Notation "x <- c ;; k" := (bind c (fun x => k))
  (at level 61, c at next level, right associativity) : py_scope.
Notation "c ;;; k" := (bind c (fun _ => k))
  (at level 61, right associativity) : py_scope.

End Py.

Import Py.
Local Open Scope py_scope.

(* ================================================================== *)
(** * API.py: the retrieval driver *)
(* ================================================================== *)

Module API.

Definition DATASET : string := "projections-cmip6".
Definition DEFAULT_MODEL : string := "ipsl_cm6a_lr".
Definition DEFAULT_AREA : list Q := [0.25; -94.68; -23.09; -71.04]%Q.
Definition DEFAULT_VARIABLES : list string :=
  ["near_surface_air_temperature"; "near_surface_wind_speed"].
Definition DEFAULT_EXPERIMENTS : list string :=
  ["historical"; "ssp1_2_6"; "ssp5_8_5"].
Definition HIST_RANGE : Z * Z := (1980, 2014).
Definition SCENARIO_RANGE : Z * Z := (2015, 2049).
Definition BASE_OUTPUT : Path := ["date"].

Definition MONTHS : list string := map fmt_02d (range 1 13).
Definition DAYS : list string := map fmt_02d (range 1 32).

Definition year_list (start end_ : Z) : list string :=
  map str (range start (end_ + 1)).

(** The request dictionary of [build_request], field by field. *)
Record request : Type := {
  temporal_resolution : string;
  req_experiment : string;
  req_variable : string;
  req_model : string;
  req_year : list string;
  req_month : list string;
  req_day : list string;
  req_area : list Q
}.

(** What the driver does to the outside world. *)
Inductive event : Type :=
| ClientInit
| Mkdir (target : Path)
| Retrieve (dataset : string) (req : request) (target : string)
| Print (line : string).

Definition build_request (variable experiment : string) (years : list string)
    (area : list Q) (model : string) : request :=
  {| temporal_resolution := "daily";
     req_experiment := experiment;
     req_variable := variable;
     req_model := model;
     req_year := years;
     req_month := MONTHS;
     req_day := DAYS;
     req_area := area |}.

(** The parsed command line ([argparse.Namespace]). *)
Record Args : Type := {
  variables : list string;
  experiments : list string;
  area : list Q;
  model : string;
  historical_start : Z;
  historical_end : Z;
  scenario_start : Z;
  scenario_end : Z;
  output_base : Path
}.

Definition default_args : Args :=
  {| variables := DEFAULT_VARIABLES;
     experiments := DEFAULT_EXPERIMENTS;
     area := DEFAULT_AREA;
     model := DEFAULT_MODEL;
     historical_start := fst HIST_RANGE;
     historical_end := snd HIST_RANGE;
     scenario_start := fst SCENARIO_RANGE;
     scenario_end := snd SCENARIO_RANGE;
     output_base := BASE_OUTPUT |}.

Section Driver.
(** The outside world: the reply to [cdsapi.Client()], [mkdir] and
    [client.retrieve]. *)
Variable world : event -> option exn.

Definition output_dir_for_experiment (base_dir : Path) (experiment : string)
  : M Path :=
  let target :=
    path_div base_dir
      (if String.eqb experiment "historical" then "historico" else "projecao") in
  perform world (Mkdir target) ;;;
  ret target.

Definition download_one (variable experiment : string) (years : list string)
    (area : list Q) (model : string) (target_dir : Path) : M Path :=
  let request := build_request variable experiment years area model in
  y_first <- lift (getitem years 0) ;;
  y_last <- lift (getitem years (-1)) ;;
  let target_file :=
    path_div target_dir
      (experiment ++ "_" ++ variable ++ "_" ++ y_first ++ "-" ++ y_last
                  ++ "_" ++ model ++ ".zip") in
  perform world (Retrieve DATASET request (path_str target_file)) ;;;
  ret target_file.

(** The year list [main] hands to [download_one] for an experiment. *)
Definition years_for (args : Args) (experiment : string) : list string :=
  let hist_years := year_list (historical_start args) (historical_end args) in
  let scenario_years := year_list (scenario_start args) (scenario_end args) in
  if String.eqb experiment "historical" then hist_years else scenario_years.

(** The body of the loop of [main] over [args.experiments]. *)
Definition main_experiment (args : Args) (experiment : string) : M unit :=
  let base_dir := output_base args in
  let years := years_for args experiment in
  target_dir <- output_dir_for_experiment base_dir experiment ;;
  for_each (variables args) (fun variable =>
    target_file <- download_one variable experiment years
                     (area args) (model args) target_dir ;;
    emit (Print ("[ok] " ++ experiment ++ " " ++ variable ++ " -> "
                   ++ path_str target_file))).

Definition main (args : Args) : M unit :=
  perform world ClientInit ;;;
  for_each (experiments args) (main_experiment args).

End Driver.

(** The targets of the retrieval calls among the events of a run. *)
Definition retrieved (log : list event) : list string :=
  flat_map (fun ev => match ev with Retrieve _ _ t => [t] | _ => [] end) log.

(** The directories of the [mkdir] calls among the events of a run. *)
Definition made_dirs (log : list event) : list Path :=
  flat_map (fun ev => match ev with Mkdir p => [p] | _ => [] end) log.

(** A world in which every outside call returns. *)
Definition calm : event -> option exn := fun _ => None.

(** ** The layout the specification describes

    The subdirectory, the year range and the file name of an experiment,
    written out from the words of the specification, to compare [main]
    with. *)
Definition subdir_of (experiment : string) : string :=
  if String.eqb experiment "historical" then "historico" else "projecao".

Definition year_range (args : Args) (experiment : string) : Z * Z :=
  if String.eqb experiment "historical"
  then (historical_start args, historical_end args)
  else (scenario_start args, scenario_end args).

Definition target_name (args : Args) (experiment variable : string) : string :=
  experiment ++ "_" ++ variable ++ "_"
    ++ str (fst (year_range args experiment)) ++ "-"
    ++ str (snd (year_range args experiment)) ++ "_" ++ model args ++ ".zip".

Definition target_of (args : Args) (experiment variable : string) : Path :=
  path_div (path_div (output_base args) (subdir_of experiment))
           (target_name args experiment variable).

(** The targets of all pairs of the given experiments with the variables of
    the run, experiment by experiment. *)
Definition targets_of (args : Args) (experiments : list string) : list string :=
  flat_map (fun e => map (fun v => path_str (target_of args e v))
                         (variables args)) experiments.

(** The request of a pair: the years are those of the range of the
    experiment. *)
Definition request_of (args : Args) (e v : string) : request :=
  build_request v e
    (year_list (fst (year_range args e)) (snd (year_range args e)))
    (area args) (model args).

(** The events of one experiment: its directory is made, then each variable
    is retrieved once and reported. *)
Definition round_events (args : Args) (e : string) : list event :=
  Mkdir (path_div (output_base args) (subdir_of e))
  :: flat_map (fun v =>
       [ Retrieve DATASET (request_of args e v)
                  (path_str (target_of args e v));
         Print ("[ok] " ++ e ++ " " ++ v ++ " -> "
                  ++ path_str (target_of args e v)) ]) (variables args).

(** The default run, but with the scenario years the wrong way round. *)
Definition inverted_scenario_args : Args :=
  {| variables := DEFAULT_VARIABLES;
     experiments := DEFAULT_EXPERIMENTS;
     area := DEFAULT_AREA;
     model := DEFAULT_MODEL;
     historical_start := 1980;
     historical_end := 2014;
     scenario_start := 2015;
     scenario_end := 2010;
     output_base := BASE_OUTPUT |}.

End API.

(* ================================================================== *)
(** * Floating-point values *)
(* ================================================================== *)

(** The arithmetic of the array values.  The tool's code is the same for
    every NumPy float type, so it is written once over this interface.
    Two instances follow: IEEE binary64 ([float]), which is what NumPy
    computes with, and exact rationals with a NaN ([xq]), in which the
    algebraic statements are made. *)
Module Num.

Class Dtype (A : Type) : Type := {
  of_Z : Z -> A;
  nan : A;
  add : A -> A -> A;
  sub : A -> A -> A;
  div : A -> A -> A;
  isnan : A -> bool;
  isfinite : A -> bool
}.

(** The literal [273.15]. *)
Definition lit_273_15 {A} `{Dtype A} : A := div (of_Z 27315) (of_Z 100).

End Num.
Export Num.

Module Binary64.

(** [float(z)], for [z] below 2^63 in absolute value. *)
Definition of_Z (z : Z) : float :=
  match z with
  | Z0 => PrimFloat.zero
  | Zpos _ => PrimFloat.of_uint63 (Uint63.of_Z z)
  | Zneg p => PrimFloat.opp (PrimFloat.of_uint63 (Uint63.of_Z (Zpos p)))
  end.

Definition isnan (x : float) : bool := negb (PrimFloat.eqb x x).

Definition isfinite (x : float) : bool :=
  PrimFloat.ltb (PrimFloat.abs x) PrimFloat.infinity.

#[global] Instance dtype : Dtype float := {|
  Num.of_Z := of_Z;
  nan := PrimFloat.nan;
  add := PrimFloat.add;
  sub := PrimFloat.sub;
  div := PrimFloat.div;
  Num.isnan := isnan;
  Num.isfinite := isfinite
|}.

End Binary64.

Module Exact.

(** A rational in lowest terms, or NaN.  Dividing by zero gives NaN; the
    tool never divides by zero (a mean divides by a positive count, and
    [1 / p] with [p = 0] raises before any float is made). *)
Inductive xq : Type :=
| Fin (q : Q)
| NaN.

Definition lift2 (f : Q -> Q -> Q) (x y : xq) : xq :=
  match x, y with
  | Fin a, Fin b => Fin (Qred (f a b))
  | _, _ => NaN
  end.

Definition div (x y : xq) : xq :=
  match x, y with
  | Fin a, Fin b => if Qeq_bool b 0 then NaN else Fin (Qred (a / b))
  | _, _ => NaN
  end.

Definition isnan (x : xq) : bool :=
  match x with Fin _ => false | NaN => true end.

#[global] Instance dtype : Dtype xq := {|
  of_Z := fun z => Fin (inject_Z z);
  nan := NaN;
  add := lift2 Qplus;
  sub := lift2 Qminus;
  Num.div := div;
  Num.isnan := isnan;
  isfinite := fun x => negb (isnan x)
|}.

End Exact.

(* ================================================================== *)
(** * analysis.py: the analysis tool *)
(* ================================================================== *)

Module Analysis.

Definition DEFAULT_VARIABLE : string := "near_surface_air_temperature".
Definition DEFAULT_EXPERIMENTS : list string := ["ssp1_2_6"; "ssp5_8_5"].
Definition BASE_DIR : Path := ["date"].
Definition OUTPUT_DIR : Path := ["img"].
Definition ALIASES : dict (list string) :=
  [ ("near_surface_air_temperature", ["tas"; "t2m"]);
    ("near_surface_wind_speed", ["sfcWind"; "wind_speed"; "wind"]);
    ("total_precipitation", ["tp"; "pr"; "precipitation"]) ].
Definition TEMP_NAMES : list string :=
  ["near_surface_air_temperature"; "tas"; "t2m"].
Definition WIND_SPEED_NAMES : list string :=
  ["near_surface_wind_speed"; "sfcWind"; "wind_speed"; "wind"].
Definition AGG_METHODS : dict string :=
  [ ("total_precipitation", "sum"); ("tp", "sum"); ("pr", "sum");
    ("precipitation", "sum") ].

(** ** The xarray data model *)

(** A point of the time coordinate, to the day. *)
Record Timestamp : Type := { year : Z; month : Z; day : Z }.

(** Chronological order. *)
Definition ts_leb (s t : Timestamp) : bool :=
  (year s <? year t)
  || ((year s =? year t)
      && ((month s <? month t)
          || ((month s =? month t) && (day s <=? day t)))).

(** A [DataArray] along time: its dimension names, its attributes, and for
    each time step one value.  While the array still has spatial
    dimensions the value of a step stands for the field at that step; the
    one operation the tool applies to such an array is xarray's reduction
    [da.mean(dim=...)], which is taken as given ([xr_mean] below). *)
Record DataArray (A : Type) : Type := {
  dims : list string;
  attrs : dict string;
  samples : list (Timestamp * A)
}.
Arguments dims {A} _.
Arguments attrs {A} _.
Arguments samples {A} _.

(** A [Dataset]: data variables and coordinates, by name. *)
Record Dataset (A : Type) : Type := {
  data_vars : dict (DataArray A);
  coords : dict (DataArray A)
}.
Arguments data_vars {A} _.
Arguments coords {A} _.

(** [scipy.stats.genextreme]: the fit may raise, the inverse CDF
    [ppf(q, shape, loc=loc, scale=scale)] returns a float. *)
Record Genextreme (A : Type) : Type := {
  fit : list A -> result (A * A * A);
  ppf : A -> A -> A -> A -> A
}.
Arguments fit {A} _ _.
Arguments ppf {A} _ _ _ _ _.

(** What xarray raises where analysis.py leaves the check to it, [None]
    when the call returns: [da.sortby("time").load()] (a KeyError for an
    array that has no time coordinate), and [da.resample(time=freq)] with
    the reduction that follows it (a ValueError for an array that has no
    time step). *)
Record Xarray (A : Type) : Type := {
  sortby_raises : DataArray A -> option exn;
  resample_raises : string -> DataArray A -> option exn
}.
Arguments sortby_raises {A} _ _.
Arguments resample_raises {A} _ _ _.

(** What [find_file] asks the file system. *)
Record FileSystem : Type := {
  exists_ : Path -> bool;
  glob : Path -> string -> list Path;
  st_mtime : Path -> Z
}.

(** What the tool does to the outside world. *)
Inductive event : Type :=
| Print (line : string)
| SaveFig (output : Path).

(** The result of [monthly_climatology]: a value per calendar month
    (coordinate [month]). *)
Definition Climatology (A : Type) := list (Z * A).

(** The parsed command line; [scenario_map] is what [parse_scenario_files]
    made of the [--scenario-file] options. *)
Record Args : Type := {
  variable : string;
  experiments : list string;
  historical_file : option Path;
  scenario_map : dict Path;
  data_dir : Path;
  output_dir : Path;
  return_periods : list Z
}.

Section Tool.
Context {A : Type} `{Dtype A}.

(** xarray's option of the same name: whether an operation hands the
    attributes of its operand on to its result. *)
Variable keep_attrs : bool.
(** [da.mean(dim=dims)] over spatial dimensions. *)
Variable xr_mean : DataArray A -> list string -> DataArray A.
(** The calls xarray may refuse. *)
Variable xr : Xarray A.
(** [from scipy.stats import genextreme]; [None] when scipy is missing. *)
Variable scipy_stats : option (Genextreme A).
Variable fs : FileSystem.
(** The dataset [open_dataset_maybe_zip(path)] yields, or what it raises. *)
Variable open_dataset_maybe_zip : Path -> result (Dataset A).
(** [load_wind_direction(path)]; its numerics are NumPy's. *)
Variable load_wind_direction : Path -> result (option (DataArray A)).
(** The reply of the plotting library to [fig.savefig]. *)
Variable world : event -> option exn.

(** ** Reductions, skipping NaN as xarray does by default

    Sums are taken from left to right. *)

Definition values (da : DataArray A) : list A := map snd (samples da).

Definition sum_list (l : list A) : A := fold_left add l (of_Z 0).

Definition nanvalues (l : list A) : list A :=
  filter (fun v => negb (isnan v)) l.

Definition nansum (l : list A) : A := sum_list (nanvalues l).

Definition nanmean (l : list A) : A :=
  match nanvalues l with
  | [] => nan
  | vs => div (sum_list vs) (of_Z (Z.of_nat (List.length vs)))
  end.

Definition kept_attrs (da : DataArray A) : dict string :=
  if keep_attrs then attrs da else [].

(** ** [da.resample(time=freq)]

    The bins run from the bin of the earliest sample to the bin of the
    latest one, without gaps; a bin that holds no sample comes out NaN.
    These are the arrays [resample] returns when it returns; where the
    tool calls it, the call is [resampling] below. *)
Definition bins (key : Timestamp -> Z) (s : list (Timestamp * A))
  : list (Z * list A) :=
  match s with
  | [] => []
  | (t0, _) :: _ =>
      let ks := map (fun tv => key (fst tv)) s in
      let lo := fold_right Z.min (key t0) ks in
      let hi := fold_right Z.max (key t0) ks in
      map (fun k => (k, map snd (filter (fun tv => key (fst tv) =? k) s)))
          (range lo (hi + 1))
  end.

Definition reduce_bin (reduce : list A -> A) (vs : list A) : A :=
  match vs with [] => nan | _ => reduce vs end.

Definition resample (key : Timestamp -> Z) (label : Z -> Timestamp)
    (reduce : list A -> A) (da : DataArray A) : DataArray A :=
  {| dims := dims da;
     attrs := kept_attrs da;
     samples := map (fun b => (label (fst b), reduce_bin reduce (snd b)))
                    (bins key (samples da)) |}.

(** Months counted from year 0: the bin of frequency ["1MS"]. *)
Definition month_ord (t : Timestamp) : Z := year t * 12 + (month t - 1).

Definition month_start (k : Z) : Timestamp :=
  {| year := k / 12; month := k mod 12 + 1; day := 1 |}.

Definition year_end (y : Z) : Timestamp :=
  {| year := y; month := 12; day := 31 |}.

Definition annual_mean (da : DataArray A) : DataArray A :=
  resample year year_end nanmean da.

Definition annual_sum (da : DataArray A) : DataArray A :=
  resample year year_end nansum da.

Definition get_agg_method (variable : string) : string :=
  match dict_get AGG_METHODS variable with
  | Some m => m
  | None => "mean"
  end.

Definition monthly_aggregate (da : DataArray A) (method : string)
  : DataArray A :=
  if String.eqb method "sum" then resample month_ord month_start nansum da
  else resample month_ord month_start nanmean da.

(** ** [da.groupby("time.month").mean("time")] *)

Fixpoint insert_unique (x : Z) (l : list Z) : list Z :=
  match l with
  | [] => [x]
  | y :: l' =>
      if x <? y then x :: l
      else if x =? y then l
      else y :: insert_unique x l'
  end.

(** The distinct values of a list, in increasing order. *)
Definition sorted_unique (l : list Z) : list Z :=
  fold_right insert_unique [] l.

Definition month_values (m : Z) (da : DataArray A) : list A :=
  map snd (filter (fun tv => month (fst tv) =? m) (samples da)).

Definition groupby_month_mean (da : DataArray A) : Climatology A :=
  map (fun m => (m, nanmean (month_values m da)))
      (sorted_unique (map (fun tv => month (fst tv)) (samples da))).

Definition monthly_climatology (da : DataArray A) (method : string)
  : Climatology A :=
  let monthly := monthly_aggregate da method in
  groupby_month_mean monthly.

Definition annual_aggregate (da : DataArray A) (method : string)
  : DataArray A :=
  if String.eqb method "sum" then annual_sum da else annual_mean da.

(** A call that goes through [da.resample(time=freq)]: what xarray raises
    on [da], or the value the call returns. *)
Definition resampling {B} (freq : string) (da : DataArray A) (value : B)
  : result B :=
  match resample_raises xr freq da with
  | Some e => Raise e
  | None => Ok value
  end.

(** The calls [monthly_climatology(da, method)] and
    [annual_aggregate(da, method)]. *)
Definition run_monthly_climatology (da : DataArray A) (method : string)
  : result (Climatology A) :=
  resampling "1MS" da (monthly_climatology da method).

Definition run_annual_aggregate (da : DataArray A) (method : string)
  : result (DataArray A) :=
  resampling "YE" da (annual_aggregate da method).

(** ** Arithmetic on arrays *)

(** [da - c] for a scalar [c]. *)
Definition da_sub_scalar (da : DataArray A) (c : A) : DataArray A :=
  {| dims := dims da;
     attrs := kept_attrs da;
     samples := map (fun tv => (fst tv, sub (snd tv) c)) (samples da) |}.

(** [float(arr.mean().values)]. *)
Definition da_mean (arr : DataArray A) : A := nanmean (values arr).

(** [clim - hist_clim]: the months both have. *)
Definition clim_sub (clim hist_clim : Climatology A) : Climatology A :=
  flat_map (fun mv =>
              match assoc_get Z.eqb hist_clim (fst mv) with
              | Some h => [(fst mv, sub (snd mv) h)]
              | None => []
              end) clim.

(** [da.attrs[k] = v]. *)
Definition set_attr (da : DataArray A) (k v : string) : DataArray A :=
  {| dims := dims da; attrs := dict_set (attrs da) k v;
     samples := samples da |}.

(** [da.sortby("time")], when it returns. *)
Definition sortby_time (da : DataArray A) : DataArray A :=
  {| dims := dims da; attrs := attrs da;
     samples := sort_by ts_leb fst (samples da) |}.

(** The call [da.sortby("time").load()]. *)
Definition sortby_time_load (da : DataArray A) : result (DataArray A) :=
  match sortby_raises xr da with
  | Some e => Raise e
  | None => Ok (sortby_time da)
  end.

(** ** The file locator *)

Definition find_file (base : Path) (experiment variable : string)
  : option Path :=
  let subdir :=
    if String.eqb experiment "historical" then "historico" else "projecao" in
  let folder := path_div base subdir in
  if negb (exists_ fs folder) then None
  else
    let patterns :=
      [ "*" ++ experiment ++ "*" ++ variable ++ "*.nc";
        "*" ++ variable ++ "*" ++ experiment ++ "*.nc";
        "*" ++ experiment ++ "*" ++ variable ++ "*.zip";
        "*" ++ variable ++ "*" ++ experiment ++ "*.zip" ] in
    let candidates := flat_map (glob fs folder) patterns in
    match candidates with
    | [] => None
    | _ => hd_error (sort_by Z.geb (st_mtime fs) candidates)
    end.

(** The folder [find_file] looks into, its four patterns, and the
    candidates it collects, in the order it collects them. *)
Definition folder_of (base : Path) (experiment : string) : Path :=
  path_div base
    (if String.eqb experiment "historical" then "historico" else "projecao").

Definition patterns_of (experiment variable : string) : list string :=
  [ "*" ++ experiment ++ "*" ++ variable ++ "*.nc";
    "*" ++ variable ++ "*" ++ experiment ++ "*.nc";
    "*" ++ experiment ++ "*" ++ variable ++ "*.zip";
    "*" ++ variable ++ "*" ++ experiment ++ "*.zip" ].

Definition candidates_of (base : Path) (experiment variable : string)
  : list Path :=
  flat_map (glob fs (folder_of base experiment))
           (patterns_of experiment variable).

(** ** Spatial mean *)

Definition guess_lat_lon_dims (da : DataArray A) : list string :=
  let first_of names :=
    match find (fun name => str_in name (dims da)) names with
    | Some name => [name]
    | None => []
    end in
  (first_of ["latitude"; "lat"] ++ first_of ["longitude"; "lon"])%list.

Definition spatial_mean (da : DataArray A) : DataArray A :=
  match guess_lat_lon_dims da with
  | [] => da
  | dims => xr_mean da dims
  end.

(** ** Variable resolution and unit normalisation *)

(** [name in ds]: a data variable or a coordinate. *)
Definition ds_contains (ds : Dataset A) (name : string) : bool :=
  match or_else (dict_get (data_vars ds) name) (dict_get (coords ds) name) with
  | Some _ => true
  | None => false
  end.

(** [ds[name]]. *)
Definition ds_getitem (ds : Dataset A) (name : string)
  : result (DataArray A) :=
  match or_else (dict_get (data_vars ds) name) (dict_get (coords ds) name) with
  | Some da => Ok da
  | None => Raise (KeyError name)
  end.

(** [ALIASES.get(variable, [])]. *)
Definition aliases_of (variable : string) : list string :=
  match dict_get ALIASES variable with
  | Some l => l
  | None => []
  end.

(** [load_series], lines 357-372: the name under which the requested
    variable is read. *)
Definition resolve_target (ds : Dataset A) (path : Path) (variable : string)
  : result string :=
  let target_var := variable in
  let target_var :=
    if negb (ds_contains ds target_var) then
      match find (ds_contains ds) (aliases_of variable) with
      | Some alias => alias
      | None => target_var
      end
    else target_var in
  if negb (ds_contains ds target_var) then
    let data_vars := dict_keys (data_vars ds) in
    match data_vars with
    | [only] => Ok only
    | _ =>
        Raise (KeyError ("Variável " ++ variable ++ " não encontrada em "
                           ++ path_name path ++ ". Disponíveis: "
                           ++ join ", " data_vars))
    end
  else Ok target_var.

(** The test of line 378 on the lower-cased unit. *)
Definition kelvin_like (units : string) : bool :=
  contains "k" units || str_in units ["kelvin"; "k"].

(** [load_series], lines 376-380: Kelvin to Celsius. *)
Definition convert_units (variable target_var : string) (da : DataArray A)
  : DataArray A :=
  if str_in variable TEMP_NAMES || str_in target_var TEMP_NAMES then
    let units :=
      lower (match dict_get (attrs da) "units" with
             | Some u => u
             | None => ""
             end) in
    if kelvin_like units then
      let da := da_sub_scalar da lit_273_15 in
      set_attr da "units" "degC"
    else da
  else da.

(** The body of [load_series] once the dataset is open. *)
Definition load_series_in (ds : Dataset A) (path : Path) (variable : string)
  : result (DataArray A) :=
  match resolve_target ds path variable with
  | Raise e => Raise e
  | Ok target_var =>
      match ds_getitem ds target_var with
      | Raise e => Raise e
      | Ok da =>
          let da := spatial_mean da in
          let da := convert_units variable target_var da in
          sortby_time_load da
      end
  end.

Definition load_series (path : Path) (variable : string)
  : result (DataArray A) :=
  match open_dataset_maybe_zip path with
  | Raise e => Raise e
  | Ok ds => load_series_in ds path variable
  end.

(** ** Return levels *)

(** [{p: float(genextreme.ppf(1 - 1 / p, shape, loc=loc, scale=scale))
      for p in periods}], built left to right. *)
Fixpoint levels_of (genextreme : Genextreme A) (shape loc scale : A)
    (periods : list Z) (levels : idict A) : result (idict A) :=
  match periods with
  | [] => Ok levels
  | p :: periods' =>
      if p =? 0 then Raise (ZeroDivisionError "division by zero")
      else
        let q := sub (of_Z 1) (div (of_Z 1) (of_Z p)) in
        levels_of genextreme shape loc scale periods'
          (idict_set levels p (ppf genextreme q shape loc scale))
  end.

Definition compute_return_levels (data : DataArray A) (periods : list Z)
  : result (idict A) :=
  match scipy_stats with
  | None =>
      Raise (ImportError
               "scipy é necessário para cálculo de período de retorno.")
  | Some genextreme =>
      let values := values data in
      let values := filter isfinite values in
      if (List.length values <? 5)%nat then
        Raise (ValueError "Série muito curta para estimar extremos.")
      else
        match fit genextreme values with
        | Raise e => Raise e
        | Ok (shape, loc, scale) =>
            levels_of genextreme shape loc scale periods []
        end
  end.

(** ** Name lookup

    The functions from array to array that analysis.py defines at module
    level.  Calling a name that no [def], assignment or [import] of the
    module binds raises [NameError] when the call is reached. *)
Definition module_function (name : string)
  : option (DataArray A -> DataArray A) :=
  if String.eqb name "spatial_mean" then Some spatial_mean
  else if String.eqb name "annual_mean" then Some annual_mean
  else if String.eqb name "annual_sum" then Some annual_sum
  else None.

Definition call (name : string) (da : DataArray A) : result (DataArray A) :=
  match module_function name with
  | Some f => Ok (f da)
  | None => Raise (NameError ("name '" ++ name ++ "' is not defined"))
  end.

(** ** [main], block by block *)

(** Lines 389-391. *)
Definition main_hist_path (args : Args) : M (Ev := event) Path :=
  let hist_path :=
    or_else (historical_file args)
            (find_file (data_dir args) "historical" (variable args)) in
  match hist_path with
  | None =>
      raise (FileNotFoundError
        "Arquivo histórico não encontrado. Use --historical-file ou baixe em date/historico.")
  | Some hist_path => ret hist_path
  end.

(** The path [main] uses for a scenario (lines 403 and 427). *)
Definition scenario_path (args : Args) (experiment : string) : option Path :=
  or_else (dict_get (scenario_map args) experiment)
          (find_file (data_dir args) experiment (variable args)).

(** Lines 402-407: the loop over [args.experiments]. *)
Fixpoint main_load_scenarios (args : Args) (experiments : list string)
    (scenario_series : dict (DataArray A))
  : M (Ev := event) (dict (DataArray A)) :=
  match experiments with
  | [] => ret scenario_series
  | experiment :: experiments' =>
      match scenario_path args experiment with
      | None =>
          emit (Print ("[aviso] Arquivo não encontrado para " ++ experiment
                         ++ ". Pulei.")) ;;;
          main_load_scenarios args experiments' scenario_series
      | Some path =>
          series <- lift (load_series path (variable args)) ;;
          main_load_scenarios args experiments'
            (dict_set scenario_series experiment series)
      end
  end.

(** Lines 414-416: [hist_mean_scalar]. *)
Definition main_hist_mean_scalar (agg_method : string)
    (hist_series : DataArray A) (scenario_series : dict (DataArray A))
  : result A :=
  let hist_annual := annual_aggregate hist_series agg_method in
  let scenario_annual :=
    dict_map (fun v => annual_aggregate v agg_method) scenario_series in
  let annual_series := dict_update [("historical", hist_annual)] scenario_annual in
  let annual_means := dict_map da_mean annual_series in
  match dict_get annual_means "historical" with
  | Some m => Ok m
  | None => Raise (KeyError "historical")
  end.

(** Lines 414-420: [annual_anoms]. *)
Definition main_annual_anoms (agg_method : string)
    (hist_series : DataArray A) (scenario_series : dict (DataArray A))
  : result (dict (DataArray A)) :=
  let scenario_annual :=
    dict_map (fun v => annual_aggregate v agg_method) scenario_series in
  match main_hist_mean_scalar agg_method hist_series scenario_series with
  | Raise e => Raise e
  | Ok hist_mean_scalar =>
      Ok (dict_map (fun arr => da_sub_scalar arr hist_mean_scalar)
                   scenario_annual)
  end.

(** Lines 423-428: [wind_dirs]. *)
Fixpoint main_wind_dirs_loop (args : Args) (names : list string)
    (wind_dirs : dict (option (DataArray A)))
  : result (dict (option (DataArray A))) :=
  match names with
  | [] => Ok wind_dirs
  | experiment :: names' =>
      match scenario_path args experiment with
      | None => main_wind_dirs_loop args names' (dict_set wind_dirs experiment None)
      | Some path =>
          match load_wind_direction path with
          | Raise e => Raise e
          | Ok d => main_wind_dirs_loop args names' (dict_set wind_dirs experiment d)
          end
      end
  end.

Definition main_wind_dirs (args : Args) (hist_path : Path)
    (scenario_series : dict (DataArray A))
  : result (dict (option (DataArray A))) :=
  if str_in (variable args) WIND_SPEED_NAMES then
    match load_wind_direction hist_path with
    | Raise e => Raise e
    | Ok d =>
        main_wind_dirs_loop args (dict_keys scenario_series)
          (dict_set [] "historical" d)
    end
  else Ok [].

(** Lines 436-438: the loop of the [try] block.  [return_levels] is
    assigned to as the loop goes, so what was stored before an exception
    stays stored. *)
Fixpoint main_levels_loop (items : dict (DataArray A)) (periods : list Z)
    (return_levels : dict (idict A)) : dict (idict A) * result unit :=
  match items with
  | [] => (return_levels, Ok tt)
  | (name, series) :: items' =>
      match call "annual_max" series with
      | Raise e => (return_levels, Raise e)
      | Ok scen_max =>
          match compute_return_levels scen_max periods with
          | Raise e => (return_levels, Raise e)
          | Ok levels =>
              main_levels_loop items' periods
                (dict_set return_levels name levels)
          end
      end
  end.

(** Lines 434-438: the [try] block. *)
Definition main_levels_try (hist_series : DataArray A)
    (scenario_series : dict (DataArray A)) (periods : list Z)
    (return_levels : dict (idict A)) : dict (idict A) * result unit :=
  match call "annual_max" hist_series with
  | Raise e => (return_levels, Raise e)
  | Ok hist_max =>
      match compute_return_levels hist_max periods with
      | Raise e => (return_levels, Raise e)
      | Ok levels =>
          main_levels_loop scenario_series periods
            (dict_set return_levels "historical" levels)
      end
  end.

(** Lines 431-440: [return_levels]. *)
Definition main_return_levels (args : Args) (hist_series : DataArray A)
    (scenario_series : dict (DataArray A))
  : M (Ev := event) (dict (idict A)) :=
  let return_levels := [] in
  if str_in (variable args) WIND_SPEED_NAMES then
    match main_levels_try hist_series scenario_series (return_periods args)
                          return_levels with
    | (return_levels, Ok _) => ret return_levels
    | (return_levels, Raise exc) =>
        emit (Print ("[aviso] Não foi possível calcular níveis de retorno: "
                       ++ exn_str exc)) ;;;
        ret return_levels
    end
  else ret return_levels.

(** ** Rendering: what is printed and which files are written *)

Definition plot (output : Path) : M (Ev := event) unit :=
  perform world (SaveFig output).

Definition plot_wind_rose (directions : dict (option (DataArray A)))
    (output : Path) : M (Ev := event) unit :=
  let valid :=
    filter (fun kv => match snd kv with Some _ => true | None => false end)
           directions in
  match valid with
  | [] =>
      emit (Print
        "[aviso] Rosa dos ventos ignorada: componentes de vento (u/v) não encontrados.")
  | _ => plot output
  end.

Definition plot_return_levels (levels : dict (idict A)) (output : Path)
  : M (Ev := event) unit :=
  match levels with
  | [] => emit (Print "[aviso] Nenhum nível de retorno calculado.")
  | _ => plot output
  end.

(** Lines 442-451. *)
Definition main_render (args : Args)
    (wind_dirs : dict (option (DataArray A)))
    (return_levels : dict (idict A)) : M (Ev := event) unit :=
  let output_dir := output_dir args in
  let file kind := path_div output_dir (variable args ++ kind) in
  plot (file "_climatologia_mensal.png") ;;;
  plot (file "_serie_anual.png") ;;;
  plot (file "_anomalias_mensais.png") ;;;
  plot (file "_anomalias_anuais.png") ;;;
  (if str_in (variable args) WIND_SPEED_NAMES then
     plot_wind_rose wind_dirs (file "_rosa_dos_ventos.png") ;;;
     plot_return_levels return_levels (file "_niveis_retorno.png")
   else ret tt) ;;;
  emit (Print ("[ok] Gráficos salvos em " ++ path_str output_dir)).

(** Lines 409-451: [main] from the end of the loop over the scenarios on.
    What the figures show is not modelled, so the climatologies and
    anomalies reach no event; they are computed where the source computes
    them all the same, because computing them may raise.  The annual
    anomalies of lines 415-420 are those of [main_annual_anoms]. *)
Definition main_with_scenarios (args : Args) (hist_path : Path)
    (hist_series : DataArray A) (hist_clim : Climatology A)
    (scenario_series : dict (DataArray A)) : M (Ev := event) unit :=
  let agg_method := get_agg_method (variable args) in
  match scenario_series with
  | [] => raise (FileNotFoundError "Nenhum arquivo de cenário encontrado.")
  | _ =>
      scenario_clims <-
        lift (dict_traverse (fun v => run_monthly_climatology v agg_method)
                            scenario_series) ;;
      let monthly_anoms :=
        dict_map (fun clim => clim_sub clim hist_clim) scenario_clims in
      scenario_annual <-
        lift (dict_traverse (fun v => run_annual_aggregate v agg_method)
                            scenario_series) ;;
      annual_anoms <- lift (main_annual_anoms agg_method hist_series
                                              scenario_series) ;;
      wind_dirs <- lift (main_wind_dirs args hist_path scenario_series) ;;
      return_levels <- main_return_levels args hist_series scenario_series ;;
      main_render args wind_dirs return_levels
  end.

(** [main], from the parsed command line on. *)
Definition main (args : Args) : M (Ev := event) unit :=
  hist_path <- main_hist_path args ;;
  hist_series <- lift (load_series hist_path (variable args)) ;;
  let agg_method := get_agg_method (variable args) in
  hist_clim <- lift (run_monthly_climatology hist_series agg_method) ;;
  hist_annual <- lift (run_annual_aggregate hist_series agg_method) ;;
  scenario_series <- main_load_scenarios args (experiments args) [] ;;
  main_with_scenarios args hist_path hist_series hist_clim scenario_series.

(** ** Words of the specification, to compare [main] with *)

(** The warning printed for a scenario whose file is not found. *)
Definition skip_warning (experiment : string) : event :=
  Print ("[aviso] Arquivo não encontrado para " ++ experiment ++ ". Pulei.").

(** The experiments for which [main] has no path. *)
Definition skipped (args : Args) (experiments : list string) : list string :=
  filter (fun e => match scenario_path args e with
                   | None => true
                   | Some _ => false
                   end) experiments.

(** A series covers the [n] calendar years from [y0] on: every month of
    each of these years has a sample, and there is no sample outside. *)
Definition covers_full_years (da : DataArray A) (y0 n : Z) : Prop :=
  (forall tv, In tv (samples da) ->
     y0 <= year (fst tv) < y0 + n /\ 1 <= month (fst tv) <= 12)
  /\ (forall y m, y0 <= y < y0 + n -> 1 <= m <= 12 ->
        exists tv, In tv (samples da)
                   /\ year (fst tv) = y /\ month (fst tv) = m).

(** The values of month [m] of year [y], and their monthly aggregate. *)
Definition month_of_year (da : DataArray A) (y m : Z) : list A :=
  map snd (filter (fun tv => (year (fst tv) =? y) && (month (fst tv) =? m))
                  (samples da)).

Definition monthly_value (method : string) (da : DataArray A) (y m : Z) : A :=
  if String.eqb method "sum" then nansum (month_of_year da y m)
  else nanmean (month_of_year da y m).

(** The estimate for a return period [p]: the inverse CDF at [1 - 1/p]. *)
Definition estimate (genextreme : Genextreme A) (shape loc scale : A) (p : Z)
  : A :=
  ppf genextreme (sub (of_Z 1) (div (of_Z 1) (of_Z p))) shape loc scale.

End Tool.

(** ** Sample inputs *)

Definition path_eqb (p q : Path) : bool :=
  if list_eq_dec string_dec p q then true else false.

(** A data directory with two files for ssp1_2_6 and no historical
    folder; [b.nc] was modified last. *)
Definition sample_fs : FileSystem :=
  {| exists_ := fun p => path_eqb p ["date"; "projecao"];
     glob := fun folder pattern =>
       if path_eqb folder ["date"; "projecao"]
          && String.eqb pattern "*ssp1_2_6*tas*.nc"
       then [ ["date"; "projecao"; "a_ssp1_2_6_tas.nc"];
              ["date"; "projecao"; "b_ssp1_2_6_tas.nc"] ]
       else [];
     st_mtime := fun p =>
       if path_eqb p ["date"; "projecao"; "b_ssp1_2_6_tas.nc"] then 20
       else 10 |}.

Definition ymd (y m d : Z) : Timestamp := {| year := y; month := m; day := d |}.

Import Exact.

(** Air temperature in Kelvin, one value in each of two years. *)
Definition tas_kelvin : DataArray xq :=
  {| dims := ["time"];
     attrs := [("units", "K")];
     samples := [ (ymd 2000 7 1, Fin 290); (ymd 2001 7 1, Fin 292) ] |}.

Definition time_coord : DataArray xq :=
  {| dims := ["time"]; attrs := [];
     samples := [ (ymd 2000 7 1, Fin 0); (ymd 2001 7 1, Fin 1) ] |}.

(** A file that holds the temperature under its alias [tas]. *)
Definition sample_ds : Dataset xq :=
  {| data_vars := [("tas", tas_kelvin)]; coords := [("time", time_coord)] |}.

(** A reduction over space for arrays whose steps already hold one value. *)
Definition sample_xr_mean (da : DataArray xq) (over : list string)
  : DataArray xq :=
  {| dims := filter (fun d => negb (str_in d over)) (dims da);
     attrs := attrs da; samples := samples da |}.

(** An xarray that sorts the arrays that have the dimension [time] and
    resamples the arrays that have a time step.  The messages stand for
    xarray's. *)
Definition sample_xr : Xarray xq :=
  {| sortby_raises := fun da =>
       if str_in "time" (dims da) then None
       else Some (KeyError "No variable named 'time'");
     resample_raises := fun freq da =>
       match samples da with
       | [] => Some (ValueError ("cannot resample an empty array to " ++ freq))
       | _ => None
       end |}.

(** A stand-in for scipy: the fit always returns, the inverse CDF is the
    location moved by the probability. *)
Definition sample_genextreme : Genextreme xq :=
  {| fit := fun _ => Ok (Fin 0, Fin 10, Fin 1);
     ppf := fun q _ loc _ => add loc q |}.

(** Five finite annual maxima and one NaN. *)
Definition five_maxima : DataArray xq :=
  {| dims := ["time"]; attrs := [];
     samples := [ (ymd 2000 12 31, Fin 11); (ymd 2001 12 31, Fin 12);
                  (ymd 2002 12 31, NaN); (ymd 2003 12 31, Fin 13);
                  (ymd 2004 12 31, Fin 14); (ymd 2005 12 31, Fin 15) ] |}.

(** A wind-speed run over the sample directory. *)
Definition wind_args : Args :=
  {| variable := "near_surface_wind_speed";
     experiments := ["ssp1_2_6"; "ssp5_8_5"];
     historical_file := None;
     scenario_map := [];
     data_dir := ["date"];
     output_dir := ["img"];
     return_periods := [10; 20; 50] |}.

(** A temperature run over the sample directory, where every file opens as
    the sample dataset. *)
Definition tas_args : Args :=
  {| variable := "tas";
     experiments := ["ssp1_2_6"; "ssp5_8_5"];
     historical_file := None;
     scenario_map := [];
     data_dir := ["date"];
     output_dir := ["img"];
     return_periods := [10; 20; 50] |}.

Definition sample_open (path : Path) : result (Dataset xq) := Ok sample_ds.

(** What [load_series] makes of the sample dataset: degrees Celsius. *)
Definition tas_celsius_sample : DataArray xq :=
  {| dims := ["time"];
     attrs := [("units", "degC")];
     samples := [ (ymd 2000 7 1, Fin (337 # 20));
                  (ymd 2001 7 1, Fin (377 # 20)) ] |}.



(** A file that holds the temperature twice, in degrees Celsius, under
    the two aliases of the canonical name and with different values. *)
Definition tas_celsius : DataArray xq :=
  {| dims := ["time"];
     attrs := [("units", "degC")];
     samples := [ (ymd 2000 7 1, Fin 10); (ymd 2001 7 1, Fin 12) ] |}.

Definition t2m_celsius : DataArray xq :=
  {| dims := ["time"];
     attrs := [("units", "degC")];
     samples := [ (ymd 2000 7 1, Fin 20); (ymd 2001 7 1, Fin 22) ] |}.

Definition two_alias_ds : Dataset xq :=
  {| data_vars := [("t2m", t2m_celsius); ("tas", tas_celsius)];
     coords := [("time", time_coord)] |}.

(** Two samples in each of two years: the annual means are 2 and 6. *)
Definition two_years : DataArray xq :=
  {| dims := ["time"]; attrs := [];
     samples := [ (ymd 2000 1 15, Fin 1); (ymd 2000 7 15, Fin 3);
                  (ymd 2001 1 15, Fin 5); (ymd 2001 7 15, Fin 7) ] |}.

(** The same series in binary64. *)
Definition two_years_binary64 : DataArray float :=
  {| dims := ["time"]; attrs := [];
     samples := [ (ymd 2000 1 15, 1%float); (ymd 2000 7 15, 3%float);
                  (ymd 2001 1 15, 5%float); (ymd 2001 7 15, 7%float) ] |}.

(** Two samples in one year. *)
Definition one_year : DataArray xq :=
  {| dims := ["time"]; attrs := [];
     samples := [ (ymd 2000 1 15, Fin 1); (ymd 2000 7 15, Fin 3) ] |}.

(** One value in the middle of each month of 2000: the number of the
    month. *)
Definition full_year : DataArray xq :=
  {| dims := ["time"]; attrs := [];
     samples := map (fun m => (ymd 2000 m 15, Fin (inject_Z m)))
                    (range 1 13) |}.

End Analysis.

(* ================================================================== *)
(** * More of the Python prelude: text *)
(* ================================================================== *)

Module Text.

(** [int(s)] for a decimal numeral with an optional minus sign. *)
Definition int_of_str (s : string) : option Z :=
  option_map Z.of_int (NilZero.int_of_string s).

(** The ASCII characters [str.strip()] takes for whitespace. *)
Definition is_space (c : ascii) : bool :=
  let n := nat_of_ascii c in
  (((9 <=? n) && (n <=? 13)) || ((28 <=? n) && (n <=? 32)))%nat.

(** [s.lstrip()]. *)
Fixpoint lstrip (s : string) : string :=
  match s with
  | EmptyString => EmptyString
  | String c s' => if is_space c then lstrip s' else s
  end.

(** [s.rstrip()]. *)
Fixpoint rstrip (s : string) : string :=
  match s with
  | EmptyString => EmptyString
  | String c s' =>
      match rstrip s' with
      | EmptyString => if is_space c then EmptyString else String c EmptyString
      | t => String c t
      end
  end.

(** [s.strip()]. *)
Definition strip (s : string) : string := rstrip (lstrip s).

(** [s.split(sep, 1)] for a one-character [sep]: the text before the first
    [sep] and the text after it, or nothing when [sep] does not occur. *)
Fixpoint split_once (sep : ascii) (s : string) : option (string * string) :=
  match s with
  | EmptyString => None
  | String c s' =>
      if Ascii.eqb c sep then Some (EmptyString, s')
      else match split_once sep s' with
           | Some (before, after) => Some (String c before, after)
           | None => None
           end
  end.

(** [s.endswith(suffix)]. *)
Definition endswith (suffix s : string) : bool :=
  let n := String.length s in
  let m := String.length suffix in
  (m <=? n)%nat && String.eqb (substring (n - m) m s) suffix.

(** Every character of [s] is whitespace. *)
Fixpoint all_space (s : string) : bool :=
  match s with
  | EmptyString => true
  | String c s' => is_space c && all_space s'
  end.

End Text.

(* ================================================================== *)
(** * analysis.py: command line, labels, the dataset loader, wind *)
(* ================================================================== *)

Module AnalysisRest.
Import Text Analysis.

Definition WIND_U_ALIASES : list string :=
  ["uas"; "u10"; "eastward_wind"; "eastward_near_surface_wind"].
Definition WIND_V_ALIASES : list string :=
  ["vas"; "v10"; "northward_wind"; "northward_near_surface_wind"].

(** ** [parse_scenario_files] *)

Section Cli.
(** [pathlib.Path(text)]. *)
Variable Path_ : string -> Path.

(** The loop of [parse_scenario_files], from a mapping built so far. *)
Fixpoint parse_scenario_files_from (pairs : list string) (mapping : dict Path)
  : result (dict Path) :=
  match pairs with
  | [] => Ok mapping
  | item :: pairs' =>
      if negb (contains "=" item) then
        Raise (ValueError ("Formato inválido em --scenario-file: " ++ item
                             ++ ". Use experimento=arquivo.nc"))
      else
        match split_once "=" item with
        | Some (name, path) =>
            parse_scenario_files_from pairs'
              (dict_set mapping (strip name) (Path_ (strip path)))
        | None =>
            Raise (ValueError "not enough values to unpack (expected 2, got 1)")
        end
  end.

Definition parse_scenario_files (pairs : list string) : result (dict Path) :=
  parse_scenario_files_from pairs [].

(** What one well-formed item binds. *)
Definition binding_of (item : string) : option (string * Path) :=
  match split_once "=" item with
  | Some (name, path) => Some (strip name, Path_ (strip path))
  | None => None
  end.

(** The binding of [name] by the last item that names it. *)
Definition last_binding (pairs : list string) (name : string) : option Path :=
  match find (fun b => match b with
                       | Some (n, _) => String.eqb name n
                       | None => false
                       end) (rev (map binding_of pairs)) with
  | Some (Some (_, p)) => Some p
  | _ => None
  end.

End Cli.

(** ** [format_label] and the label of the value axis *)

(** [format_label]; [units] is [None] or a string, and the empty string is
    falsy. *)
Definition format_label (variable : string) (units : option string) : string :=
  match units with
  | Some u => if String.eqb u "" then variable
              else variable ++ " (" ++ u ++ ")"
  | None => variable
  end.

(** [main], lines 394-395. *)
Definition main_y_label {A} (args : Args) (hist_series : DataArray A) : string :=
  let text :=
    strip (match dict_get (attrs hist_series) "units" with
           | Some u => u
           | None => ""
           end) in
  let units := if String.eqb text "" then None else Some text in
  format_label (variable args) units.

(** ** [open_dataset_maybe_zip] *)

(** What the loader does to the outside world. *)
Inductive io_event : Type :=
| MkTemp (td : Path)
| RmTemp (td : Path)
| ZipOpen (archive : Path)
| ZipExtract (archive : Path) (member : string) (td : Path)
| ZipClose (archive : Path)
| OpenDataset (file : Path)
| CloseDataset (file : Path).

(** What the loader asks the outside world: pathlib's [path.suffix], the
    directory [tempfile.TemporaryDirectory()] makes, the member names of an
    archive (or what opening it raises), whether an extraction raises, and
    the dataset [xr.open_dataset] reads (or what it raises). *)
Record Files (A : Type) : Type := {
  suffix : Path -> string;
  tempdir : Path;
  zip_namelist : Path -> result (list string);
  zip_extract : Path -> string -> Path -> option exn;
  xr_open_dataset : Path -> result (Dataset A)
}.
Arguments suffix {A} _ _.
Arguments tempdir {A} _.
Arguments zip_namelist {A} _ _.
Arguments zip_extract {A} _ _ _ _.
Arguments xr_open_dataset {A} _ _.

(** What is held open: a temporary directory, an archive, a dataset. *)
Inductive resource : Type :=
| Temp (td : Path)
| Zip (archive : Path)
| Data (file : Path).

(** The resources held after a sequence of events, innermost first,
    starting from [stack]; nothing when an event releases what is not the
    innermost resource held, or extracts from an archive that is not. *)
Fixpoint held (log : list io_event) (stack : list resource)
  : option (list resource) :=
  match log with
  | [] => Some stack
  | MkTemp td :: log' => held log' (Temp td :: stack)
  | ZipOpen p :: log' => held log' (Zip p :: stack)
  | OpenDataset p :: log' => held log' (Data p :: stack)
  | ZipExtract p _ _ :: log' =>
      match stack with
      | Zip p' :: _ => if path_eqb p p' then held log' stack else None
      | _ => None
      end
  | RmTemp td :: log' =>
      match stack with
      | Temp td' :: stack' => if path_eqb td td' then held log' stack' else None
      | _ => None
      end
  | ZipClose p :: log' =>
      match stack with
      | Zip p' :: stack' => if path_eqb p p' then held log' stack' else None
      | _ => None
      end
  | CloseDataset p :: log' =>
      match stack with
      | Data p' :: stack' => if path_eqb p p' then held log' stack' else None
      | _ => None
      end
  end.

Section Loader.
Context {A : Type} `{Dtype A}.
Variable keep_attrs : bool.
Variable xr_mean : DataArray A -> list string -> DataArray A.
Variable xr : Xarray A.
Variable io : Files A.
(** The array [(np.degrees(np.arctan2(-u, -v)) + 360) % 360]. *)
Variable direction_of : DataArray A -> DataArray A -> DataArray A.

(** [try: c  finally: release], and the exit of a [with] block. *)
Definition finally {B} (c : M (Ev := io_event) B) (release : io_event)
  : M (Ev := io_event) B :=
  ((events c ++ [release])%list, outcome c).

(** [xr.open_dataset(file)]. *)
Definition xr_open (file : Path) : M (Ev := io_event) (Dataset A) :=
  match xr_open_dataset io file with
  | Ok ds => ([OpenDataset file], Ok ds)
  | Raise e => ([], Raise e)
  end.

(** [with open_dataset_maybe_zip(path) as ds: body ds]. *)
Definition open_dataset_maybe_zip {B} (path : Path)
    (body : Dataset A -> result B) : M (Ev := io_event) B :=
  if String.eqb (lower (suffix io path)) ".zip" then
    let td := tempdir io in
    emit (MkTemp td) ;;;
    finally
      (member <-
         match zip_namelist io path with
         | Raise e => raise e
         | Ok names =>
             emit (ZipOpen path) ;;;
             finally
               (let members := filter (endswith ".nc") names in
                match members with
                | [] =>
                    raise (FileNotFoundError
                             ("Nenhum .nc dentro do zip: " ++ path_str path))
                | member :: _ =>
                    match zip_extract io path member td with
                    | Some e => raise e
                    | None => emit (ZipExtract path member td) ;;; ret member
                    end
                end)
               (ZipClose path)
         end ;;
       let nc_path := path_div td member in
       ds <- xr_open nc_path ;;
       finally (lift (body ds)) (CloseDataset nc_path))
      (RmTemp td)
  else
    ds <- xr_open path ;;
    finally (lift (body ds)) (CloseDataset path).

(** The dataset the [with] block hands to its body, or what is raised
    before the body is reached. *)
Definition opened (path : Path) : result (Dataset A) :=
  outcome (open_dataset_maybe_zip path (fun ds => Ok ds)).

(** [load_series], with the loader above. *)
Definition load_series (path : Path) (variable : string)
  : M (Ev := io_event) (DataArray A) :=
  open_dataset_maybe_zip path
    (fun ds => load_series_in keep_attrs xr_mean xr ds path variable).

(** The body of [load_wind_direction] once the dataset is open. *)
Definition load_wind_direction_in (ds : Dataset A)
  : result (option (DataArray A)) :=
  let u_name := find (ds_contains ds) WIND_U_ALIASES in
  let v_name := find (ds_contains ds) WIND_V_ALIASES in
  match u_name, v_name with
  | Some u_name, Some v_name =>
      match ds_getitem ds u_name with
      | Raise e => Raise e
      | Ok u =>
          match sortby_time_load xr (spatial_mean xr_mean u) with
          | Raise e => Raise e
          | Ok u =>
              match ds_getitem ds v_name with
              | Raise e => Raise e
              | Ok v =>
                  match sortby_time_load xr (spatial_mean xr_mean v) with
                  | Raise e => Raise e
                  | Ok v =>
                      let direction := direction_of u v in
                      Ok (Some (set_attr direction "units"
                                         "degrees_from_north"))
                  end
              end
          end
      end
  | _, _ => Ok None
  end.

Definition load_wind_direction (path : Path)
  : M (Ev := io_event) (option (DataArray A)) :=
  open_dataset_maybe_zip path load_wind_direction_in.

(** ** [main], lines 398 and 412-413: the monthly anomalies *)

Definition main_monthly_anoms (agg_method : string)
    (hist_series : DataArray A) (scenario_series : dict (DataArray A))
  : dict (Climatology A) :=
  let hist_clim := monthly_climatology keep_attrs hist_series agg_method in
  let scenario_clims :=
    dict_map (fun v => monthly_climatology keep_attrs v agg_method)
             scenario_series in
  dict_map (fun clim => clim_sub clim hist_clim) scenario_clims.

End Loader.

(** ** [main], from line 387 on *)

Section Run.
Context {A : Type} `{Dtype A}.
Variable keep_attrs : bool.
Variable xr_mean : DataArray A -> list string -> DataArray A.
Variable xr : Xarray A.
Variable scipy_stats : option (Genextreme A).
Variable fs : FileSystem.
Variable open_dataset_maybe_zip : Path -> result (Dataset A).
Variable load_wind_direction : Path -> result (option (DataArray A)).
Variable world : event -> option exn.
Variable Path_ : string -> Path.

(** [args] with a mapping for its scenarios. *)
Definition with_scenario_map (args : Args) (mapping : dict Path) : Args :=
  {| variable := variable args;
     experiments := experiments args;
     historical_file := historical_file args;
     scenario_map := mapping;
     data_dir := data_dir args;
     output_dir := output_dir args;
     return_periods := return_periods args |}.

(** [main] with line 387: [scenario_file] is [args.scenario_file], the
    items of the --scenario-file options in the order given, and the
    mapping made of them takes the place of [scenario_map args]. *)
Definition main_from (scenario_file : list string) (args : Args)
  : M (Ev := event) unit :=
  scenario_map <-
    lift (match scenario_file with
          | [] => Ok []
          | _ => parse_scenario_files Path_ scenario_file
          end) ;;
  Analysis.main keep_attrs xr_mean xr scipy_stats fs open_dataset_maybe_zip
    load_wind_direction world (with_scenario_map args scenario_map).

End Run.

(** ** Words to state the properties with *)

(** The values of year [y]. *)
Definition values_of_year {A} (da : DataArray A) (y : Z) : list A :=
  map snd (filter (fun tv => year (fst tv) =? y) (samples da)).

(** The time steps of [da] are in chronological order, as xarray's
    [resample] wants them and as [load_series] returns them. *)
Definition chronological {A} (da : DataArray A) : Prop :=
  StronglySorted (fun x y => ts_leb (fst x) (fst y) = true) (samples da).

(** The file a run writes for the return levels. *)
Definition return_levels_figure (args : Args) : Path :=
  path_div (output_dir args) (variable args ++ "_niveis_retorno.png").

(** The figures every run writes, in order. *)
Definition common_figures (args : Args) : list event :=
  map (fun kind => SaveFig (path_div (output_dir args) (variable args ++ kind)))
      [ "_climatologia_mensal.png"; "_serie_anual.png";
        "_anomalias_mensais.png"; "_anomalias_anuais.png" ].

(** ** Sample inputs *)

Import Exact.

(** pathlib's rule for [suffix]: the text from the last dot of the name on,
    unless that dot is the first or the last character. *)
Fixpoint from_last_dot (s : string) : option string :=
  match s with
  | EmptyString => None
  | String c s' =>
      match from_last_dot s' with
      | Some t => Some t
      | None => if Ascii.eqb c "." then Some s else None
      end
  end.

Definition sample_suffix (p : Path) : string :=
  match path_name p with
  | EmptyString => EmptyString
  | String _ rest =>
      match from_last_dot rest with
      | Some (String _ EmptyString) => EmptyString
      | Some t => t
      | None => EmptyString
      end
  end.

(** A world with one NetCDF file and two archives: one holds [tas.nc], the
    other no NetCDF member. *)
Definition sample_files : Files xq :=
  {| suffix := sample_suffix;
     tempdir := ["tmp"; "td"];
     zip_namelist := fun p =>
       if path_eqb p ["date"; "good.zip"] then Ok ["readme.txt"; "tas.nc"]
       else if path_eqb p ["date"; "empty.ZIP"] then Ok ["readme.txt"]
       else Raise (FileNotFoundError "no such archive");
     zip_extract := fun _ _ _ => None;
     xr_open_dataset := fun p =>
       if path_eqb p ["date"; "tas.nc"] || path_eqb p ["tmp"; "td"; "tas.nc"]
       then Ok sample_ds
       else Raise (FileNotFoundError "no such file") |}.

(** Eastward and northward wind, for a file that has both. *)
Definition wind_ds : Dataset xq :=
  {| data_vars := [("u10", tas_kelvin); ("vas", tas_kelvin)];
     coords := [("time", time_coord)] |}.

Definition sample_direction_of (u v : DataArray xq) : DataArray xq := u.

(** A series with a gap: samples in 2000 and in 2002, none in 2001. *)
Definition gap_years : DataArray xq :=
  {| dims := ["time"]; attrs := [];
     samples := [ (ymd 2000 1 15, Fin 1); (ymd 2000 7 15, Fin 3);
                  (ymd 2002 3 1, Fin 5) ] |}.

(** A temperature run whose historical file is named on the command line;
    the sample directory has a file for ssp1_2_6 and none for ssp5_8_5. *)
Definition history_args : Args :=
  {| variable := "tas";
     experiments := ["ssp1_2_6"; "ssp5_8_5"];
     historical_file := Some ["date"; "hist.nc"];
     scenario_map := [];
     data_dir := ["date"];
     output_dir := ["img"];
     return_periods := [10; 20; 50] |}.

(** The same run asked for ssp5_8_5 alone. *)
Definition no_scenario_args : Args :=
  {| variable := "tas";
     experiments := ["ssp5_8_5"];
     historical_file := Some ["date"; "hist.nc"];
     scenario_map := [];
     data_dir := ["date"];
     output_dir := ["img"];
     return_periods := [10; 20; 50] |}.

(** The same run with ssp5_8_5 first and its file named on the command
    line, where no such file is. *)
Definition gone_args : Args :=
  {| variable := "tas";
     experiments := ["ssp5_8_5"; "ssp1_2_6"];
     historical_file := Some ["date"; "hist.nc"];
     scenario_map := [("ssp5_8_5", ["date"; "gone.nc"])];
     data_dir := ["date"];
     output_dir := ["img"];
     return_periods := [10; 20; 50] |}.

(** Every file opens as the sample dataset but [date/gone.nc], which is
    not there. *)
Definition gone_open (path : Path) : result (Dataset xq) :=
  if path_eqb path ["date"; "gone.nc"]
  then Raise (FileNotFoundError
                "[Errno 2] No such file or directory: 'date/gone.nc'")
  else Ok sample_ds.

(** A wind-speed run with both files named on the command line. *)
Definition wind_only_args : Args :=
  {| variable := "sfcWind";
     experiments := ["ssp1_2_6"];
     historical_file := Some ["date"; "hist.nc"];
     scenario_map := [("ssp1_2_6", ["date"; "wind.nc"])];
     data_dir := ["date"];
     output_dir := ["img"];
     return_periods := [10; 20; 50] |}.

(** Wind speed, one value in each of two years, out of order in time. *)
Definition sfc_wind : DataArray xq :=
  {| dims := ["time"; "lat"; "lon"];
     attrs := [("units", "m s-1")];
     samples := [ (ymd 2001 7 1, Fin 6); (ymd 2000 7 1, Fin 4) ] |}.

(** A file as API.py downloads it for the wind speed: the speed and no
    component. *)
Definition speed_ds : Dataset xq :=
  {| data_vars := [("sfcWind", sfc_wind)]; coords := [("time", time_coord)] |}.

Definition speed_open (path : Path) : result (Dataset xq) := Ok speed_ds.

(** A file whose temperature has the time dimension and no time step. *)
Definition empty_tas : DataArray xq :=
  {| dims := ["time"]; attrs := [("units", "degC")]; samples := [] |}.

Definition empty_ds : Dataset xq :=
  {| data_vars := [("tas", empty_tas)]; coords := [] |}.

Definition empty_open (path : Path) : result (Dataset xq) := Ok empty_ds.

End AnalysisRest.

(* ================================================================== *)
(** * API.py: a sample of a failing service *)
(* ================================================================== *)

Module APIRest.
Import API.

(** A service that fails the retrieval of the wind speed of ssp1_2_6 and
    nothing else. *)
Definition failing_world (ev : event) : option exn :=
  match ev with
  | Retrieve _ r _ =>
      if String.eqb (req_experiment r) "ssp1_2_6"
         && String.eqb (req_variable r) "near_surface_wind_speed"
      then Some (ExternalError "request failed")
      else None
  | _ => None
  end.

End APIRest.

(* ================================================================== *)
(** * Facts about the prelude *)
(* ================================================================== *)

Module PyFacts.

Lemma range_length (a b : Z) : List.length (range a b) = Z.to_nat (b - a).
Proof. unfold range. now rewrite length_map, length_seq. Qed.

Lemma range_nth (a b : Z) (i : nat) :
  (i < Z.to_nat (b - a))%nat ->
  nth_error (range a b) i = Some (a + Z.of_nat i).
Proof.
  intros Hi. unfold range.
  rewrite nth_error_map, nth_error_nth' with (d := 0%nat)
    by now rewrite length_seq.
  now rewrite seq_nth.
Qed.

Lemma range_empty (a b : Z) : b <= a -> range a b = [].
Proof.
  intros Hab. unfold range.
  replace (Z.to_nat (b - a)) with 0%nat by lia. reflexivity.
Qed.

Lemma range_cons (a b : Z) : a < b -> range a b = a :: range (a + 1) b.
Proof.
  intros Hab. unfold range.
  replace (Z.to_nat (b - a)) with (S (Z.to_nat (b - (a + 1)))) by lia.
  cbn [seq map]. f_equal; [lia |].
  rewrite <- seq_shift, map_map. apply map_ext. intros i. lia.
Qed.

Lemma range_snoc (a b : Z) : a <= b -> range a (b + 1) = (range a b ++ [b])%list.
Proof.
  intros Hab. unfold range.
  replace (Z.to_nat (b + 1 - a)) with (Z.to_nat (b - a) + 1)%nat by lia.
  rewrite seq_app, map_app. cbn. do 2 f_equal. lia.
Qed.

Lemma in_range (a b x : Z) : In x (range a b) <-> a <= x < b.
Proof.
  unfold range. rewrite in_map_iff. split.
  - intros (i & <- & Hi%in_seq). lia.
  - intros Hx. exists (Z.to_nat (x - a)). split; [lia |].
    apply in_seq. lia.
Qed.

Lemma getitem_first {A} (x : A) (l : list A) : getitem (x :: l) 0 = Ok x.
Proof.
  unfold getitem. cbn [List.length Z.ltb Z.compare orb].
  destruct (Z.leb_spec (Z.of_nat (S (List.length l))) 0); [lia |].
  reflexivity.
Qed.

Lemma getitem_last {A} (l : list A) (x : A) :
  getitem (l ++ [x])%list (-1) = Ok x.
Proof.
  unfold getitem. rewrite length_app. cbn [List.length Z.ltb Z.compare].
  set (n := Z.of_nat (List.length l + 1)).
  assert (Hn : -1 + n = Z.of_nat (List.length l)) by lia.
  rewrite Hn.
  destruct (Z.ltb_spec (Z.of_nat (List.length l)) 0); [lia |].
  destruct (Z.leb_spec n (Z.of_nat (List.length l))); [lia |].
  cbn [orb]. rewrite Nat2Z.id, nth_error_app2, Nat.sub_diag by lia.
  reflexivity.
Qed.

Lemma getitem_nil {A} (i : Z) :
  getitem (@nil A) i = Raise (IndexError "list index out of range").
Proof.
  unfold getitem. cbn [List.length Z.of_nat].
  destruct (i <? 0) eqn:Hi.
  - rewrite Z.add_0_r, Hi. reflexivity.
  - destruct (Z.leb_spec 0 i); [| apply Z.ltb_ge in Hi; lia].
    rewrite Hi. reflexivity.
Qed.

(** A loop whose body always returns performs the events of its bodies, in
    order, and returns. *)
Lemma for_each_ok {Ev A} (l : list A) (body : A -> M (Ev := Ev) unit)
    (evs : A -> list Ev) :
  (forall x, In x l -> body x = (evs x, Ok tt)) ->
  for_each l body = (flat_map evs l, Ok tt).
Proof.
  induction l as [| x l IH]; intros Hbody; [reflexivity |].
  cbn [for_each flat_map]. rewrite (Hbody x (or_introl eq_refl)).
  unfold bind. rewrite IH by (intros; apply Hbody; now right).
  reflexivity.
Qed.

(** A loop stops at the first body that raises. *)
Lemma for_each_raise {Ev A} (l1 l2 : list A) (x : A)
    (body : A -> M (Ev := Ev) unit) (evs : A -> list Ev)
    (out : list Ev) (e : exn) :
  (forall y, In y l1 -> body y = (evs y, Ok tt)) ->
  body x = (out, Raise e) ->
  for_each (l1 ++ x :: l2)%list body = ((flat_map evs l1 ++ out)%list, Raise e).
Proof.
  induction l1 as [| y l1 IH]; intros Hbody Hx.
  - cbn. rewrite Hx. reflexivity.
  - cbn [app for_each flat_map].
    rewrite (Hbody y (or_introl eq_refl)). unfold bind.
    rewrite IH by (auto; intros; apply Hbody; now right).
    now rewrite app_assoc.
Qed.

End PyFacts.

(* ================================================================== *)
(** * The retrieval driver *)
(* ================================================================== *)

Module APIFacts.
Import API PyFacts.

Lemma year_list_length (start end_ : Z) :
  start <= end_ ->
  Z.of_nat (List.length (year_list start end_)) = end_ - start + 1.
Proof.
  intros Hle. unfold year_list. rewrite length_map, range_length. lia.
Qed.

Lemma year_list_nth (start end_ i : Z) :
  0 <= i <= end_ - start ->
  nth_error (year_list start end_) (Z.to_nat i) = Some (str (start + i)).
Proof.
  intros Hi. unfold year_list.
  rewrite nth_error_map, range_nth by lia.
  cbn. do 2 f_equal. lia.
Qed.

Lemma year_list_empty (start end_ : Z) :
  start > end_ -> year_list start end_ = [].
Proof.
  intros Hgt. unfold year_list. now rewrite range_empty by lia.
Qed.

Lemma year_list_first (start end_ : Z) :
  start <= end_ -> getitem (year_list start end_) 0 = Ok (str start).
Proof.
  intros Hle. unfold year_list.
  rewrite range_cons by lia. cbn [map]. apply getitem_first.
Qed.

Lemma year_list_last (start end_ : Z) :
  start <= end_ -> getitem (year_list start end_) (-1) = Ok (str end_).
Proof.
  intros Hle. unfold year_list.
  rewrite range_snoc, map_app by lia. cbn [map]. apply getitem_last.
Qed.

(** [main] hands the historical years to "historical" and the scenario
    years to every other experiment. *)
Lemma years_for_range (args : Args) (e : string) :
  years_for args e
  = year_list (fst (year_range args e)) (snd (year_range args e)).
Proof. unfold years_for, year_range. now destruct (String.eqb e "historical"). Qed.

Lemma download_one_empty (world : event -> option exn) (v e : string)
    (area : list Q) (model : string) (dir : Path) :
  download_one world v e [] area model dir
  = ([], Raise (IndexError "list index out of range")).
Proof. reflexivity. Qed.

Lemma retrieved_app (l1 l2 : list event) :
  retrieved (l1 ++ l2)%list = (retrieved l1 ++ retrieved l2)%list.
Proof. unfold retrieved. apply flat_map_app. Qed.

Lemma made_dirs_app (l1 l2 : list event) :
  made_dirs (l1 ++ l2)%list = (made_dirs l1 ++ made_dirs l2)%list.
Proof. unfold made_dirs. apply flat_map_app. Qed.

Lemma retrieved_round (args : Args) (e : string) :
  retrieved (round_events args e)
  = map (fun v => path_str (target_of args e v)) (variables args).
Proof.
  unfold round_events. cbn [retrieved flat_map app].
  induction (variables args) as [| v vs IH]; [reflexivity |].
  cbn [flat_map map]. rewrite flat_map_app. cbn [flat_map app].
  now rewrite IH.
Qed.

Lemma made_dirs_round (args : Args) (e : string) :
  made_dirs (round_events args e)
  = [path_div (output_base args) (subdir_of e)].
Proof.
  unfold round_events. cbn [made_dirs flat_map app]. f_equal.
  induction (variables args) as [| v vs IH]; [reflexivity |].
  cbn [flat_map]. rewrite flat_map_app. cbn [flat_map app]. exact IH.
Qed.

Lemma retrieved_rounds (args : Args) (es : list string) :
  retrieved (flat_map (round_events args) es) = targets_of args es.
Proof.
  induction es as [| e es IH]; [reflexivity |].
  cbn [flat_map]. rewrite retrieved_app, retrieved_round, IH. reflexivity.
Qed.

Lemma made_dirs_rounds (args : Args) (es : list string) :
  made_dirs (flat_map (round_events args) es)
  = map (fun e => path_div (output_base args) (subdir_of e)) es.
Proof.
  induction es as [| e es IH]; [reflexivity |].
  cbn [flat_map map]. rewrite made_dirs_app, made_dirs_round, IH. reflexivity.
Qed.

Section Runs.
Variable world : event -> option exn.
Hypothesis world_calm : forall ev, world ev = None.

Lemma perform_calm (ev : event) : perform world ev = ([ev], Ok tt).
Proof. unfold perform. now rewrite world_calm. Qed.

Lemma download_one_ok (args : Args) (e v : string) :
  fst (year_range args e) <= snd (year_range args e) ->
  download_one world v e (years_for args e) (area args) (model args)
               (path_div (output_base args) (subdir_of e))
  = ([Retrieve DATASET (request_of args e v) (path_str (target_of args e v))],
     Ok (target_of args e v)).
Proof.
  intros Hle. unfold download_one, request_of.
  rewrite years_for_range, year_list_first, year_list_last by assumption.
  unfold lift, bind. rewrite perform_calm. reflexivity.
Qed.

Lemma main_experiment_ok (args : Args) (e : string) :
  fst (year_range args e) <= snd (year_range args e) ->
  main_experiment world args e = (round_events args e, Ok tt).
Proof.
  intros Hle. unfold main_experiment, output_dir_for_experiment.
  rewrite perform_calm. cbn [bind ret app].
  fold (subdir_of e).
  erewrite for_each_ok; [reflexivity |].
  intros v _. rewrite download_one_ok by assumption. reflexivity.
Qed.

Lemma main_experiment_empty_range (args : Args) (e : string) :
  fst (year_range args e) > snd (year_range args e) ->
  variables args <> [] ->
  main_experiment world args e
  = ([Mkdir (path_div (output_base args) (subdir_of e))],
     Raise (IndexError "list index out of range")).
Proof.
  intros Hgt Hvars. unfold main_experiment, output_dir_for_experiment.
  rewrite perform_calm. cbn [bind ret app].
  fold (subdir_of e).
  destruct (variables args) as [| v vs]; [contradiction |].
  cbn [for_each]. unfold download_one.
  rewrite years_for_range, year_list_empty, getitem_nil by assumption.
  reflexivity.
Qed.

Lemma main_ok (args : Args) :
  (forall e, In e (experiments args) ->
             fst (year_range args e) <= snd (year_range args e)) ->
  main world args
  = (ClientInit :: flat_map (round_events args) (experiments args), Ok tt).
Proof.
  intros Hle. unfold main. rewrite perform_calm.
  erewrite for_each_ok; [reflexivity |].
  intros e He. now apply main_experiment_ok, Hle.
Qed.

Lemma main_halts (args : Args) (done rest : list string) (e : string) :
  experiments args = (done ++ e :: rest)%list ->
  (forall d, In d done ->
             fst (year_range args d) <= snd (year_range args d)) ->
  fst (year_range args e) > snd (year_range args e) ->
  variables args <> [] ->
  main world args
  = (ClientInit
       :: (flat_map (round_events args) done
             ++ [Mkdir (path_div (output_base args) (subdir_of e))])%list,
     Raise (IndexError "list index out of range")).
Proof.
  intros Hexp Hdone Hgt Hvars. unfold main. rewrite perform_calm, Hexp.
  erewrite for_each_raise; [reflexivity | |].
  - intros d Hd. now apply main_experiment_ok, Hdone.
  - now apply main_experiment_empty_range.
Qed.

End Runs.

(** C9.  When no call to the outside fails and the year range of every
    requested experiment has start <= end, a run of the driver ends
    normally, and: the years handed to an experiment are the historical
    range exactly when the experiment is "historical" and the scenario range
    otherwise; the run makes one directory per experiment, "historico" under
    the base for "historical" and "projecao" for any other; and it issues
    exactly one retrieval per (experiment, variable) pair, in order, whose
    target is the file
    <experiment>_<variable>_<first year>-<last year>_<model>.zip in that
    directory and whose request carries those years ([round_events]). *)
Theorem main_one_target_per_pair (world : event -> option exn) (args : Args) :
  (forall ev, world ev = None) ->
  (forall e, In e (experiments args) ->
             fst (year_range args e) <= snd (year_range args e)) ->
  (forall e, years_for args e
             = if String.eqb e "historical"
               then year_list (historical_start args) (historical_end args)
               else year_list (scenario_start args) (scenario_end args))
  /\ outcome (main world args) = Ok tt
  /\ events (main world args)
     = ClientInit :: flat_map (round_events args) (experiments args)
  /\ made_dirs (events (main world args))
     = map (fun e => path_div (output_base args)
                       (if String.eqb e "historical" then "historico"
                        else "projecao"))
           (experiments args)
  /\ retrieved (events (main world args))
     = flat_map (fun e => map (fun v => path_str (target_of args e v))
                              (variables args))
                (experiments args)
  /\ (forall e v, path_parent (target_of args e v)
                  = path_div (output_base args)
                      (if String.eqb e "historical" then "historico"
                       else "projecao"))
  /\ (forall e v, path_name (target_of args e v)
                  = e ++ "_" ++ v ++ "_"
                      ++ str (if String.eqb e "historical"
                              then historical_start args
                              else scenario_start args)
                      ++ "-"
                      ++ str (if String.eqb e "historical"
                              then historical_end args
                              else scenario_end args)
                      ++ "_" ++ model args ++ ".zip").
Proof.
  intros Hcalm Hle. rewrite (main_ok world Hcalm args Hle).
  cbn [outcome events fst snd]. repeat split.
  - cbn [made_dirs flat_map app]. fold (made_dirs (flat_map (round_events args) (experiments args))).
    apply made_dirs_rounds.
  - cbn [retrieved flat_map app]. fold (retrieved (flat_map (round_events args) (experiments args))).
    apply retrieved_rounds.
  - intros e v. unfold target_of, path_parent, path_div.
    now rewrite removelast_last.
  - intros e v. unfold target_of, path_name, path_div.
    rewrite last_last. unfold target_name, year_range.
    now destruct (String.eqb e "historical").
Qed.

(** The default run in a calm world. *)
Lemma main_one_target_per_pair_default :
  outcome (main calm default_args) = Ok tt
  /\ retrieved (events (main calm default_args))
     = [ "date/historico/historical_near_surface_air_temperature_1980-2014_ipsl_cm6a_lr.zip";
         "date/historico/historical_near_surface_wind_speed_1980-2014_ipsl_cm6a_lr.zip";
         "date/projecao/ssp1_2_6_near_surface_air_temperature_2015-2049_ipsl_cm6a_lr.zip";
         "date/projecao/ssp1_2_6_near_surface_wind_speed_2015-2049_ipsl_cm6a_lr.zip";
         "date/projecao/ssp5_8_5_near_surface_air_temperature_2015-2049_ipsl_cm6a_lr.zip";
         "date/projecao/ssp5_8_5_near_surface_wind_speed_2015-2049_ipsl_cm6a_lr.zip" ].
Proof.
  assert (Hcalm : forall ev, calm ev = None) by reflexivity.
  assert (Hle : forall e, In e (experiments default_args) ->
                  fst (year_range default_args e)
                  <= snd (year_range default_args e)).
  { intros e _. unfold year_range. destruct (String.eqb e "historical");
      cbn; lia. }
  destruct (main_one_target_per_pair calm default_args Hcalm Hle)
    as (_ & Hout & _ & _ & Hret & _ & _).
  split; [exact Hout |]. rewrite Hret. reflexivity.
Defined.

(** C10, as stated, fails: with the scenario years the wrong way round
    (2015 to 2010) and the default experiments, the run retrieves the two
    historical files before it halts on the first scenario. *)
Lemma inverted_scenario_run_retrieves :
  scenario_start inverted_scenario_args > scenario_end inverted_scenario_args
  /\ outcome (main calm inverted_scenario_args)
     = Raise (IndexError "list index out of range")
  /\ retrieved (events (main calm inverted_scenario_args))
     = [ "date/historico/historical_near_surface_air_temperature_1980-2014_ipsl_cm6a_lr.zip";
         "date/historico/historical_near_surface_wind_speed_1980-2014_ipsl_cm6a_lr.zip" ].
Proof. repeat split. Qed.

(** C10, amended.  [year_list start end] has end - start + 1 entries, the
    years from start upwards in order, when start <= end, and is empty when
    start > end; on an empty year list [download_one] raises IndexError
    before it calls the client.  So a run in which no outside call fails
    halts with that error at the first experiment whose year range has
    start > end: it has issued the retrievals of the experiments before it,
    and none for that experiment or a later one. *)
Theorem empty_year_range_halts (world : event -> option exn) (args : Args)
    (done rest : list string) (e : string) :
  (forall ev, world ev = None) ->
  experiments args = (done ++ e :: rest)%list ->
  (forall d, In d done ->
             fst (year_range args d) <= snd (year_range args d)) ->
  fst (year_range args e) > snd (year_range args e) ->
  variables args <> [] ->
  (forall start end_, start <= end_ ->
     Z.of_nat (List.length (year_list start end_)) = end_ - start + 1
     /\ forall i, 0 <= i <= end_ - start ->
          nth_error (year_list start end_) (Z.to_nat i)
          = Some (str (start + i)))
  /\ (forall start end_, start > end_ -> year_list start end_ = [])
  /\ (forall v x area model dir,
        download_one world v x [] area model dir
        = ([], Raise (IndexError "list index out of range")))
  /\ outcome (main world args) = Raise (IndexError "list index out of range")
  /\ retrieved (events (main world args)) = targets_of args done.
Proof.
  intros Hcalm Hexp Hdone Hgt Hvars.
  split; [| split; [| split]].
  - intros start end_ Hle. split.
    + now apply year_list_length.
    + intros i Hi. now apply year_list_nth.
  - apply year_list_empty.
  - intros. apply download_one_empty.
  - rewrite (main_halts world Hcalm args done rest e Hexp Hdone Hgt Hvars).
    cbn [outcome events fst snd]. split; [reflexivity |].
    cbn [retrieved flat_map app].
    fold (retrieved (flat_map (round_events args) done
                       ++ [Mkdir (path_div (output_base args) (subdir_of e))])%list).
    rewrite retrieved_app, retrieved_rounds. cbn. apply app_nil_r.
Qed.

(** The run with the scenario years the wrong way round: "historical" is
    done, "ssp1_2_6" is where it halts. *)
Lemma empty_year_range_halts_inverted_scenario :
  outcome (main calm inverted_scenario_args)
  = Raise (IndexError "list index out of range")
  /\ retrieved (events (main calm inverted_scenario_args))
     = targets_of inverted_scenario_args ["historical"].
Proof.
  assert (Hcalm : forall ev, calm ev = None) by reflexivity.
  assert (Hexp : experiments inverted_scenario_args
                 = (["historical"] ++ "ssp1_2_6" :: ["ssp5_8_5"])%list)
    by reflexivity.
  assert (Hdone : forall d, In d ["historical"] ->
            fst (year_range inverted_scenario_args d)
            <= snd (year_range inverted_scenario_args d)).
  { intros d [<- | []]. cbn. lia. }
  assert (Hgt : fst (year_range inverted_scenario_args "ssp1_2_6")
                > snd (year_range inverted_scenario_args "ssp1_2_6"))
    by (cbn; lia).
  assert (Hvars : variables inverted_scenario_args <> []) by discriminate.
  destruct (empty_year_range_halts calm inverted_scenario_args
              ["historical"] ["ssp5_8_5"] "ssp1_2_6"
              Hcalm Hexp Hdone Hgt Hvars) as (_ & _ & _ & Hout & Hret).
  exact (conj Hout Hret).
Defined.

End APIFacts.

(* ================================================================== *)
(** * The analysis tool *)
(* ================================================================== *)

Module AnalysisFacts.
Import Analysis PyFacts.

(** ** Sorting *)

Section SortFacts.
Context {T : Type} (key : T -> Z).

(** After [sort(key=..., reverse=True)] the first element is one of the
    list and no element has a larger key. *)
Lemma sort_desc_head (l : list T) :
  match sort_by Z.geb key l with
  | [] => l = []
  | p :: _ => In p l /\ forall q, In q l -> key q <= key p
  end.
Proof.
  induction l as [| x l IH]; [reflexivity |].
  cbn [sort_by fold_right]. fold (sort_by Z.geb key l).
  destruct (sort_by Z.geb key l) as [| p s].
  - subst l. cbn. split; [now left |]. intros q [<- | []]. lia.
  - destruct IH as [Hp Hmax]. cbn [insert_by].
    destruct (Z.geb_spec (key x) (key p)) as [Hxp | Hxp].
    + split; [now left |]. intros q [<- | Hq]; [lia |].
      specialize (Hmax q Hq). lia.
    + split; [now right |]. intros q [<- | Hq]; [lia | now apply Hmax].
Qed.

End SortFacts.

(** ** The file locator *)

Lemma find_file_candidates (fs : FileSystem) (base : Path)
    (experiment variable : string) :
  find_file fs base experiment variable
  = if negb (exists_ fs (folder_of base experiment)) then None
    else match candidates_of fs base experiment variable with
         | [] => None
         | _ => hd_error (sort_by Z.geb (st_mtime fs)
                            (candidates_of fs base experiment variable))
         end.
Proof. reflexivity. Qed.

(** C8.  [find_file] returns None when the subdirectory of the experiment
    does not exist, and when none of the four patterns matches a file;
    otherwise it returns a candidate than which no candidate was modified
    later. *)
Theorem find_file_most_recent (fs : FileSystem) (base : Path)
    (experiment variable : string) :
  (exists_ fs (path_div base (if String.eqb experiment "historical"
                              then "historico" else "projecao")) = false ->
   find_file fs base experiment variable = None)
  /\ ((forall pattern, In pattern (patterns_of experiment variable) ->
         glob fs (folder_of base experiment) pattern = []) ->
      find_file fs base experiment variable = None)
  /\ (exists_ fs (folder_of base experiment) = true ->
      candidates_of fs base experiment variable <> [] ->
      exists p,
        find_file fs base experiment variable = Some p
        /\ In p (candidates_of fs base experiment variable)
        /\ forall q, In q (candidates_of fs base experiment variable) ->
                     st_mtime fs q <= st_mtime fs p).
Proof.
  rewrite find_file_candidates. fold (folder_of base experiment).
  split; [| split].
  - intros ->. reflexivity.
  - intros Hglob.
    assert (Hnone : candidates_of fs base experiment variable = []).
    { unfold candidates_of.
      induction (patterns_of experiment variable) as [| pat pats IH];
        [reflexivity |].
      cbn [flat_map]. rewrite Hglob by now left.
      apply IH. intros; apply Hglob; now right. }
    rewrite Hnone. now destruct (negb _).
  - intros -> Hcand. cbn [negb].
    pose proof (sort_desc_head (st_mtime fs)
                  (candidates_of fs base experiment variable)) as Hhead.
    destruct (sort_by Z.geb (st_mtime fs)
                (candidates_of fs base experiment variable)) as [| p s];
      [contradiction |].
    exists p.
    destruct (candidates_of fs base experiment variable);
      [contradiction | now split].
Qed.

(** The sample directory: the ssp1_2_6 file modified last is found, and
    nothing is found for "historical", whose folder is missing. *)
Lemma find_file_most_recent_sample :
  find_file sample_fs ["date"] "historical" "tas" = None
  /\ exists p,
       find_file sample_fs ["date"] "ssp1_2_6" "tas" = Some p
       /\ In p (candidates_of sample_fs ["date"] "ssp1_2_6" "tas")
       /\ forall q, In q (candidates_of sample_fs ["date"] "ssp1_2_6" "tas") ->
                    st_mtime sample_fs q <= st_mtime sample_fs p.
Proof.
  split.
  - apply (proj1 (find_file_most_recent sample_fs ["date"] "historical" "tas")).
    reflexivity.
  - apply (proj2 (proj2 (find_file_most_recent sample_fs ["date"]
                           "ssp1_2_6" "tas"))).
    + reflexivity.
    + discriminate.
Defined.

(** ** Dictionaries *)

Lemma dict_get_set_same {V} (d : dict V) (k : string) (v : V) :
  dict_get (dict_set d k v) k = Some v.
Proof.
  unfold dict_get, dict_set.
  induction d as [| [k' v'] d IH]; cbn [assoc_set assoc_get].
  - now rewrite String.eqb_refl.
  - destruct (String.eqb k k') eqn:Hk; cbn [assoc_get]; rewrite Hk; auto.
Qed.

Lemma dict_get_set_other {V} (d : dict V) (k k' : string) (v : V) :
  k' <> k -> dict_get (dict_set d k v) k' = dict_get d k'.
Proof.
  intros Hne. unfold dict_get, dict_set.
  induction d as [| [k0 v0] d IH]; cbn [assoc_set assoc_get].
  - now rewrite (proj2 (String.eqb_neq k' k) Hne).
  - destruct (String.eqb_spec k k0) as [-> | Hk]; cbn [assoc_get].
    + now rewrite (proj2 (String.eqb_neq k' k0) Hne).
    + now rewrite IH.
Qed.

Lemma dict_get_map {V W} (f : V -> W) (d : dict V) (k : string) :
  dict_get (dict_map f d) k = option_map f (dict_get d k).
Proof.
  unfold dict_get, dict_map.
  induction d as [| [k' v'] d IH]; [reflexivity |].
  cbn [map assoc_get fst snd]. now destruct (String.eqb k k').
Qed.

(** ** Variable resolution *)

Section Loading.
Context {A : Type} `{Dtype A}.
Variable keep_attrs : bool.
Variable xr_mean : DataArray A -> list string -> DataArray A.
Variable xr : Xarray A.

Lemma resolve_target_literal (ds : Dataset A) (path : Path) (variable : string) :
  ds_contains ds variable = true ->
  resolve_target ds path variable = Ok variable.
Proof.
  intros Hlit. unfold resolve_target. cbv zeta. rewrite Hlit. cbn [negb].
  now rewrite Hlit.
Qed.

Lemma resolve_target_alias (ds : Dataset A) (path : Path)
    (variable a : string) :
  ds_contains ds variable = false ->
  find (ds_contains ds) (aliases_of variable) = Some a ->
  resolve_target ds path variable = Ok a.
Proof.
  intros Hlit Hfind. unfold resolve_target. cbv zeta. rewrite Hlit.
  cbn [negb]. rewrite Hfind. apply find_some in Hfind as [_ ->]. reflexivity.
Qed.

Lemma resolve_target_fallback (ds : Dataset A) (path : Path)
    (variable : string) :
  ds_contains ds variable = false ->
  find (ds_contains ds) (aliases_of variable) = None ->
  resolve_target ds path variable
  = match dict_keys (data_vars ds) with
    | [only] => Ok only
    | _ => Raise (KeyError ("Variável " ++ variable ++ " não encontrada em "
                              ++ path_name path ++ ". Disponíveis: "
                              ++ join ", " (dict_keys (data_vars ds))))
    end.
Proof.
  intros Hlit Hfind. unfold resolve_target. cbv zeta. rewrite Hlit.
  cbn [negb]. rewrite Hfind, Hlit. reflexivity.
Qed.

(** A name and its aliases are temperature names together. *)
Lemma alias_temp_name (variable a : string) :
  In a (aliases_of variable) ->
  str_in variable TEMP_NAMES = str_in a TEMP_NAMES.
Proof.
  unfold aliases_of, dict_get, ALIASES. cbn [assoc_get].
  repeat match goal with
         | |- context [String.eqb variable ?k] =>
             destruct (String.eqb_spec variable k) as [-> | _]
         end;
    cbn [In]; intros Hin;
    repeat match goal with
           | H : _ \/ _ |- _ => destruct H as [<- | H]
           | H : False |- _ => destruct H
           end; reflexivity.
Qed.

Lemma find_first_present (ds : Dataset A) (l : list string) (a : string) :
  In a l -> ds_contains ds a = true ->
  exists a', find (ds_contains ds) l = Some a'.
Proof.
  intros Hin Ha.
  destruct (find (ds_contains ds) l) as [a' |] eqn:Hfind; [now exists a' |].
  now rewrite (find_none _ _ Hfind a Hin) in Ha.
Qed.

Lemma ds_getitem_contains (ds : Dataset A) (name : string) :
  ds_contains ds name = true -> exists da, ds_getitem ds name = Ok da.
Proof.
  unfold ds_contains, ds_getitem.
  destruct (or_else _ _) as [da |]; [now exists da | discriminate].
Qed.

Lemma find_first_split {T} (f : T -> bool) (l : list T) (x : T) :
  find f l = Some x ->
  exists before after,
    l = (before ++ x :: after)%list
    /\ forall y, In y before -> f y = false.
Proof.
  induction l as [| z l IH]; [discriminate |]. cbn [find].
  destruct (f z) eqn:Hz.
  - intros [= ->]. exists [], l. split; [reflexivity | intros y []].
  - intros Hfind. destruct (IH Hfind) as (before & after & -> & Hbefore).
    exists (z :: before), after. split; [reflexivity |].
    intros y [<- | Hy]; [exact Hz | now apply Hbefore].
Qed.

(** C4.  [load_series] reads the requested name when the dataset has it;
    else the first alias of the name, in the order of ALIASES, that the
    dataset has; else the only data variable when there is exactly one; and
    else raises KeyError with the names of the data variables.  When the
    name itself is absent and an alias is present, the name resolves to
    the first alias of the list that is present, which is the alias at
    hand when no other alias is present, and loading by the name is
    loading by that alias: the same array is spatially averaged, converted
    and handed to [sortby], and the two calls end alike. *)
Theorem resolve_target_order (ds : Dataset A) (path : Path)
    (variable : string) :
  (ds_contains ds variable = true ->
   resolve_target ds path variable = Ok variable
   /\ exists da,
        ds_getitem ds variable = Ok da
        /\ load_series_in keep_attrs xr_mean xr ds path variable
           = sortby_time_load xr
               (convert_units keep_attrs variable variable
                  (spatial_mean xr_mean da)))
  /\ (ds_contains ds variable = false ->
      forall a, find (ds_contains ds) (aliases_of variable) = Some a ->
      resolve_target ds path variable = Ok a)
  /\ (ds_contains ds variable = false ->
      find (ds_contains ds) (aliases_of variable) = None ->
      forall only, dict_keys (data_vars ds) = [only] ->
      resolve_target ds path variable = Ok only)
  /\ (ds_contains ds variable = false ->
      find (ds_contains ds) (aliases_of variable) = None ->
      List.length (dict_keys (data_vars ds)) <> 1%nat ->
      resolve_target ds path variable
      = Raise (KeyError ("Variável " ++ variable ++ " não encontrada em "
                           ++ path_name path ++ ". Disponíveis: "
                           ++ join ", " (dict_keys (data_vars ds)))))
  /\ (ds_contains ds variable = false ->
      forall a, In a (aliases_of variable) -> ds_contains ds a = true ->
      exists a' da before after,
        aliases_of variable = (before ++ a' :: after)%list
        /\ (forall b, In b before -> ds_contains ds b = false)
        /\ ds_contains ds a' = true
        /\ ((forall b, In b (aliases_of variable) ->
                       ds_contains ds b = true -> b = a) -> a' = a)
        /\ resolve_target ds path variable = Ok a'
        /\ ds_getitem ds a' = Ok da
        /\ load_series_in keep_attrs xr_mean xr ds path variable
           = sortby_time_load xr
               (convert_units keep_attrs a' a' (spatial_mean xr_mean da))
        /\ load_series_in keep_attrs xr_mean xr ds path a'
           = load_series_in keep_attrs xr_mean xr ds path variable).
Proof.
  split.
  { intros Hlit. split; [now apply resolve_target_literal |].
    destruct (ds_getitem_contains ds variable Hlit) as [da Hda].
    exists da. split; [exact Hda |].
    unfold load_series_in.
    now rewrite (resolve_target_literal ds path variable Hlit), Hda. }
  split; [intros; now apply resolve_target_alias |].
  split.
  { intros Hlit Hfind only Hkeys.
    rewrite resolve_target_fallback, Hkeys by assumption. reflexivity. }
  split.
  { intros Hlit Hfind Hlen.
    rewrite resolve_target_fallback by assumption.
    destruct (dict_keys (data_vars ds)) as [| k [| k' ks]];
      [reflexivity | now contradiction Hlen | reflexivity]. }
  intros Hlit a Hin Ha.
  destruct (find_first_present ds _ a Hin Ha) as [a' Hfind].
  pose proof (find_some _ _ Hfind) as [Hin' Ha'].
  destruct (ds_getitem_contains ds a' Ha') as [da Hda].
  destruct (find_first_split _ _ _ Hfind) as (before & after & Hsplit & Hbefore).
  exists a', da, before, after.
  split; [exact Hsplit |]. split; [exact Hbefore |]. split; [exact Ha' |].
  split; [intros Honly; now apply Honly |].
  split; [now apply resolve_target_alias |]. split; [exact Hda |]. split.
  - unfold load_series_in.
    rewrite (resolve_target_alias ds path variable a' Hlit Hfind), Hda.
    unfold convert_units.
    now rewrite (alias_temp_name variable a' Hin').
  - unfold load_series_in.
    rewrite (resolve_target_alias ds path variable a' Hlit Hfind).
    rewrite (resolve_target_literal ds path a' Ha'), Hda.
    unfold convert_units.
    now rewrite (alias_temp_name variable a' Hin').
Qed.


Lemma kelvin_like_degC : kelvin_like (lower "degC") = false.
Proof. reflexivity. Qed.


End Loading.

(** The sample file read by the canonical name: the alias [tas] is found,
    and the result is what reading [tas] gives. *)
Lemma resolve_target_order_sample :
  resolve_target sample_ds ["f.nc"] "near_surface_air_temperature" = Ok "tas"
  /\ load_series_in true sample_xr_mean sample_xr sample_ds ["f.nc"] "tas"
     = load_series_in true sample_xr_mean sample_xr sample_ds ["f.nc"]
         "near_surface_air_temperature"
  /\ load_series_in true sample_xr_mean sample_xr sample_ds ["f.nc"]
       "near_surface_air_temperature" = Ok tas_celsius_sample.
Proof.
  destruct (proj2 (proj2 (proj2 (proj2
              (resolve_target_order true sample_xr_mean sample_xr sample_ds
                 ["f.nc"] "near_surface_air_temperature"))))
              eq_refl "tas" (or_introl eq_refl) eq_refl)
    as (a' & da & before & after & _ & _ & _ & Honly & Hres & _ & _ & Heq).
  assert (Ha' : a' = "tas").
  { apply Honly. intros b [<- | [<- | []]]; [reflexivity | discriminate]. }
  subst a'. exact (conj Hres (conj Heq eq_refl)).
Defined.

(** A file that has the temperature under both aliases: read by the
    canonical name it gives [tas], 10 and 12 degrees, although [t2m], 20
    and 22 degrees, is an alias of the name and is in the file. *)
Lemma later_alias_not_read :
  In "t2m" (aliases_of "near_surface_air_temperature")
  /\ ds_contains two_alias_ds "t2m" = true
  /\ load_series_in true sample_xr_mean sample_xr two_alias_ds ["f.nc"]
       "near_surface_air_temperature" = Ok tas_celsius
  /\ load_series_in true sample_xr_mean sample_xr two_alias_ds ["f.nc"]
       "t2m" = Ok t2m_celsius
  /\ values tas_celsius = [Exact.Fin 10; Exact.Fin 12]
  /\ values t2m_celsius = [Exact.Fin 20; Exact.Fin 22].
Proof.
  split; [cbn; tauto |]. repeat split; reflexivity.
Qed.


Example load_sample_celsius :
  option_map samples
    (match load_series_in true sample_xr_mean sample_xr sample_ds ["f.nc"]
             "near_surface_air_temperature" with
     | Ok out => Some out
     | Raise _ => None
     end)
  = Some [ (ymd 2000 7 1, Exact.Fin (337 # 20));
           (ymd 2001 7 1, Exact.Fin (377 # 20)) ].
Proof. reflexivity. Qed.

Example lit_273_15_binary64 :
  @lit_273_15 float _ = 0x1.1126666666666p+8%float.
Proof. reflexivity. Qed.

Example lit_273_15_exact : @lit_273_15 Exact.xq _ = Exact.Fin (5463 # 20).
Proof. reflexivity. Qed.

(** ** Return levels *)

Lemma idict_get_set_same {V} (d : idict V) (k : Z) (v : V) :
  idict_get (idict_set d k v) k = Some v.
Proof.
  unfold idict_get, idict_set.
  induction d as [| [k' v'] d IH]; cbn [assoc_set assoc_get].
  - now rewrite Z.eqb_refl.
  - destruct (Z.eqb k k') eqn:Hk; cbn [assoc_get]; rewrite Hk; auto.
Qed.

Lemma idict_get_set_other {V} (d : idict V) (k k' : Z) (v : V) :
  k' <> k -> idict_get (idict_set d k v) k' = idict_get d k'.
Proof.
  intros Hne. unfold idict_get, idict_set.
  induction d as [| [k0 v0] d IH]; cbn [assoc_set assoc_get].
  - now rewrite (proj2 (Z.eqb_neq k' k) Hne).
  - destruct (Z.eqb_spec k k0) as [-> | Hk]; cbn [assoc_get].
    + now rewrite (proj2 (Z.eqb_neq k' k0) Hne).
    + now rewrite IH.
Qed.

Lemma idict_set_keys {V} (d : idict V) (k : Z) (v : V) :
  map fst (idict_set d k v)
  = if in_dec Z.eq_dec k (map fst d) then map fst d
    else (map fst d ++ [k])%list.
Proof.
  unfold idict_set.
  induction d as [| [k' v'] d IH]; [reflexivity |].
  cbn [assoc_set map fst].
  destruct (Z.eqb_spec k k') as [-> | Hk].
  - cbn [map fst]. clear IH.
    destruct (in_dec Z.eq_dec k' (k' :: map fst d)) as [_ | Hn];
      [reflexivity |].
    exfalso. apply Hn. now left.
  - cbn [map fst]. rewrite IH.
    destruct (in_dec Z.eq_dec k (map fst d)) as [Hin | Hn];
      destruct (in_dec Z.eq_dec k (k' :: map fst d)) as [Hin' | Hn'];
      try reflexivity.
    + exfalso. apply Hn'. now right.
    + destruct Hin' as [-> | Hin']; [contradiction | contradiction].
Qed.

Lemma idict_set_in_keys {V} (d : idict V) (k : Z) (v : V) (p : Z) :
  In p (map fst (idict_set d k v)) <-> In p (map fst d) \/ p = k.
Proof.
  rewrite idict_set_keys. destruct (in_dec _ _ _) as [Hin | Hn].
  - split; [now left | intros [Hp | ->]; assumption].
  - rewrite in_app_iff. cbn [In]. intuition congruence.
Qed.

Lemma idict_set_nodup {V} (d : idict V) (k : Z) (v : V) :
  NoDup (map fst d) -> NoDup (map fst (idict_set d k v)).
Proof.
  intros Hnd. rewrite idict_set_keys. destruct (in_dec _ _ _) as [Hin | Hn];
    [assumption |].
  apply NoDup_app; [assumption | repeat constructor; intros [] | ].
  intros x Hx [<- | []]. contradiction.
Qed.

Section ReturnLevels.
Context {A : Type} `{Dtype A}.

(** The comprehension over the periods: when no period is zero it returns
    a dictionary that holds the estimate of every period. *)
Lemma levels_of_ok (genextreme : Genextreme A) (shape loc scale : A)
    (periods : list Z) (acc : idict A) :
  (forall p, In p periods -> p <> 0) ->
  exists levels,
    levels_of genextreme shape loc scale periods acc = Ok levels
    /\ (NoDup (map fst acc) -> NoDup (map fst levels))
    /\ (forall p, In p (map fst levels) <-> In p (map fst acc) \/ In p periods)
    /\ (forall p, In p periods ->
          idict_get levels p = Some (estimate genextreme shape loc scale p))
    /\ (forall p, ~ In p periods -> idict_get levels p = idict_get acc p).
Proof.
  revert acc. induction periods as [| q qs IH]; intros acc Hnz.
  - exists acc. cbn. repeat split; auto; tauto.
  - cbn [levels_of].
    rewrite (proj2 (Z.eqb_neq q 0) (Hnz q (or_introl eq_refl))).
    fold (estimate genextreme shape loc scale q).
    destruct (IH (idict_set acc q (estimate genextreme shape loc scale q)))
      as (levels & Heq & Hnd & Hkeys & Hget & Hrest).
    { intros p Hp. apply Hnz. now right. }
    exists levels. split; [exact Heq |]. split; [| split; [| split]].
    + intros Hacc. now apply Hnd, idict_set_nodup.
    + intros p. rewrite Hkeys, idict_set_in_keys. cbn [In].
      intuition congruence.
    + intros p Hp.
      destruct (in_dec Z.eq_dec p qs) as [Hin | Hn]; [now apply Hget |].
      destruct Hp as [<- | Hp]; [| contradiction].
      rewrite Hrest by assumption. apply idict_get_set_same.
    + intros p Hp. rewrite Hrest by (intros Hin; apply Hp; now right).
      apply idict_get_set_other. intros ->. apply Hp. now left.
Qed.

(** A period of zero stops the comprehension: [1 / 0] raises. *)
Lemma levels_of_zero (genextreme : Genextreme A) (shape loc scale : A)
    (periods : list Z) (acc : idict A) :
  In 0 periods ->
  levels_of genextreme shape loc scale periods acc
  = Raise (ZeroDivisionError "division by zero").
Proof.
  revert acc. induction periods as [| q qs IH]; intros acc Hin;
    [destruct Hin |].
  cbn [levels_of]. destruct (Z.eqb_spec q 0) as [-> | Hq]; [reflexivity |].
  apply IH. destruct Hin as [-> | Hin]; [contradiction | exact Hin].
Qed.

(** C6, amended.  With scipy at hand, [compute_return_levels] raises
    ValueError ("series too short") whenever fewer than 5 of the values are
    finite.  With at least 5 finite values, when the fit returns and no
    requested period is zero, it returns a dictionary whose keys are the
    requested periods, each once, and whose value at a period p is the
    inverse CDF of the fitted distribution at 1 - 1/p; when the fit raises,
    so does the function, and when the fit returns and a requested period
    is zero it raises ZeroDivisionError. *)
Theorem compute_return_levels_short_or_levels (genextreme : Genextreme A)
    (data : DataArray A) (periods : list Z) :
  ((List.length (filter isfinite (values data)) < 5)%nat ->
   compute_return_levels (Some genextreme) data periods
   = Raise (ValueError "Série muito curta para estimar extremos."))
  /\ ((5 <= List.length (filter isfinite (values data)))%nat ->
      forall shape loc scale,
      fit genextreme (filter isfinite (values data)) = Ok (shape, loc, scale) ->
      (forall p, In p periods -> p <> 0) ->
      exists levels,
        compute_return_levels (Some genextreme) data periods = Ok levels
        /\ NoDup (map fst levels)
        /\ (forall p, In p (map fst levels) <-> In p periods)
        /\ forall p, In p periods ->
             idict_get levels p
             = Some (ppf genextreme (sub (of_Z 1) (div (of_Z 1) (of_Z p)))
                         shape loc scale))
  /\ ((5 <= List.length (filter isfinite (values data)))%nat ->
      forall e, fit genextreme (filter isfinite (values data)) = Raise e ->
      compute_return_levels (Some genextreme) data periods = Raise e)
  /\ ((5 <= List.length (filter isfinite (values data)))%nat ->
      forall shape loc scale,
      fit genextreme (filter isfinite (values data)) = Ok (shape, loc, scale) ->
      In 0 periods ->
      compute_return_levels (Some genextreme) data periods
      = Raise (ZeroDivisionError "division by zero")).
Proof.
  unfold compute_return_levels. split; [| split; [| split]].
  - intros Hshort. now rewrite (proj2 (Nat.ltb_lt _ _) Hshort).
  - intros Hlong shape loc scale Hfit Hnz.
    rewrite (proj2 (Nat.ltb_ge _ _) Hlong), Hfit.
    destruct (levels_of_ok genextreme shape loc scale periods [] Hnz)
      as (levels & Heq & Hnd & Hkeys & Hget & _).
    exists levels. split; [exact Heq |]. split; [| split].
    + apply Hnd. constructor.
    + intros p. rewrite Hkeys. cbn. tauto.
    + exact Hget.
  - intros Hlong e Hfit. now rewrite (proj2 (Nat.ltb_ge _ _) Hlong), Hfit.
  - intros Hlong shape loc scale Hfit Hzero.
    rewrite (proj2 (Nat.ltb_ge _ _) Hlong), Hfit.
    now apply levels_of_zero.
Qed.

End ReturnLevels.

(** C6, as stated, fails: five finite maxima and the return period 0. *)
Lemma zero_period_raises :
  List.length (filter isfinite (values five_maxima)) = 5%nat
  /\ compute_return_levels (Some sample_genextreme) five_maxima [0]
     = Raise (ZeroDivisionError "division by zero").
Proof. split; reflexivity. Qed.

(** Five finite maxima and the default periods: one estimate for each of
    10, 20 and 50 years. *)
Lemma compute_return_levels_short_or_levels_sample :
  exists levels,
    compute_return_levels (Some sample_genextreme) five_maxima [10; 20; 50]
    = Ok levels
    /\ NoDup (map fst levels)
    /\ (forall p, In p (map fst levels) <-> In p [10; 20; 50])
    /\ forall p, In p [10; 20; 50] ->
         idict_get levels p
         = Some (ppf sample_genextreme (sub (of_Z 1) (div (of_Z 1) (of_Z p)))
                     (Exact.Fin 0) (Exact.Fin 10) (Exact.Fin 1)).
Proof.
  apply (proj1 (proj2 (compute_return_levels_short_or_levels
                         sample_genextreme five_maxima [10; 20; 50]))).
  - cbn. lia.
  - reflexivity.
  - intros p [<- | [<- | [<- | []]]]; discriminate.
Defined.

Example sample_levels :
  compute_return_levels (Some sample_genextreme) five_maxima [10; 20; 50]
  = Ok [ (10, Exact.Fin (109 # 10)); (20, Exact.Fin (219 # 20));
         (50, Exact.Fin (549 # 50)) ].
Proof. reflexivity. Qed.

(** A series with fewer than five finite values. *)
Example short_series_raises :
  compute_return_levels (Some sample_genextreme) tas_kelvin [10; 20; 50]
  = Raise (ValueError "Série muito curta para estimar extremos.").
Proof. reflexivity. Qed.

(** ** The [try] block of [main] *)

Section Levels.
Context {A : Type} `{Dtype A}.
Variable keep_attrs : bool.
Variable xr_mean : DataArray A -> list string -> DataArray A.
Variable xr : Xarray A.
Variable scipy_stats : option (Genextreme A).

(** No function [annual_max] is defined in analysis.py. *)
Lemma annual_max_undefined (da : DataArray A) :
  call keep_attrs xr_mean "annual_max" da
  = Raise (NameError "name 'annual_max' is not defined").
Proof. reflexivity. Qed.

(** Whatever happens in the [try] block, [main] goes on. *)
Lemma main_return_levels_returns (args : Args) (hist_series : DataArray A)
    (scenario_series : dict (DataArray A)) :
  is_ok (outcome (main_return_levels keep_attrs xr_mean scipy_stats args
                    hist_series scenario_series)) = true.
Proof.
  unfold main_return_levels.
  destruct (str_in (variable args) WIND_SPEED_NAMES); [| reflexivity].
  now destruct (main_levels_try _ _ _ _ _ _ _) as [levels [[] | e]].
Qed.

(** C1.  For a wind-speed variable the [try] block of [main] stops at its
    first statement, the call of the undefined [annual_max]: the NameError
    is caught and printed as a warning, [main] goes on, and no return level
    has been computed, whatever the series are. *)
Theorem return_levels_never_computed (args : Args)
    (hist_series : DataArray A) (scenario_series : dict (DataArray A)) :
  str_in (variable args) WIND_SPEED_NAMES = true ->
  main_return_levels keep_attrs xr_mean scipy_stats args hist_series
    scenario_series
  = ([Print ("[aviso] Não foi possível calcular níveis de retorno: "
               ++ "name 'annual_max' is not defined")],
     Ok []).
Proof.
  intros Hwind. unfold main_return_levels. rewrite Hwind.
  unfold main_levels_try. rewrite annual_max_undefined. reflexivity.
Qed.

End Levels.

(** The sample wind run: five finite maxima would be enough for a fit, and
    yet the outcome is the warning and no level. *)
Lemma return_levels_never_computed_sample :
  main_return_levels true sample_xr_mean (Some sample_genextreme) wind_args
    five_maxima [("ssp1_2_6", five_maxima)]
  = ([Print ("[aviso] Não foi possível calcular níveis de retorno: "
               ++ "name 'annual_max' is not defined")],
     Ok []).
Proof.
  apply (return_levels_never_computed true sample_xr_mean
           (Some sample_genextreme) wind_args five_maxima
           [("ssp1_2_6", five_maxima)]).
  reflexivity.
Defined.

(** ** Missing files *)

Section Missing.
Context {A : Type} `{Dtype A}.
Variable keep_attrs : bool.
Variable xr_mean : DataArray A -> list string -> DataArray A.
Variable xr : Xarray A.
Variable scipy_stats : option (Genextreme A).
Variable fs : FileSystem.
Variable open_dataset_maybe_zip : Path -> result (Dataset A).
Variable load_wind_direction : Path -> result (option (DataArray A)).
Variable world : event -> option exn.

Lemma main_no_historical_file (args : Args) :
  historical_file args = None ->
  find_file fs (data_dir args) "historical" (variable args) = None ->
  main keep_attrs xr_mean xr scipy_stats fs open_dataset_maybe_zip
       load_wind_direction world args
  = ([], Raise (FileNotFoundError
       "Arquivo histórico não encontrado. Use --historical-file ou baixe em date/historico.")).
Proof.
  intros Hfile Hfind. unfold main, main_hist_path.
  now rewrite Hfile, Hfind.
Qed.

(** A historical file that does not load ends the run. *)
Lemma main_historical_load_fails (args : Args) (hist_path : Path)
    (exc : exn) :
  or_else (historical_file args)
          (find_file fs (data_dir args) "historical" (variable args))
  = Some hist_path ->
  load_series keep_attrs xr_mean xr open_dataset_maybe_zip hist_path
    (variable args) = Raise exc ->
  main keep_attrs xr_mean xr scipy_stats fs open_dataset_maybe_zip
       load_wind_direction world args
  = ([], Raise exc).
Proof.
  intros Hpath Hload. unfold main, main_hist_path.
  rewrite Hpath. cbn [bind ret app]. now rewrite Hload.
Qed.

(** Once the historical series is loaded and xarray resamples it, [main]
    is the loop over the scenarios followed by the rest. *)
Lemma main_after_history (args : Args) (hist_path : Path)
    (hist_series : DataArray A) :
  or_else (historical_file args)
          (find_file fs (data_dir args) "historical" (variable args))
  = Some hist_path ->
  load_series keep_attrs xr_mean xr open_dataset_maybe_zip hist_path
    (variable args) = Ok hist_series ->
  (forall freq, resample_raises xr freq hist_series = None) ->
  main keep_attrs xr_mean xr scipy_stats fs open_dataset_maybe_zip
       load_wind_direction world args
  = bind (main_load_scenarios keep_attrs xr_mean xr fs open_dataset_maybe_zip
            args (experiments args) [])
         (main_with_scenarios keep_attrs xr_mean xr scipy_stats fs
            load_wind_direction world args hist_path hist_series
            (monthly_climatology keep_attrs hist_series
               (get_agg_method (variable args)))).
Proof.
  intros Hpath Hload Hres. unfold main, main_hist_path.
  rewrite Hpath. cbn [bind ret app]. rewrite Hload.
  cbn [lift bind app]. cbv zeta.
  unfold run_monthly_climatology, run_annual_aggregate, resampling.
  rewrite !Hres. cbn [lift bind app].
  destruct (main_load_scenarios _ _ _ _ _ _ _ _) as [out [loaded | e]];
    [| reflexivity].
  cbn [bind]. now destruct (main_with_scenarios _ _ _ _ _ _ _ _ _ _ _ _).
Qed.

(** The loop leaves alone the entries of the experiments it does not go
    through. *)
Lemma main_load_scenarios_keeps (args : Args) (x : string)
    (exps : list string) :
  ~ In x exps ->
  forall (acc loaded : dict (DataArray A)) (out : list event),
  main_load_scenarios keep_attrs xr_mean xr fs open_dataset_maybe_zip
    args exps acc = (out, Ok loaded) ->
  dict_get loaded x = dict_get acc x.
Proof.
  induction exps as [| y exps IH]; intros Hnin acc loaded out Hrun.
  - cbn in Hrun. now injection Hrun as _ <-.
  - assert (Hy : x <> y) by (intros ->; apply Hnin; now left).
    assert (Hrest : ~ In x exps) by (intros Hin; apply Hnin; now right).
    cbn [main_load_scenarios] in Hrun.
    destruct (scenario_path fs args y) as [p |].
    + destruct (load_series _ _ _ _ p _) as [s | e];
        cbn [lift bind app] in Hrun; [| discriminate].
      destruct (main_load_scenarios _ _ _ _ _ _ exps _) as [out' res] eqn:Hrec.
      injection Hrun as _ ->.
      rewrite (IH Hrest _ _ _ Hrec). now apply dict_get_set_other.
    + cbn [emit bind] in Hrun.
      destruct (main_load_scenarios _ _ _ _ _ _ exps _) as [out' res] eqn:Hrec.
      injection Hrun as _ ->. exact (IH Hrest _ _ _ Hrec).
Qed.

(** The loop over the scenarios, when every file that is found loads. *)
Lemma main_load_scenarios_skips (args : Args) (exps : list string)
    (acc : dict (DataArray A)) :
  (forall e p, In e exps -> scenario_path fs args e = Some p ->
     exists s, load_series keep_attrs xr_mean xr open_dataset_maybe_zip p
                 (variable args) = Ok s) ->
  exists loaded,
    main_load_scenarios keep_attrs xr_mean xr fs open_dataset_maybe_zip
      args exps acc
    = (map skip_warning (skipped fs args exps), Ok loaded)
    /\ (forall e p s, In e exps -> scenario_path fs args e = Some p ->
          load_series keep_attrs xr_mean xr open_dataset_maybe_zip p
            (variable args) = Ok s ->
          dict_get loaded e = Some s)
    /\ (forall e, scenario_path fs args e = None ->
          dict_get loaded e = dict_get acc e).
Proof.
  revert acc. induction exps as [| x exps IH]; intros acc Hload.
  - exists acc. split; [reflexivity |].
    split; [intros e p s [] | reflexivity].
  - cbn [main_load_scenarios skipped filter].
    fold (skipped fs args exps).
    destruct (scenario_path fs args x) as [p |] eqn:Hpath.
    + destruct (Hload x p (or_introl eq_refl) Hpath) as [s Hs].
      rewrite Hs. cbn [lift bind app].
      destruct (IH (dict_set acc x s)) as (loaded & Heq & Hpresent & Habsent).
      { intros e q He. apply Hload. now right. }
      rewrite Heq. exists loaded. split; [reflexivity |]. split.
      * intros e q t [<- | He] Hq Ht; [| now apply (Hpresent e q t)].
        destruct (in_dec string_dec x exps) as [Hin | Hn];
          [now apply (Hpresent x q t) |].
        rewrite (main_load_scenarios_keeps args x exps Hn _ _ _ Heq).
        rewrite Hpath in Hq. injection Hq as <-.
        rewrite Hs in Ht. injection Ht as <-.
        apply dict_get_set_same.
      * intros e He. rewrite (Habsent e He).
        apply dict_get_set_other. intros ->. congruence.
    + cbn [emit bind].
      destruct (IH acc) as (loaded & Heq & Hpresent & Habsent).
      { intros e q He. apply Hload. now right. }
      rewrite Heq. exists loaded. split; [reflexivity |]. split.
      * intros e q t [<- | He] Hq Ht; [congruence |].
        now apply (Hpresent e q t).
      * exact Habsent.
Qed.

(** The loop stops at the first file that is found and does not load. *)
Lemma main_load_scenarios_stops (args : Args)
    (before after : list string) (e : string) (p : Path) (exc : exn)
    (acc : dict (DataArray A)) :
  (forall e' p', In e' before -> scenario_path fs args e' = Some p' ->
     exists s, load_series keep_attrs xr_mean xr open_dataset_maybe_zip p'
                 (variable args) = Ok s) ->
  scenario_path fs args e = Some p ->
  load_series keep_attrs xr_mean xr open_dataset_maybe_zip p (variable args)
  = Raise exc ->
  main_load_scenarios keep_attrs xr_mean xr fs open_dataset_maybe_zip
    args (before ++ e :: after)%list acc
  = (map skip_warning (skipped fs args before), Raise exc).
Proof.
  intros Hbefore Hpath Hfail. revert acc.
  induction before as [| x before IH]; intros acc.
  - cbn [app main_load_scenarios skipped filter map].
    rewrite Hpath, Hfail. reflexivity.
  - cbn [app main_load_scenarios skipped filter].
    fold (skipped fs args before).
    assert (Hrest : forall e' p', In e' before ->
              scenario_path fs args e' = Some p' ->
              exists s, load_series keep_attrs xr_mean xr
                          open_dataset_maybe_zip p' (variable args) = Ok s)
      by (intros e' p' He'; apply Hbefore; now right).
    destruct (scenario_path fs args x) as [q |] eqn:Hq.
    + destruct (Hbefore x q (or_introl eq_refl) Hq) as [s Hs].
      rewrite Hs. cbn [lift bind]. now rewrite (IH Hrest).
    + cbn [emit bind map]. now rewrite (IH Hrest).
Qed.

(** C3.  Without a historical file, neither given nor found, the run
    raises FileNotFoundError before anything else happens; a historical
    file that does not load is as fatal.  With a historical series that
    xarray resamples, [main] goes through the scenarios: one that has no
    file, neither named with --scenario-file nor found, costs one warning
    and is left out, one whose file loads is stored whatever was skipped
    before it, and the run goes on with the scenarios stored.  A file that
    is found, or named, and does not load is not skipped: it ends the run
    with its exception, after the warnings printed so far. *)
Theorem missing_historical_fatal_scenario_skipped (args : Args) :
  (historical_file args = None ->
   find_file fs (data_dir args) "historical" (variable args) = None ->
   main keep_attrs xr_mean xr scipy_stats fs open_dataset_maybe_zip
        load_wind_direction world args
   = ([], Raise (FileNotFoundError
        "Arquivo histórico não encontrado. Use --historical-file ou baixe em date/historico.")))
  /\ (forall hist_path exc,
        or_else (historical_file args)
                (find_file fs (data_dir args) "historical" (variable args))
        = Some hist_path ->
        load_series keep_attrs xr_mean xr open_dataset_maybe_zip hist_path
          (variable args) = Raise exc ->
        main keep_attrs xr_mean xr scipy_stats fs open_dataset_maybe_zip
             load_wind_direction world args
        = ([], Raise exc))
  /\ (forall hist_path hist_series,
        or_else (historical_file args)
                (find_file fs (data_dir args) "historical" (variable args))
        = Some hist_path ->
        load_series keep_attrs xr_mean xr open_dataset_maybe_zip hist_path
          (variable args) = Ok hist_series ->
        (forall freq, resample_raises xr freq hist_series = None) ->
        ((forall e p, In e (experiments args) ->
            scenario_path fs args e = Some p ->
            exists s, load_series keep_attrs xr_mean xr
                        open_dataset_maybe_zip p (variable args) = Ok s) ->
         exists loaded,
           main keep_attrs xr_mean xr scipy_stats fs open_dataset_maybe_zip
                load_wind_direction world args
           = ((map (fun e => Print ("[aviso] Arquivo não encontrado para "
                                      ++ e ++ ". Pulei."))
                   (filter (fun e => match scenario_path fs args e with
                                     | None => true
                                     | Some _ => false
                                     end) (experiments args))
               ++ events (main_with_scenarios keep_attrs xr_mean xr
                            scipy_stats fs load_wind_direction world args
                            hist_path hist_series
                            (monthly_climatology keep_attrs hist_series
                               (get_agg_method (variable args)))
                            loaded))%list,
              outcome (main_with_scenarios keep_attrs xr_mean xr
                         scipy_stats fs load_wind_direction world args
                         hist_path hist_series
                         (monthly_climatology keep_attrs hist_series
                            (get_agg_method (variable args)))
                         loaded))
           /\ (forall e p s, In e (experiments args) ->
                 scenario_path fs args e = Some p ->
                 load_series keep_attrs xr_mean xr open_dataset_maybe_zip p
                   (variable args) = Ok s ->
                 dict_get loaded e = Some s)
           /\ (forall e, scenario_path fs args e = None ->
                 dict_get loaded e = None))
        /\ (forall before e after p exc,
              experiments args = (before ++ e :: after)%list ->
              (forall e' p', In e' before ->
                 scenario_path fs args e' = Some p' ->
                 exists s, load_series keep_attrs xr_mean xr
                             open_dataset_maybe_zip p' (variable args)
                           = Ok s) ->
              scenario_path fs args e = Some p ->
              load_series keep_attrs xr_mean xr open_dataset_maybe_zip p
                (variable args) = Raise exc ->
              main keep_attrs xr_mean xr scipy_stats fs
                   open_dataset_maybe_zip load_wind_direction world args
              = (map (fun e => Print ("[aviso] Arquivo não encontrado para "
                                        ++ e ++ ". Pulei."))
                     (filter (fun e => match scenario_path fs args e with
                                       | None => true
                                       | Some _ => false
                                       end) before),
                 Raise exc))).
Proof.
  split; [apply main_no_historical_file |].
  split; [apply main_historical_load_fails |].
  intros hist_path hist_series Hpath Hhist Hres.
  rewrite (main_after_history args hist_path hist_series Hpath Hhist Hres).
  split.
  - intros Hload.
    destruct (main_load_scenarios_skips args (experiments args) [] Hload)
      as (loaded & Heq & Hpresent & Habsent).
    exists loaded. rewrite Heq. cbn [bind]. split; [| split].
    + now destruct (main_with_scenarios _ _ _ _ _ _ _ _ _ _ _ _).
    + exact Hpresent.
    + intros e He. now rewrite (Habsent e He).
  - intros before e after p exc Hexps Hbefore Hp Hfail.
    rewrite Hexps.
    now rewrite (main_load_scenarios_stops args before after e p exc []
                   Hbefore Hp Hfail).
Qed.

End Missing.

(** The sample directory has no historical folder, a file for ssp1_2_6 and
    none for ssp5_8_5.  Without a historical file the run stops at once;
    with one named on the command line, ssp5_8_5 is skipped with a warning
    and the run goes on with ssp1_2_6, to the four figures and the closing
    line. *)
Lemma missing_historical_fatal_scenario_skipped_sample :
  main true sample_xr_mean sample_xr (Some sample_genextreme) sample_fs
       sample_open (fun _ => Ok None) (fun _ => None) tas_args
  = ([], Raise (FileNotFoundError
       "Arquivo histórico não encontrado. Use --historical-file ou baixe em date/historico."))
  /\ exists loaded,
       main true sample_xr_mean sample_xr (Some sample_genextreme) sample_fs
            sample_open (fun _ => Ok None) (fun _ => None)
            AnalysisRest.history_args
       = ((Print "[aviso] Arquivo não encontrado para ssp5_8_5. Pulei."
           :: events (main_with_scenarios true sample_xr_mean sample_xr
                        (Some sample_genextreme) sample_fs (fun _ => Ok None)
                        (fun _ => None) AnalysisRest.history_args
                        ["date"; "hist.nc"] tas_celsius_sample
                        (monthly_climatology true tas_celsius_sample "mean")
                        loaded))%list,
          outcome (main_with_scenarios true sample_xr_mean sample_xr
                     (Some sample_genextreme) sample_fs (fun _ => Ok None)
                     (fun _ => None) AnalysisRest.history_args
                     ["date"; "hist.nc"] tas_celsius_sample
                     (monthly_climatology true tas_celsius_sample "mean")
                     loaded))
       /\ dict_get loaded "ssp1_2_6" = Some tas_celsius_sample
       /\ dict_get loaded "ssp5_8_5" = None
       /\ main true sample_xr_mean sample_xr (Some sample_genextreme)
            sample_fs sample_open (fun _ => Ok None) (fun _ => None)
            AnalysisRest.history_args
          = ([ Print "[aviso] Arquivo não encontrado para ssp5_8_5. Pulei.";
               SaveFig ["img"; "tas_climatologia_mensal.png"];
               SaveFig ["img"; "tas_serie_anual.png"];
               SaveFig ["img"; "tas_anomalias_mensais.png"];
               SaveFig ["img"; "tas_anomalias_anuais.png"];
               Print "[ok] Gráficos salvos em img" ],
             Ok tt).
Proof.
  split.
  - apply (missing_historical_fatal_scenario_skipped true sample_xr_mean
             sample_xr (Some sample_genextreme) sample_fs sample_open
             (fun _ => Ok None) (fun _ => None) tas_args); reflexivity.
  - destruct (missing_historical_fatal_scenario_skipped true sample_xr_mean
                sample_xr (Some sample_genextreme) sample_fs sample_open
                (fun _ => Ok None) (fun _ => None) AnalysisRest.history_args)
      as (_ & _ & Hrun).
    destruct (Hrun ["date"; "hist.nc"] tas_celsius_sample eq_refl eq_refl)
      as [Hskip _]; [reflexivity |].
    destruct Hskip as (loaded & Heq & Hpresent & Habsent).
    + intros e p _ _. now exists tas_celsius_sample.
    + exists loaded. split; [exact Heq |]. split; [| split].
      * apply (Hpresent "ssp1_2_6" ["date"; "projecao"; "b_ssp1_2_6_tas.nc"]);
          [cbn; tauto | reflexivity | reflexivity].
      * now apply Habsent.
      * reflexivity.
Defined.

(** A scenario file named with --scenario-file that is not there: the run
    ends with the exception of the loader.  No warning is printed, the
    scenario is not skipped, and ssp1_2_6, which has a file, is not
    reached. *)
Lemma named_scenario_file_absent_not_skipped :
  main true sample_xr_mean sample_xr (Some sample_genextreme) sample_fs
       AnalysisRest.gone_open (fun _ => Ok None) (fun _ => None)
       AnalysisRest.gone_args
  = ([], Raise (FileNotFoundError
                  "[Errno 2] No such file or directory: 'date/gone.nc'"))
  /\ scenario_path sample_fs AnalysisRest.gone_args "ssp1_2_6"
     = Some ["date"; "projecao"; "b_ssp1_2_6_tas.nc"].
Proof. split; reflexivity. Qed.

(** ** Increasing lists of integers *)

Lemma fold_min_in (d : Z) (l : list Z) : In (fold_right Z.min d l) (d :: l).
Proof.
  induction l as [| x l IH]; [now left |].
  cbn [fold_right]. destruct (Z.min_spec x (fold_right Z.min d l))
    as [[_ ->] | [_ ->]].
  - right. now left.
  - destruct IH as [<- | IH]; [now left | right; now right].
Qed.

Lemma fold_min_le (d : Z) (l : list Z) (x : Z) :
  In x (d :: l) -> fold_right Z.min d l <= x.
Proof.
  induction l as [| y l IH]; cbn [fold_right].
  - intros [<- | []]. lia.
  - intros [<- | [<- | Hx]].
    + specialize (IH (or_introl eq_refl)). lia.
    + lia.
    + specialize (IH (or_intror Hx)). lia.
Qed.

Lemma fold_max_in (d : Z) (l : list Z) : In (fold_right Z.max d l) (d :: l).
Proof.
  induction l as [| x l IH]; [now left |].
  cbn [fold_right]. destruct (Z.max_spec x (fold_right Z.max d l))
    as [[_ ->] | [_ ->]].
  - destruct IH as [<- | IH]; [now left | right; now right].
  - right. now left.
Qed.

Lemma fold_max_ge (d : Z) (l : list Z) (x : Z) :
  In x (d :: l) -> x <= fold_right Z.max d l.
Proof.
  induction l as [| y l IH]; cbn [fold_right].
  - intros [<- | []]. lia.
  - intros [<- | [<- | Hx]].
    + specialize (IH (or_introl eq_refl)). lia.
    + lia.
    + specialize (IH (or_intror Hx)). lia.
Qed.

Lemma range_sorted (a b : Z) : StronglySorted Z.lt (range a b).
Proof.
  unfold range. generalize (Z.to_nat (b - a)) as n. generalize 0%nat as s.
  intros s n. revert s. induction n as [| n IH]; intros s; cbn [seq map].
  - constructor.
  - constructor; [apply IH |].
    apply Forall_forall. intros x (i & <- & Hi%in_seq)%in_map_iff. lia.
Qed.

Lemma filter_sorted (p : Z -> bool) (l : list Z) :
  StronglySorted Z.lt l -> StronglySorted Z.lt (filter p l).
Proof.
  induction 1 as [| x l Hl IH Hx]; cbn [filter]; [constructor |].
  destruct (p x); [| exact IH].
  constructor; [exact IH |].
  apply Forall_forall. intros y [Hy _]%filter_In.
  now apply (proj1 (Forall_forall _ _) Hx).
Qed.

Lemma map_sorted (f : Z -> Z) (l : list Z) :
  (forall x y, x < y -> f x < f y) ->
  StronglySorted Z.lt l -> StronglySorted Z.lt (map f l).
Proof.
  intros Hf. induction 1 as [| x l Hl IH Hx]; cbn [map]; constructor;
    [exact IH |].
  apply Forall_forall. intros y (z & <- & Hz)%in_map_iff.
  apply Hf. now apply (proj1 (Forall_forall _ _) Hx).
Qed.

(** An increasing list is determined by its elements. *)
Lemma sorted_lt_ext (l1 l2 : list Z) :
  StronglySorted Z.lt l1 -> StronglySorted Z.lt l2 ->
  (forall x, In x l1 <-> In x l2) -> l1 = l2.
Proof.
  intros H1. revert l2. induction H1 as [| x l1 Hl1 IH Hx];
    intros l2 H2 Hmem.
  - destruct l2 as [| y l2]; [reflexivity |].
    destruct (proj2 (Hmem y) (or_introl eq_refl)).
  - destruct H2 as [| y l2 Hl2 Hy].
    + destruct (proj1 (Hmem x) (or_introl eq_refl)).
    + pose proof (proj1 (Forall_forall _ _) Hx) as Hx'.
      pose proof (proj1 (Forall_forall _ _) Hy) as Hy'.
      assert (Hxy : x = y).
      { destruct (proj1 (Hmem x) (or_introl eq_refl)) as [-> | Hin];
          [reflexivity |].
        destruct (proj2 (Hmem y) (or_introl eq_refl)) as [-> | Hin'];
          [reflexivity |].
        specialize (Hx' _ Hin'). specialize (Hy' _ Hin). lia. }
      subst y. f_equal. apply IH; [exact Hl2 |].
      intros z. split; intros Hz.
      * destruct (proj1 (Hmem z) (or_intror Hz)) as [<- | Hin]; [| exact Hin].
        specialize (Hx' _ Hz). lia.
      * destruct (proj2 (Hmem z) (or_intror Hz)) as [<- | Hin]; [| exact Hin].
        specialize (Hy' _ Hz). lia.
Qed.

Lemma insert_unique_in (x : Z) (l : list Z) (y : Z) :
  In y (insert_unique x l) <-> y = x \/ In y l.
Proof.
  induction l as [| z l IH]; cbn [insert_unique In]; [intuition |].
  destruct (Z.ltb_spec x z); cbn [In]; [intuition |].
  destruct (Z.eqb_spec x z) as [-> |]; cbn [In]; [intuition |].
  rewrite IH. intuition.
Qed.

Lemma insert_unique_sorted (x : Z) (l : list Z) :
  StronglySorted Z.lt l -> StronglySorted Z.lt (insert_unique x l).
Proof.
  induction 1 as [| z l Hl IH Hz]; cbn [insert_unique].
  - repeat constructor.
  - pose proof (proj1 (Forall_forall _ _) Hz) as Hz'.
    destruct (Z.ltb_spec x z).
    + constructor; [now constructor |].
      apply Forall_forall. intros y [<- | Hy]; [assumption |].
      specialize (Hz' _ Hy). lia.
    + destruct (Z.eqb_spec x z) as [-> | Hne]; [now constructor |].
      constructor; [exact IH |].
      apply Forall_forall. intros y [-> | Hy]%insert_unique_in; [lia |].
      now apply Hz'.
Qed.

Lemma sorted_unique_in (l : list Z) (y : Z) :
  In y (sorted_unique l) <-> In y l.
Proof.
  induction l as [| x l IH]; [reflexivity |].
  cbn [sorted_unique fold_right]. fold (sorted_unique l).
  rewrite insert_unique_in, IH. cbn [In]. intuition.
Qed.

Lemma sorted_unique_sorted (l : list Z) : StronglySorted Z.lt (sorted_unique l).
Proof.
  induction l as [| x l IH]; [constructor |].
  cbn [sorted_unique fold_right]. now apply insert_unique_sorted.
Qed.

Lemma filter_map_comm {T U} (p : U -> bool) (f : T -> U) (l : list T) :
  filter p (map f l) = map f (filter (fun x => p (f x)) l).
Proof.
  induction l as [| x l IH]; [reflexivity |].
  cbn [map filter]. destruct (p (f x)); cbn [map]; now rewrite IH.
Qed.

(** The months of a span of whole years, one after the other, are the
    twelve calendar months. *)
Lemma months_of_years (y0 n : Z) :
  1 <= n ->
  sorted_unique (map (fun k => k mod 12 + 1) (range (12 * y0) (12 * (y0 + n))))
  = range 1 13.
Proof.
  intros Hn. apply sorted_lt_ext.
  - apply sorted_unique_sorted.
  - apply range_sorted.
  - intros m. rewrite sorted_unique_in, in_map_iff, in_range. split.
    + intros (k & <- & _). Z.div_mod_to_equations. lia.
    + intros Hm. exists (12 * y0 + (m - 1)). split.
      * Z.div_mod_to_equations. lia.
      * apply in_range. lia.
Qed.

(** In a span of whole years, the bins of calendar month [m] are those of
    month [m] of each year, in order. *)
Lemma bins_of_month (y0 n m : Z) :
  1 <= m <= 12 ->
  filter (fun k => k mod 12 + 1 =? m) (range (12 * y0) (12 * (y0 + n)))
  = map (fun y => 12 * y + (m - 1)) (range y0 (y0 + n)).
Proof.
  intros Hm. apply sorted_lt_ext.
  - apply filter_sorted, range_sorted.
  - apply map_sorted; [intros; lia | apply range_sorted].
  - intros k. rewrite filter_In, in_map_iff, in_range, Z.eqb_eq. split.
    + intros [Hk Hmod]. exists (k / 12). rewrite in_range.
      Z.div_mod_to_equations. lia.
    + intros (y & <- & Hy%in_range). Z.div_mod_to_equations. lia.
Qed.

(** ** Monthly climatology *)

Section Climatology.
Context {A : Type} `{Dtype A}.
Variable keep_attrs : bool.

(** The bins of a resampling, when the first and the last bin are known. *)
Lemma bins_span (key : Timestamp -> Z) (s : list (Timestamp * A)) (lo hi : Z) :
  (forall tv, In tv s -> lo <= key (fst tv) <= hi) ->
  (exists tv, In tv s /\ key (fst tv) = lo) ->
  (exists tv, In tv s /\ key (fst tv) = hi) ->
  bins key s
  = map (fun k => (k, map snd (filter (fun tv => key (fst tv) =? k) s)))
        (range lo (hi + 1)).
Proof.
  intros Hall (tlo & Hlo_in & Hlo) (thi & Hhi_in & Hhi).
  destruct s as [| [t0 v0] s']; [destruct Hlo_in |].
  unfold bins.
  set (ks := map (fun tv => key (fst tv)) ((t0, v0) :: s')).
  assert (Hks : forall k, In k (key t0 :: ks) -> lo <= k <= hi).
  { intros k [<- | (tv & <- & Htv)%in_map_iff].
    - apply (Hall (t0, v0)). now left.
    - now apply Hall. }
  assert (Hmin : fold_right Z.min (key t0) ks = lo).
  { pose proof (Hks _ (fold_min_in (key t0) ks)).
    assert (In lo (key t0 :: ks)) as Hin
      by (right; apply in_map_iff; now exists tlo).
    pose proof (fold_min_le (key t0) ks lo Hin). lia. }
  assert (Hmax : fold_right Z.max (key t0) ks = hi).
  { pose proof (Hks _ (fold_max_in (key t0) ks)).
    assert (In hi (key t0 :: ks)) as Hin
      by (right; apply in_map_iff; now exists thi).
    pose proof (fold_max_ge (key t0) ks hi Hin). lia. }
  now rewrite Hmin, Hmax.
Qed.

(** The monthly aggregate of a series that covers whole years: one value
    for each month of each year, none of them a gap. *)
Lemma monthly_aggregate_full (da : DataArray A) (method : string) (y0 n : Z) :
  1 <= n -> covers_full_years da y0 n ->
  samples (monthly_aggregate keep_attrs da method)
  = map (fun k => (month_start k,
                   monthly_value method da (k / 12) (k mod 12 + 1)))
        (range (12 * y0) (12 * (y0 + n))).
Proof.
  intros Hn [Hin Hcover].
  assert (Hres : forall reduce,
            samples (resample keep_attrs month_ord month_start reduce da)
            = map (fun k => (month_start k,
                             reduce (month_of_year da (k / 12) (k mod 12 + 1))))
                  (range (12 * y0) (12 * (y0 + n)))).
  { intros reduce. cbn [samples resample].
    rewrite (bins_span month_ord (samples da) (12 * y0) (12 * (y0 + n) - 1)).
    - replace (12 * (y0 + n) - 1 + 1) with (12 * (y0 + n)) by lia.
      rewrite map_map. apply map_ext_in. intros k Hk%in_range.
      cbn [fst snd]. f_equal.
      assert (Hvals : map snd (filter (fun tv => month_ord (fst tv) =? k)
                                      (samples da))
                      = month_of_year da (k / 12) (k mod 12 + 1)).
      { unfold month_of_year. f_equal. apply filter_ext_in.
        intros tv Htv. destruct (Hin tv Htv) as [_ Hmonth].
        unfold month_ord.
        destruct (Z.eqb_spec (year (fst tv) * 12 + (month (fst tv) - 1)) k);
          destruct (Z.eqb_spec (year (fst tv)) (k / 12));
          destruct (Z.eqb_spec (month (fst tv)) (k mod 12 + 1));
          try reflexivity; exfalso; Z.div_mod_to_equations; lia. }
      rewrite Hvals. unfold reduce_bin.
      destruct (Hcover (k / 12) (k mod 12 + 1)) as (tv & Htv & Hy & Hm);
        [Z.div_mod_to_equations; lia | Z.div_mod_to_equations; lia |].
      assert (Hne : In (snd tv) (month_of_year da (k / 12) (k mod 12 + 1))).
      { unfold month_of_year. apply in_map, filter_In. split; [exact Htv |].
        now rewrite Hy, Hm, !Z.eqb_refl. }
      now destruct (month_of_year da (k / 12) (k mod 12 + 1)).
    - intros tv Htv. destruct (Hin tv Htv). unfold month_ord. lia.
    - destruct (Hcover y0 1) as (tv & Htv & Hy & Hm); [lia | lia |].
      exists tv. split; [exact Htv |]. unfold month_ord. lia.
    - destruct (Hcover (y0 + n - 1) 12) as (tv & Htv & Hy & Hm); [lia | lia |].
      exists tv. split; [exact Htv |]. unfold month_ord. lia. }
  unfold monthly_aggregate, monthly_value.
  destruct (String.eqb method "sum"); apply Hres.
Qed.

(** C7.  For a series that covers n >= 1 whole calendar years, the monthly
    climatology has twelve entries, for the months 1 to 12 in this order,
    and the entry of a month is the mean, over the n years, of the monthly
    aggregates of that month. *)
Theorem monthly_climatology_twelve (da : DataArray A) (method : string)
    (y0 n : Z) :
  1 <= n -> covers_full_years da y0 n ->
  monthly_climatology keep_attrs da method
  = map (fun m => (m, nanmean (map (fun y => monthly_value method da y m)
                                   (range y0 (y0 + n)))))
        [1; 2; 3; 4; 5; 6; 7; 8; 9; 10; 11; 12]
  /\ List.length (monthly_climatology keep_attrs da method) = 12%nat
  /\ map fst (monthly_climatology keep_attrs da method)
     = [1; 2; 3; 4; 5; 6; 7; 8; 9; 10; 11; 12].
Proof.
  intros Hn Hcover.
  assert (Heq : monthly_climatology keep_attrs da method
                = map (fun m => (m, nanmean (map (fun y => monthly_value method da y m)
                                                 (range y0 (y0 + n)))))
                      (range 1 13)).
  { unfold monthly_climatology, groupby_month_mean, month_values.
    rewrite (monthly_aggregate_full da method y0 n Hn Hcover).
    rewrite map_map. cbn [fst month_start month].
    rewrite (months_of_years y0 n Hn).
    apply map_ext_in. intros m Hm%in_range. f_equal. f_equal.
    rewrite filter_map_comm. cbn [fst month_start month].
    rewrite bins_of_month by lia.
    rewrite !map_map. cbn [snd].
    apply map_ext. intros y. f_equal; Z.div_mod_to_equations; lia. }
  rewrite Heq. repeat split.
Qed.

End Climatology.

Lemma full_year_covers : covers_full_years full_year 2000 1.
Proof.
  split.
  - intros tv (m & <- & Hm%in_range)%in_map_iff. cbn. lia.
  - intros y m Hy Hm. exists (ymd 2000 m 15, Exact.Fin (inject_Z m)).
    split; [| cbn; lia].
    apply in_map_iff. exists m. split; [reflexivity | apply in_range; lia].
Defined.

(** The sample year: twelve entries, for the months 1 to 12. *)
Lemma monthly_climatology_twelve_sample :
  List.length (monthly_climatology true full_year "mean") = 12%nat
  /\ map fst (monthly_climatology true full_year "mean")
     = [1; 2; 3; 4; 5; 6; 7; 8; 9; 10; 11; 12].
Proof.
  assert (Hn : 1 <= 1) by lia.
  exact (proj2 (monthly_climatology_twelve true full_year "mean" 2000 1
                  Hn full_year_covers)).
Defined.

Example full_year_climatology :
  monthly_climatology true full_year "mean"
  = map (fun m => (m, Exact.Fin (inject_Z m))) (range 1 13).
Proof. reflexivity. Qed.

(** ** Annual anomalies *)

Lemma dict_keys_map {V W} (f : V -> W) (d : dict V) :
  dict_keys (dict_map f d) = dict_keys d.
Proof.
  unfold dict_keys, dict_map. rewrite map_map. now apply map_ext.
Qed.

Lemma dict_update_other {V} (d e : dict V) (k : string) :
  ~ In k (dict_keys e) -> dict_get (dict_update d e) k = dict_get d k.
Proof.
  unfold dict_update. revert d.
  induction e as [| [k0 v0] e IH]; intros d Hk; [reflexivity |].
  cbn [fold_left fst snd]. rewrite IH.
  - apply dict_get_set_other. intros ->. apply Hk. now left.
  - intros Hin. apply Hk. now right.
Qed.

Section Anomalies.
Context {A : Type} `{Dtype A}.
Variable keep_attrs : bool.

(** Unless a scenario is itself called "historical", the scalar that is
    subtracted is the mean of the historical annual values. *)
Lemma main_hist_mean_scalar_own (agg : string) (hist : DataArray A)
    (scen : dict (DataArray A)) :
  ~ In "historical" (dict_keys scen) ->
  main_hist_mean_scalar keep_attrs agg hist scen
  = Ok (da_mean (annual_aggregate keep_attrs hist agg)).
Proof.
  intros Hk. unfold main_hist_mean_scalar.
  rewrite dict_get_map, dict_update_other by now rewrite dict_keys_map.
  reflexivity.
Qed.

(** The annual anomaly of a scenario that has the historical series: the
    annual values less their own mean. *)
Lemma main_annual_anoms_own (agg : string) (hist : DataArray A)
    (scen : dict (DataArray A)) (k : string) :
  dict_get scen k = Some hist ->
  ~ In "historical" (dict_keys scen) ->
  exists anoms,
    main_annual_anoms keep_attrs agg hist scen = Ok anoms
    /\ dict_get anoms k
       = Some (da_sub_scalar keep_attrs (annual_aggregate keep_attrs hist agg)
                 (da_mean (annual_aggregate keep_attrs hist agg))).
Proof.
  intros Hget Hk. unfold main_annual_anoms.
  rewrite (main_hist_mean_scalar_own agg hist scen Hk).
  eexists. split; [reflexivity |].
  now rewrite !dict_get_map, Hget.
Qed.

End Anomalies.

(** *** In exact arithmetic *)

Lemma sum_const (c : Q) (n : nat) (acc : Q) :
  exists q,
    fold_left add (repeat (Exact.Fin c) n) (Exact.Fin acc) = Exact.Fin q
    /\ (q == acc + inject_Z (Z.of_nat n) * c)%Q.
Proof.
  revert acc. induction n as [| n IH]; intros acc.
  - exists acc. split; [reflexivity |]. cbn. ring.
  - cbn [repeat fold_left add Exact.dtype Exact.lift2].
    destruct (IH (Qred (acc + c))) as (q & Hq & Hval).
    exists q. split; [exact Hq |].
    rewrite Hval, Qred_correct, Nat2Z.inj_succ. unfold Z.succ.
    rewrite inject_Z_plus. ring.
Qed.

Lemma nanvalues_const (c : Q) (n : nat) :
  nanvalues (repeat (Exact.Fin c) n) = repeat (Exact.Fin c) n.
Proof.
  unfold nanvalues. induction n as [| n IH]; [reflexivity |].
  cbn [repeat filter]. change (isnan (Exact.Fin c)) with false.
  cbn [negb]. now rewrite IH.
Qed.

(** The mean of equal values is that value. *)
Lemma nanmean_repeat (c : Q) (n : nat) :
  exists m, nanmean (repeat (Exact.Fin c) (S n)) = Exact.Fin m /\ (m == c)%Q.
Proof.
  unfold nanmean. rewrite nanvalues_const. cbn [repeat].
  set (vs := Exact.Fin c :: repeat (Exact.Fin c) n).
  assert (Hlen : List.length vs = S n)
    by (unfold vs; cbn [List.length]; now rewrite repeat_length).
  rewrite Hlen. unfold sum_list.
  destruct (sum_const c (S n) (inject_Z 0)) as (q & Hq & Hval).
  cbn [repeat] in Hq. fold vs in Hq.
  change (of_Z 0) with (Exact.Fin (inject_Z 0)). rewrite Hq.
  change (of_Z (Z.of_nat (S n)))
    with (Exact.Fin (inject_Z (Z.of_nat (S n)))).
  change (div (Exact.Fin q) (Exact.Fin (inject_Z (Z.of_nat (S n)))))
    with (if Qeq_bool (inject_Z (Z.of_nat (S n))) 0 then Exact.NaN
          else Exact.Fin (Qred (q / inject_Z (Z.of_nat (S n))))).
  assert (Hn : ~ (inject_Z (Z.of_nat (S n)) == 0)%Q).
  { unfold Qeq. cbn [Qnum Qden inject_Z]. lia. }
  destruct (Qeq_bool (inject_Z (Z.of_nat (S n))) 0) eqn:Hz;
    [now apply Qeq_bool_eq in Hz |].
  eexists. split; [reflexivity |].
  rewrite Qred_correct, Hval. field. exact Hn.
Qed.

Lemma nanmean_const (c : Q) (l : list Exact.xq) :
  l <> [] -> (forall v, In v l -> v = Exact.Fin c) ->
  exists m, nanmean l = Exact.Fin m /\ (m == c)%Q.
Proof.
  intros Hne Hall.
  assert (Hrep : l = repeat (Exact.Fin c) (List.length l)).
  { apply Forall_eq_repeat, Forall_forall. intros v Hv. symmetry. auto. }
  destruct (List.length l) as [| n] eqn:Hlen;
    [now apply length_zero_iff_nil in Hlen |].
  rewrite Hrep. apply nanmean_repeat.
Qed.

(** C2, amended.  For a scenario that has the historical series, no
    scenario being called "historical", the annual anomaly of a year is the
    annual value of that year less the mean of the annual values of all
    years.  In exact arithmetic it is zero for every year when all years
    have the same annual value, as a single year has. *)
Theorem annual_anomaly_against_own_mean (keep_attrs : bool) (agg : string)
    (hist : DataArray Exact.xq) (scen : dict (DataArray Exact.xq))
    (k : string) :
  dict_get scen k = Some hist ->
  ~ In "historical" (dict_keys scen) ->
  exists anoms anom,
    main_annual_anoms keep_attrs agg hist scen = Ok anoms
    /\ dict_get anoms k = Some anom
    /\ samples anom
       = map (fun tv =>
                (fst tv,
                 sub (snd tv) (da_mean (annual_aggregate keep_attrs hist agg))))
             (samples (annual_aggregate keep_attrs hist agg))
    /\ forall c,
         samples (annual_aggregate keep_attrs hist agg) <> [] ->
         (forall v, In v (values (annual_aggregate keep_attrs hist agg)) ->
                    v = Exact.Fin c) ->
         forall v, In v (values anom) -> v = Exact.Fin 0.
Proof.
  intros Hget Hk.
  destruct (main_annual_anoms_own keep_attrs agg hist scen k Hget Hk)
    as (anoms & Heq & Hanom).
  exists anoms. eexists. split; [exact Heq |]. split; [exact Hanom |].
  split; [reflexivity |].
  intros c Hne Hall v Hv.
  destruct (nanmean_const c (values (annual_aggregate keep_attrs hist agg)))
    as (m & Hm & Hmc).
  { unfold values. intros Hnil. apply map_eq_nil in Hnil. contradiction. }
  { exact Hall. }
  unfold values in Hv. cbn [samples da_sub_scalar] in Hv.
  rewrite map_map in Hv. cbn [snd] in Hv.
  apply in_map_iff in Hv as (tv & <- & Htv).
  unfold da_mean. rewrite Hm.
  rewrite (Hall (snd tv)) by (unfold values; now apply in_map).
  cbn [sub Exact.dtype Exact.lift2]. f_equal.
  change 0%Q with (Qred 0). apply Qred_complete.
  rewrite Hmc. ring.
Qed.

(** C2, as stated, fails: a scenario with the historical series, annual
    means 2 and 6, has the annual anomalies -2 and 2. *)
Lemma own_anomaly_not_zero :
  option_map (dict_map values)
    (match main_annual_anoms true "mean" two_years
             [("ssp1_2_6", two_years)] with
     | Ok anoms => Some anoms
     | Raise _ => None
     end)
  = Some [("ssp1_2_6", [Exact.Fin (-2); Exact.Fin 2])].
Proof. reflexivity. Qed.

(** The same in binary64. *)
Example own_anomaly_not_zero_binary64 :
  option_map (dict_map values)
    (match main_annual_anoms true "mean" two_years_binary64
             [("ssp1_2_6", two_years_binary64)] with
     | Ok anoms => Some anoms
     | Raise _ => None
     end)
  = Some [("ssp1_2_6", [(-2)%float; 2%float])].
Proof. reflexivity. Qed.

(** A single year: the anomaly is zero. *)
Lemma annual_anomaly_against_own_mean_one_year :
  exists anoms anom,
    main_annual_anoms true "mean" one_year [("ssp1_2_6", one_year)] = Ok anoms
    /\ dict_get anoms "ssp1_2_6" = Some anom
    /\ forall v, In v (values anom) -> v = Exact.Fin 0.
Proof.
  assert (Hk : ~ In "historical" (dict_keys [("ssp1_2_6", one_year)])).
  { intros [Hk | []]. discriminate. }
  destruct (annual_anomaly_against_own_mean true "mean" one_year
              [("ssp1_2_6", one_year)] "ssp1_2_6" eq_refl Hk)
    as (anoms & anom & Heq & Hget & _ & Hzero).
  exists anoms, anom. split; [exact Heq |]. split; [exact Hget |].
  apply (Hzero 2%Q).
  - discriminate.
  - intros v [<- | []]. reflexivity.
Defined.

End AnalysisFacts.

(* ================================================================== *)
(** * More about the retrieval driver *)
(* ================================================================== *)

Module APIMore.
Import API PyFacts APIFacts Text.

(** Reading a rendered integer gives the integer back. *)
Lemma int_of_str_str (z : Z) : int_of_str (str z) = Some z.
Proof.
  unfold int_of_str, str.
  rewrite NilZero.isi.
  - cbn [option_map]. now rewrite DecimalZ.of_to.
  - destruct z; cbn; intros [= Hz];
      now apply DecimalPos.Unsigned.to_uint_nonnil in Hz.
  - destruct z; cbn; intros [= Hz];
      now apply DecimalPos.Unsigned.to_uint_nonnil in Hz.
Qed.

Lemma str_inj (x y : Z) : str x = str y -> x = y.
Proof.
  intros Heq. pose proof (int_of_str_str x) as Hx.
  rewrite Heq, int_of_str_str in Hx. now injection Hx.
Qed.

Lemma range_nodup (a b : Z) : NoDup (range a b).
Proof.
  unfold range. apply Injective_map_NoDup; [| apply seq_NoDup].
  intros i j Hij. lia.
Qed.

(** [year_list]: the strings are the decimal numerals of the years from
    start to end, so they read back as these years and no two are equal. *)
Theorem year_list_reads_back (start end_ : Z) :
  map int_of_str (year_list start end_) = map Some (range start (end_ + 1))
  /\ NoDup (year_list start end_).
Proof.
  unfold year_list. split.
  - rewrite map_map. apply map_ext. intros z. apply int_of_str_str.
  - apply Injective_map_NoDup; [| apply range_nodup].
    intros x y. apply str_inj.
Qed.

(** ** A retrieval that fails *)

Lemma download_one_performs (world : event -> option exn) (args : Args)
    (e v : string) :
  fst (year_range args e) <= snd (year_range args e) ->
  download_one world v e (years_for args e) (area args) (model args)
               (path_div (output_base args) (subdir_of e))
  = (perform world (Retrieve DATASET (request_of args e v)
                             (path_str (target_of args e v))) ;;;
     ret (target_of args e v)).
Proof.
  intros Hle. unfold download_one, request_of.
  rewrite years_for_range, year_list_first, year_list_last by assumption.
  unfold lift, bind, perform. fold (target_name args e v).
  fold (target_of args e v).
  now destruct (world _).
Qed.

Section Failure.
Variable world : event -> option exn.
Variable args : Args.
Variables (e v : string) (exc : exn).

(** The service fails the retrieval of the pair (e, v), and nothing else
    fails. *)
Hypothesis fails_pair :
  world (Retrieve DATASET (request_of args e v)
                  (path_str (target_of args e v))) = Some exc.
Hypothesis fails_only_pair :
  forall ev,
    (forall ds r t, ev = Retrieve ds r t ->
                    req_experiment r <> e \/ req_variable r <> v) ->
    world ev = None.

Lemma other_event_ok (ev : event) :
  (forall ds r t, ev <> Retrieve ds r t) -> world ev = None.
Proof.
  intros Hev. apply fails_only_pair. intros ds r t Heq.
  now contradiction (Hev ds r t).
Qed.

Lemma other_pair_ok (d w : string) :
  d <> e \/ w <> v ->
  fst (year_range args d) <= snd (year_range args d) ->
  download_one world w d (years_for args d) (area args) (model args)
               (path_div (output_base args) (subdir_of d))
  = ([Retrieve DATASET (request_of args d w) (path_str (target_of args d w))],
     Ok (target_of args d w)).
Proof.
  intros Hne Hle. rewrite download_one_performs by assumption.
  unfold perform. rewrite fails_only_pair; [reflexivity |].
  intros ds r t [= _ <- _]. exact Hne.
Qed.

Lemma other_experiment_ok (d : string) :
  d <> e ->
  fst (year_range args d) <= snd (year_range args d) ->
  main_experiment world args d = (round_events args d, Ok tt).
Proof.
  intros Hne Hle. unfold main_experiment, output_dir_for_experiment, perform.
  rewrite other_event_ok by (intros; discriminate).
  cbn [bind ret app]. fold (subdir_of d).
  erewrite for_each_ok; [reflexivity |].
  intros w _. rewrite other_pair_ok by auto. reflexivity.
Qed.

(** The events of the experiment in which the retrieval fails. *)
Lemma failing_experiment (vdone vrest : list string) :
  variables args = (vdone ++ v :: vrest)%list ->
  ~ In v vdone ->
  fst (year_range args e) <= snd (year_range args e) ->
  main_experiment world args e
  = ((Mkdir (path_div (output_base args) (subdir_of e))
        :: flat_map (fun w =>
             [ Retrieve DATASET (request_of args e w)
                        (path_str (target_of args e w));
               Print ("[ok] " ++ e ++ " " ++ w ++ " -> "
                        ++ path_str (target_of args e w)) ]) vdone
        ++ [Retrieve DATASET (request_of args e v)
                     (path_str (target_of args e v))])%list,
     Raise exc).
Proof.
  intros Hvars Hnew Hle. unfold main_experiment, output_dir_for_experiment.
  unfold perform at 1. rewrite other_event_ok by (intros; discriminate).
  cbn [bind ret app]. fold (subdir_of e). rewrite Hvars.
  erewrite for_each_raise; [reflexivity | |].
  - intros w Hw. rewrite other_pair_ok; [reflexivity | | assumption].
    right. intros ->. contradiction.
  - rewrite download_one_performs by assumption.
    unfold perform. rewrite fails_pair. reflexivity.
Qed.

End Failure.

Lemma retrieved_skip (ev : event) (l : list event) :
  match ev with Retrieve _ _ _ => False | _ => True end ->
  retrieved (ev :: l) = retrieved l.
Proof. now destruct ev. Qed.

Lemma retrieved_pairs (args : Args) (e : string) (ws : list string) :
  retrieved (flat_map (fun w =>
               [ Retrieve DATASET (request_of args e w)
                          (path_str (target_of args e w));
                 Print ("[ok] " ++ e ++ " " ++ w ++ " -> "
                          ++ path_str (target_of args e w)) ]) ws)
  = map (fun w => path_str (target_of args e w)) ws.
Proof.
  induction ws as [| w ws IH]; [reflexivity |].
  cbn [flat_map map]. rewrite retrieved_app, IH. reflexivity.
Qed.

(** A failure of the client is not caught.  When the service fails the
    retrieval of one pair (experiment e, variable v) and nothing else fails,
    the run ends with the exception of the service; it has retrieved the
    pairs before (e, v), each with its line printed, and its last event is
    the retrieval of (e, v): no line for it, no later pair. *)
Theorem retrieve_failure_halts (world : event -> option exn) (args : Args)
    (e v : string) (exc : exn) (done rest vdone vrest : list string) :
  world (Retrieve DATASET (request_of args e v)
                  (path_str (target_of args e v))) = Some exc ->
  (forall ev,
     (forall ds r t, ev = Retrieve ds r t ->
                     req_experiment r <> e \/ req_variable r <> v) ->
     world ev = None) ->
  experiments args = (done ++ e :: rest)%list ->
  variables args = (vdone ++ v :: vrest)%list ->
  ~ In e done -> ~ In v vdone ->
  (forall d, In d (done ++ [e])%list ->
             fst (year_range args d) <= snd (year_range args d)) ->
  outcome (main world args) = Raise exc
  /\ events (main world args)
     = (ClientInit :: flat_map (round_events args) done
          ++ (Mkdir (path_div (output_base args) (subdir_of e))
                :: flat_map (fun w =>
                     [ Retrieve DATASET (request_of args e w)
                                (path_str (target_of args e w));
                       Print ("[ok] " ++ e ++ " " ++ w ++ " -> "
                                ++ path_str (target_of args e w)) ]) vdone
                ++ [Retrieve DATASET (request_of args e v)
                             (path_str (target_of args e v))]))%list
  /\ retrieved (events (main world args))
     = (targets_of args done
          ++ map (fun w => path_str (target_of args e w)) vdone
          ++ [path_str (target_of args e v)])%list.
Proof.
  intros Hbad Hother Hexp Hvars He Hv Hle.
  assert (Hmain :
    main world args
    = ((ClientInit :: flat_map (round_events args) done
          ++ (Mkdir (path_div (output_base args) (subdir_of e))
                :: flat_map (fun w =>
                     [ Retrieve DATASET (request_of args e w)
                                (path_str (target_of args e w));
                       Print ("[ok] " ++ e ++ " " ++ w ++ " -> "
                                ++ path_str (target_of args e w)) ]) vdone
                ++ [Retrieve DATASET (request_of args e v)
                             (path_str (target_of args e v))]))%list,
       Raise exc)).
  { unfold main. unfold perform at 1.
    rewrite (other_event_ok world e v Hother) by (intros; discriminate).
    rewrite Hexp. erewrite for_each_raise; [reflexivity | |].
    - intros d Hd.
      apply (other_experiment_ok world args e v Hother).
      + intros ->. contradiction.
      + apply Hle, in_or_app. now left.
    - apply (failing_experiment world args e v exc Hbad Hother vdone vrest);
        [assumption | assumption |].
      apply Hle, in_or_app. right. now left. }
  rewrite Hmain. cbn [outcome events fst snd].
  split; [reflexivity |]. split; [reflexivity |].
  rewrite retrieved_skip by easy.
  rewrite retrieved_app, retrieved_rounds. f_equal.
  rewrite retrieved_skip by easy.
  rewrite retrieved_app, retrieved_pairs. reflexivity.
Qed.

(** The default run against a service that fails the wind speed of
    ssp1_2_6: both historical files and the temperature of ssp1_2_6 are
    retrieved, the wind speed is tried, ssp5_8_5 is never reached. *)
Lemma retrieve_failure_halts_sample :
  outcome (main APIRest.failing_world default_args)
  = Raise (ExternalError "request failed")
  /\ retrieved (events (main APIRest.failing_world default_args))
     = [ "date/historico/historical_near_surface_air_temperature_1980-2014_ipsl_cm6a_lr.zip";
         "date/historico/historical_near_surface_wind_speed_1980-2014_ipsl_cm6a_lr.zip";
         "date/projecao/ssp1_2_6_near_surface_air_temperature_2015-2049_ipsl_cm6a_lr.zip";
         "date/projecao/ssp1_2_6_near_surface_wind_speed_2015-2049_ipsl_cm6a_lr.zip" ].
Proof.
  assert (Hother : forall ev,
            (forall ds r t, ev = Retrieve ds r t ->
               req_experiment r <> "ssp1_2_6"
               \/ req_variable r <> "near_surface_wind_speed") ->
            APIRest.failing_world ev = None).
  { intros [| p | ds r t | line] Hev; try reflexivity.
    cbn. destruct (Hev ds r t eq_refl) as [Hne | Hne];
      apply String.eqb_neq in Hne; rewrite Hne;
      [reflexivity | now rewrite andb_false_r]. }
  assert (Hle : forall d, In d (["historical"] ++ ["ssp1_2_6"])%list ->
            fst (year_range default_args d) <= snd (year_range default_args d)).
  { intros d [<- | [<- | []]]; cbn; lia. }
  assert (He : ~ In "ssp1_2_6" ["historical"])
    by (intros [Heq | []]; discriminate).
  assert (Hv : ~ In "near_surface_wind_speed" ["near_surface_air_temperature"])
    by (intros [Heq | []]; discriminate).
  destruct (retrieve_failure_halts APIRest.failing_world default_args
              "ssp1_2_6" "near_surface_wind_speed"
              (ExternalError "request failed")
              ["historical"] ["ssp5_8_5"] ["near_surface_air_temperature"] []
              eq_refl Hother eq_refl eq_refl He Hv Hle)
    as (Hout & _ & Hret).
  split; [exact Hout |]. rewrite Hret. reflexivity.
Defined.

End APIMore.

(* ================================================================== *)
(** * More about the analysis tool *)
(* ================================================================== *)

Module AnalysisMore.
Import Analysis AnalysisRest Text PyFacts AnalysisFacts.

(** ** Text *)

Lemma append_assoc (a b c : string) : (a ++ b) ++ c = a ++ b ++ c.
Proof. induction a as [| x a IH]; cbn; [reflexivity | now rewrite IH]. Qed.

Lemma prefix_empty (s : string) : String.prefix "" s = true.
Proof. now destruct s. Qed.

Lemma contains_eq_cons (c : ascii) (s : string) :
  contains "=" (String c s) = Ascii.eqb c "=" || contains "=" s.
Proof.
  cbn [contains String.prefix]. rewrite prefix_empty.
  destruct (ascii_dec "=" c) as [<- | Hne]; [reflexivity |].
  assert (Hc : Ascii.eqb c "=" = false) by (apply Ascii.eqb_neq; congruence).
  now rewrite Hc.
Qed.

Lemma contains_eq_split (s : string) :
  contains "=" s
  = match split_once "=" s with Some _ => true | None => false end.
Proof.
  induction s as [| c s IH]; [reflexivity |].
  rewrite contains_eq_cons. cbn [split_once].
  destruct (Ascii.eqb c "="); [reflexivity |].
  cbn [orb]. rewrite IH. now destruct (split_once "=" s) as [[? ?] |].
Qed.

Lemma contains_eq_app (a b : string) :
  contains "=" (a ++ b) = contains "=" a || contains "=" b.
Proof.
  induction a as [| c a IH]; [reflexivity |].
  cbn [append]. rewrite !contains_eq_cons, IH. apply orb_assoc.
Qed.

Lemma all_space_no_eq (ws : string) :
  all_space ws = true -> contains "=" ws = false.
Proof.
  induction ws as [| c ws IH]; [reflexivity |].
  cbn [all_space]. intros [Hc Hws]%andb_prop.
  rewrite contains_eq_cons, IH by assumption.
  destruct (Ascii.eqb_spec c "=") as [-> | _]; [discriminate | reflexivity].
Qed.

Lemma split_once_app (a b : string) :
  contains "=" a = false -> split_once "=" (a ++ "=" ++ b) = Some (a, b).
Proof.
  induction a as [| c a IH]; [reflexivity |].
  rewrite contains_eq_cons. intros [Hc Ha]%orb_false_elim.
  cbn [append split_once]. rewrite Hc.
  change (a ++ String "=" b) with (a ++ "=" ++ b).
  now rewrite IH.
Qed.

Lemma lstrip_all_space (ws : string) :
  all_space ws = true -> lstrip ws = "".
Proof.
  induction ws as [| c ws IH]; [reflexivity |].
  cbn [all_space lstrip]. intros [-> Hws]%andb_prop. auto.
Qed.

Lemma lstrip_app_space (ws s : string) :
  all_space ws = true -> lstrip (ws ++ s) = lstrip s.
Proof.
  induction ws as [| c ws IH]; [reflexivity |].
  cbn [all_space append lstrip]. intros [-> Hws]%andb_prop. auto.
Qed.

Lemma rstrip_all_space (ws : string) :
  all_space ws = true -> rstrip ws = "".
Proof.
  induction ws as [| c ws IH]; [reflexivity |].
  cbn [all_space rstrip]. intros [-> Hws]%andb_prop. now rewrite IH.
Qed.

Lemma rstrip_app_space (s ws : string) :
  all_space ws = true -> rstrip (s ++ ws) = rstrip s.
Proof.
  intros Hws. induction s as [| c s IH].
  - cbn [append]. now apply rstrip_all_space.
  - cbn [append rstrip]. now rewrite IH.
Qed.

(** Whitespace around a text does not change what [strip] gives. *)
Lemma strip_padded (l s r : string) :
  all_space l = true -> all_space r = true -> strip (l ++ s ++ r) = strip s.
Proof.
  intros Hl Hr. unfold strip. rewrite lstrip_app_space by assumption.
  clear l Hl. induction s as [| c s IH].
  - cbn [append]. now rewrite lstrip_all_space.
  - cbn [append lstrip]. destruct (is_space c); [exact IH |].
    change (String c (s ++ r)) with (String c s ++ r).
    now apply rstrip_app_space.
Qed.

(** ** [parse_scenario_files] *)

Section Cli.
Variable Path_ : string -> Path.

Lemma parse_from_malformed (good : list string) (bad : string)
    (rest : list string) (mapping : dict Path) :
  (forall g, In g good -> contains "=" g = true) ->
  contains "=" bad = false ->
  parse_scenario_files_from Path_ (good ++ bad :: rest) mapping
  = Raise (ValueError ("Formato inválido em --scenario-file: " ++ bad
                         ++ ". Use experimento=arquivo.nc")).
Proof.
  revert mapping. induction good as [| g good IH]; intros mapping Hgood Hbad.
  - cbn. now rewrite Hbad.
  - cbn [app parse_scenario_files_from].
    pose proof (Hgood g (or_introl eq_refl)) as Hg. rewrite Hg. cbn [negb].
    rewrite contains_eq_split in Hg.
    destruct (split_once "=" g) as [[name path] |]; [| discriminate].
    apply IH; [| assumption]. intros; apply Hgood; now right.
Qed.

(** An item without "=" stops [parse_scenario_files] with a ValueError that
    quotes the first such item; no mapping is returned, whatever the items
    before and after it are. *)
Theorem parse_scenario_files_malformed (good : list string) (bad : string)
    (rest : list string) :
  (forall g, In g good -> contains "=" g = true) ->
  contains "=" bad = false ->
  parse_scenario_files Path_ (good ++ bad :: rest)
  = Raise (ValueError ("Formato inválido em --scenario-file: " ++ bad
                         ++ ". Use experimento=arquivo.nc")).
Proof. apply parse_from_malformed. Qed.

Lemma find_app {T} (f : T -> bool) (l1 l2 : list T) :
  find f (l1 ++ l2)%list
  = match find f l1 with Some x => Some x | None => find f l2 end.
Proof.
  induction l1 as [| x l1 IH]; [reflexivity |].
  cbn [app find]. now destruct (f x).
Qed.

Lemma last_binding_cons (item : string) (pairs : list string) (name : string) :
  last_binding Path_ (item :: pairs) name
  = match last_binding Path_ pairs name with
    | Some p => Some p
    | None =>
        match binding_of Path_ item with
        | Some (n, p) => if String.eqb name n then Some p else None
        | None => None
        end
    end.
Proof.
  unfold last_binding. cbn [map rev]. rewrite find_app.
  destruct (find _ (rev (map (binding_of Path_) pairs))) as [[[n p] |] |] eqn:Hf.
  - reflexivity.
  - apply find_some in Hf as [_ Hf]. discriminate.
  - cbn [find]. destruct (binding_of Path_ item) as [[n p] |]; [| reflexivity].
    now destruct (String.eqb name n).
Qed.

Lemma parse_from_ok (pairs : list string) (mapping : dict Path) :
  (forall item, In item pairs -> contains "=" item = true) ->
  exists result,
    parse_scenario_files_from Path_ pairs mapping = Ok result
    /\ forall name,
         dict_get result name
         = match last_binding Path_ pairs name with
           | Some p => Some p
           | None => dict_get mapping name
           end.
Proof.
  revert mapping. induction pairs as [| item pairs IH]; intros mapping Hall.
  - exists mapping. split; reflexivity.
  - cbn [parse_scenario_files_from].
    pose proof (Hall item (or_introl eq_refl)) as Hitem. rewrite Hitem.
    cbn [negb]. rewrite contains_eq_split in Hitem.
    destruct (split_once "=" item) as [[name path] |] eqn:Hsplit;
      [| discriminate].
    destruct (IH (dict_set mapping (strip name) (Path_ (strip path))))
      as (result & Heq & Hget).
    { intros; apply Hall; now right. }
    exists result. split; [exact Heq |].
    intros n. rewrite Hget, last_binding_cons.
    destruct (last_binding Path_ pairs n); [reflexivity |].
    unfold binding_of. rewrite Hsplit.
    destruct (String.eqb_spec n (strip name)) as [-> | Hne].
    + apply dict_get_set_same.
    + now apply dict_get_set_other.
Qed.

(** When every item holds an "=", [parse_scenario_files] returns a mapping
    in which a name is bound to the path of the last item that names it,
    and to nothing when no item does. *)
Theorem parse_scenario_files_last_wins (pairs : list string) :
  (forall item, In item pairs -> contains "=" item = true) ->
  exists mapping,
    parse_scenario_files Path_ pairs = Ok mapping
    /\ forall name, dict_get mapping name = last_binding Path_ pairs name.
Proof.
  intros Hall. destruct (parse_from_ok pairs [] Hall) as (m & Heq & Hget).
  exists m. split; [exact Heq |]. intros name. rewrite Hget.
  now destruct (last_binding Path_ pairs name).
Qed.

(** An item is cut at its first "=", so a path may hold an "=" itself, and
    whitespace around the name and around the path is dropped. *)
Theorem parse_scenario_files_item (name path l1 r1 l2 r2 : string) :
  contains "=" name = false ->
  all_space l1 = true -> all_space r1 = true ->
  all_space l2 = true -> all_space r2 = true ->
  parse_scenario_files Path_
    [(l1 ++ name ++ r1) ++ "=" ++ (l2 ++ path ++ r2)]
  = Ok [(strip name, Path_ (strip path))].
Proof.
  intros Hname Hl1 Hr1 Hl2 Hr2.
  assert (Hleft : contains "=" (l1 ++ name ++ r1) = false).
  { rewrite !contains_eq_app, Hname, !all_space_no_eq by assumption.
    reflexivity. }
  unfold parse_scenario_files. cbn [parse_scenario_files_from].
  rewrite contains_eq_split, split_once_app by assumption. cbn [negb].
  now rewrite !strip_padded by assumption.
Qed.

End Cli.

(** ** The dataset loader *)

Lemma path_eqb_refl (p : Path) : path_eqb p p = true.
Proof. unfold path_eqb. now destruct (list_eq_dec string_dec p p). Qed.

Section LoaderFacts.
Context {A : Type} `{Dtype A}.
Variable keep_attrs : bool.
Variable xr_mean : DataArray A -> list string -> DataArray A.
Variable xr : Xarray A.
Variable io : Files A.
Variable direction_of : DataArray A -> DataArray A -> DataArray A.

(** The loader, case by case. *)
Lemma open_dataset_maybe_zip_cases {B} (path : Path)
    (body : Dataset A -> result B) :
  open_dataset_maybe_zip io path body
  = let td := tempdir io in
    if String.eqb (lower (suffix io path)) ".zip" then
      match zip_namelist io path with
      | Raise e => ([MkTemp td; RmTemp td], Raise e)
      | Ok names =>
          match filter (endswith ".nc") names with
          | [] =>
              ([MkTemp td; ZipOpen path; ZipClose path; RmTemp td],
               Raise (FileNotFoundError
                        ("Nenhum .nc dentro do zip: " ++ path_str path)))
          | member :: _ =>
              match zip_extract io path member td with
              | Some e =>
                  ([MkTemp td; ZipOpen path; ZipClose path; RmTemp td],
                   Raise e)
              | None =>
                  match xr_open_dataset io (path_div td member) with
                  | Raise e =>
                      ([MkTemp td; ZipOpen path; ZipExtract path member td;
                        ZipClose path; RmTemp td], Raise e)
                  | Ok ds =>
                      ([MkTemp td; ZipOpen path; ZipExtract path member td;
                        ZipClose path; OpenDataset (path_div td member);
                        CloseDataset (path_div td member); RmTemp td],
                       body ds)
                  end
              end
          end
      end
    else
      match xr_open_dataset io path with
      | Raise e => ([], Raise e)
      | Ok ds => ([OpenDataset path; CloseDataset path], body ds)
      end.
Proof.
  unfold open_dataset_maybe_zip, xr_open. cbv zeta.
  destruct (String.eqb (lower (suffix io path)) ".zip").
  - destruct (zip_namelist io path) as [names | e]; [| reflexivity].
    cbn -[path_div path_str append endswith filter].
    destruct (filter (endswith ".nc") names) as [| member members];
      [reflexivity |].
    cbn -[path_div path_str append endswith filter].
    destruct (zip_extract io path member (tempdir io)); [reflexivity |].
    cbn -[path_div path_str append endswith filter].
    destruct (xr_open_dataset io (path_div (tempdir io) member));
      [| reflexivity].
    cbn -[path_div path_str append endswith filter].
    now destruct (body a).
  - destruct (xr_open_dataset io path) as [ds | e]; [| reflexivity].
    cbn -[path_div path_str append endswith filter].
    now destruct (body ds).
Qed.

Ltac loader_cases path body :=
  rewrite (open_dataset_maybe_zip_cases path body); cbv zeta;
  destruct (String.eqb (lower (suffix io path)) ".zip");
  [ destruct (zip_namelist io path) as [names | e1];
    [ destruct (filter (endswith ".nc") names) as [| member members];
      [ | destruct (zip_extract io path member (tempdir io)) as [e2 |];
          [ | destruct (xr_open_dataset io (path_div (tempdir io) member))
                as [ds | e3] ] ]
    | ]
  | destruct (xr_open_dataset io path) as [ds | e3] ].

(** Whatever happens inside a [with open_dataset_maybe_zip(...)] block,
    whether it returns or raises and wherever opening fails, nothing is
    left open when the block is left: the dataset is closed, the archive is
    closed and the temporary directory is removed, innermost first. *)
Theorem open_dataset_maybe_zip_releases {B} (path : Path)
    (body : Dataset A -> result B) :
  held (events (open_dataset_maybe_zip io path body)) [] = Some [].
Proof.
  loader_cases path body; cbn [events fst held];
    rewrite ?path_eqb_refl; reflexivity.
Qed.

(** The outcome of a [with] block is that of its body on the dataset that
    was opened, or the exception that kept the dataset from being opened;
    so [load_series] through the loader is [load_series] on what the loader
    opens. *)
Theorem open_dataset_maybe_zip_outcome {B} (path : Path)
    (body : Dataset A -> result B) (variable : string) :
  outcome (open_dataset_maybe_zip io path body)
  = match opened io path with
    | Ok ds => body ds
    | Raise e => Raise e
    end
  /\ outcome (AnalysisRest.load_series keep_attrs xr_mean xr io path variable)
     = Analysis.load_series keep_attrs xr_mean xr (opened io) path variable.
Proof.
  assert (Hgen : forall C (f : Dataset A -> result C),
            outcome (open_dataset_maybe_zip io path f)
            = match opened io path with
              | Ok ds => f ds
              | Raise e => Raise e
              end).
  { intros C f. unfold opened.
    rewrite (open_dataset_maybe_zip_cases path (fun ds => Ok ds)).
    loader_cases path f; reflexivity. }
  split; [apply Hgen |].
  unfold AnalysisRest.load_series, Analysis.load_series. apply Hgen.
Qed.

(** An archive without a member that ends in ".nc": FileNotFoundError, the
    archive is closed and the temporary directory removed, and no dataset is
    opened. *)
Theorem open_dataset_maybe_zip_no_member {B} (path : Path)
    (body : Dataset A -> result B) (names : list string) :
  lower (suffix io path) = ".zip" ->
  zip_namelist io path = Ok names ->
  (forall name, In name names -> endswith ".nc" name = false) ->
  open_dataset_maybe_zip io path body
  = ([ MkTemp (tempdir io); ZipOpen path; ZipClose path;
       RmTemp (tempdir io) ],
     Raise (FileNotFoundError ("Nenhum .nc dentro do zip: " ++ path_str path))).
Proof.
  intros Hzip Hnames Hnone. rewrite open_dataset_maybe_zip_cases.
  cbv zeta. rewrite Hzip, Hnames. cbn [String.eqb Ascii.eqb Bool.eqb].
  assert (Hfilter : filter (endswith ".nc") names = []).
  { clear Hnames. induction names as [| n names IH]; [reflexivity |].
    cbn [filter]. rewrite Hnone by now left.
    apply IH. intros; apply Hnone; now right. }
  now rewrite Hfilter.
Qed.

(** A path that is not an archive is opened as it is: no temporary
    directory is made, and the only events are the opening of that very
    file and, when it opened, its closing. *)
Theorem open_dataset_maybe_zip_plain {B} (path : Path)
    (body : Dataset A -> result B) :
  lower (suffix io path) <> ".zip" ->
  events (open_dataset_maybe_zip io path body)
  = match xr_open_dataset io path with
    | Ok _ => [OpenDataset path; CloseDataset path]
    | Raise _ => []
    end.
Proof.
  intros Hzip. rewrite open_dataset_maybe_zip_cases. cbv zeta.
  rewrite (proj2 (String.eqb_neq _ _) Hzip).
  now destruct (xr_open_dataset io path).
Qed.

(** ** Wind direction *)

Lemma ds_getitem_found (ds : Dataset A) (l : list string) (name : string) :
  find (ds_contains ds) l = Some name -> exists da, ds_getitem ds name = Ok da.
Proof.
  intros [_ Hin]%find_some. now apply ds_getitem_contains.
Qed.

Lemma load_wind_direction_in_found (ds : Dataset A) (u_name v_name : string) :
  find (ds_contains ds) WIND_U_ALIASES = Some u_name ->
  find (ds_contains ds) WIND_V_ALIASES = Some v_name ->
  exists u v,
    ds_getitem ds u_name = Ok u /\ ds_getitem ds v_name = Ok v
    /\ load_wind_direction_in xr_mean xr direction_of ds
       = match sortby_raises xr (spatial_mean xr_mean u) with
         | Some e => Raise e
         | None =>
             match sortby_raises xr (spatial_mean xr_mean v) with
             | Some e => Raise e
             | None =>
                 Ok (Some (set_attr
                             (direction_of
                                (sortby_time (spatial_mean xr_mean u))
                                (sortby_time (spatial_mean xr_mean v)))
                             "units" "degrees_from_north"))
             end
         end.
Proof.
  intros Hu Hv.
  destruct (ds_getitem_found ds _ u_name Hu) as [u Hdu].
  destruct (ds_getitem_found ds _ v_name Hv) as [v Hdv].
  exists u, v. split; [exact Hdu |]. split; [exact Hdv |].
  unfold load_wind_direction_in. rewrite Hu, Hv, Hdu.
  unfold sortby_time_load.
  destruct (sortby_raises xr (spatial_mean xr_mean u)); [reflexivity |].
  rewrite Hdv.
  now destruct (sortby_raises xr (spatial_mean xr_mean v)).
Qed.

(** Once the file is open, [load_wind_direction] returns None exactly when
    no eastward or no northward component is in the file.  When both are
    there, the first alias present of each list is read, reading them
    cannot fail, and the only call that can raise is
    [sortby("time").load()], on the eastward component first; when xarray
    sorts both, the result is an array whose unit attribute is
    "degrees_from_north". *)
Theorem load_wind_direction_in_cases (ds : Dataset A) :
  (load_wind_direction_in xr_mean xr direction_of ds = Ok None <->
   (forall n, In n WIND_U_ALIASES -> ds_contains ds n = false)
   \/ (forall n, In n WIND_V_ALIASES -> ds_contains ds n = false))
  /\ (forall u_name v_name,
        find (ds_contains ds) WIND_U_ALIASES = Some u_name ->
        find (ds_contains ds) WIND_V_ALIASES = Some v_name ->
        exists u v,
          ds_getitem ds u_name = Ok u /\ ds_getitem ds v_name = Ok v
          /\ load_wind_direction_in xr_mean xr direction_of ds
             = match sortby_raises xr (spatial_mean xr_mean u) with
               | Some e => Raise e
               | None =>
                   match sortby_raises xr (spatial_mean xr_mean v) with
                   | Some e => Raise e
                   | None =>
                       Ok (Some (set_attr
                                   (direction_of
                                      (sortby_time (spatial_mean xr_mean u))
                                      (sortby_time (spatial_mean xr_mean v)))
                                   "units" "degrees_from_north"))
                   end
               end)
  /\ (forall d,
        load_wind_direction_in xr_mean xr direction_of ds = Ok (Some d) ->
        dict_get (attrs d) "units" = Some "degrees_from_north")
  /\ (forall e,
        load_wind_direction_in xr_mean xr direction_of ds = Raise e ->
        exists component, sortby_raises xr component = Some e).
Proof.
  split; [| split; [apply load_wind_direction_in_found |]].
  - destruct (find (ds_contains ds) WIND_U_ALIASES) as [u_name |] eqn:Hu.
    + destruct (find (ds_contains ds) WIND_V_ALIASES) as [v_name |] eqn:Hv.
      * destruct (load_wind_direction_in_found ds u_name v_name Hu Hv)
          as (u & v & _ & _ & ->).
        apply find_some in Hu as [Hu_in Hu].
        apply find_some in Hv as [Hv_in Hv]. split.
        -- destruct (sortby_raises xr (spatial_mean xr_mean u));
             [discriminate |].
           destruct (sortby_raises xr (spatial_mean xr_mean v)); discriminate.
        -- intros [Hnone | Hnone];
             [rewrite (Hnone _ Hu_in) in Hu | rewrite (Hnone _ Hv_in) in Hv];
             discriminate.
      * unfold load_wind_direction_in. rewrite Hu, Hv.
        split; [| reflexivity]. intros _. right.
        intros n Hn. exact (find_none _ _ Hv n Hn).
    + unfold load_wind_direction_in. rewrite Hu.
      split; [| reflexivity]. intros _. left.
      intros n Hn. exact (find_none _ _ Hu n Hn).
  - destruct (find (ds_contains ds) WIND_U_ALIASES) as [u_name |] eqn:Hu;
      [| unfold load_wind_direction_in; rewrite Hu;
         split; intros; discriminate].
    destruct (find (ds_contains ds) WIND_V_ALIASES) as [v_name |] eqn:Hv;
      [| unfold load_wind_direction_in; rewrite Hu, Hv;
         split; intros; discriminate].
    destruct (load_wind_direction_in_found ds u_name v_name Hu Hv)
      as (u & v & _ & _ & ->).
    destruct (sortby_raises xr (spatial_mean xr_mean u)) as [eu |] eqn:Hsu.
    { split; [discriminate |]. intros e [= <-].
      exists (spatial_mean xr_mean u). exact Hsu. }
    destruct (sortby_raises xr (spatial_mean xr_mean v)) as [ev |] eqn:Hsv.
    { split; [discriminate |]. intros e [= <-].
      exists (spatial_mean xr_mean v). exact Hsv. }
    split; [| discriminate].
    intros d [= <-]. cbn [attrs set_attr]. apply dict_get_set_same.
Qed.

End LoaderFacts.

(** ** Spatial dimensions *)

Lemma str_in_In (x : string) (l : list string) : str_in x l = true <-> In x l.
Proof.
  unfold str_in. rewrite existsb_exists. split.
  - intros (y & Hy & ->%String.eqb_eq). exact Hy.
  - intros Hx. exists x. split; [exact Hx | apply String.eqb_refl].
Qed.

Section Dims.
Context {A : Type} `{Dtype A}.
Variable xr_mean : DataArray A -> list string -> DataArray A.
Variable xr : Xarray A.

(** [guess_lat_lon_dims] returns dimensions of the array only, at most one
    of "latitude", "lat" followed by at most one of "longitude", "lon", and
    the empty list exactly when the array has none of the four; then
    [spatial_mean] returns the array as it is, and else it averages over
    the dimensions found and over no other. *)
Theorem guess_lat_lon_dims_sound (da : DataArray A) :
  (forall n, In n (guess_lat_lon_dims da) ->
     In n (dims da) /\ In n ["latitude"; "lat"; "longitude"; "lon"])
  /\ (List.length (guess_lat_lon_dims da) <= 2)%nat
  /\ NoDup (guess_lat_lon_dims da)
  /\ (guess_lat_lon_dims da = [] <->
      forall n, In n ["latitude"; "lat"; "longitude"; "lon"] ->
                ~ In n (dims da))
  /\ (guess_lat_lon_dims da = [] -> spatial_mean xr_mean da = da)
  /\ (guess_lat_lon_dims da <> [] ->
      spatial_mean xr_mean da = xr_mean da (guess_lat_lon_dims da)).
Proof.
  unfold spatial_mean, guess_lat_lon_dims. cbn [find].
  destruct (str_in "latitude" (dims da)) eqn:H1;
    destruct (str_in "lat" (dims da)) eqn:H2;
    destruct (str_in "longitude" (dims da)) eqn:H3;
    destruct (str_in "lon" (dims da)) eqn:H4;
    cbn [app List.length];
    (split; [| split; [lia | split; [| split; [| split]]]]);
    try (intros n Hn; cbn [In] in Hn;
         repeat match goal with
                | H : _ \/ _ |- _ => destruct H as [<- | H]
                | H : False |- _ => destruct H
                end;
         (split; [now apply str_in_In | cbn [In]; tauto]));
    try (repeat constructor; cbn [In]; intros Hd;
         repeat match goal with
                | H : _ \/ _ |- _ => destruct H as [H | H]
                | H : False |- _ => destruct H
                end; discriminate);
    try (split; [discriminate |]; intros Hnone; exfalso;
         first [ apply (Hnone "latitude"); [cbn [In]; tauto | now apply str_in_In]
               | apply (Hnone "lat"); [cbn [In]; tauto | now apply str_in_In]
               | apply (Hnone "longitude"); [cbn [In]; tauto | now apply str_in_In]
               | apply (Hnone "lon"); [cbn [In]; tauto | now apply str_in_In] ]);
    try (split; [| reflexivity]; intros _ n Hn Hin;
         apply str_in_In in Hin; cbn [In] in Hn;
         repeat match goal with
                | H : _ \/ _ |- _ => destruct H as [<- | H]
                | H : False |- _ => destruct H
                end; congruence);
    try discriminate; try reflexivity; try (intros Hc; now contradiction Hc).
Qed.

End Dims.

(** ** Aggregation methods *)

(** [get_agg_method] answers "sum" for the four precipitation names and
    "mean" for every other name, and a name and its aliases are aggregated
    the same way. *)
Theorem get_agg_method_sum_or_mean (variable : string) :
  get_agg_method variable
  = (if str_in variable
          ["total_precipitation"; "tp"; "pr"; "precipitation"]
     then "sum" else "mean")
  /\ forall a, In a (aliases_of variable) ->
       get_agg_method a = get_agg_method variable.
Proof.
  split.
  - unfold get_agg_method, dict_get, AGG_METHODS, str_in.
    cbn [assoc_get existsb].
    repeat match goal with
           | |- context [String.eqb variable ?k] =>
               destruct (String.eqb variable k)
           end; reflexivity.
  - unfold aliases_of, dict_get, ALIASES. cbn [assoc_get].
    repeat match goal with
           | |- context [String.eqb variable ?k] =>
               destruct (String.eqb_spec variable k) as [-> | _]
           end;
      cbn [In]; intros a Hin;
      repeat match goal with
             | H : _ \/ _ |- _ => destruct H as [<- | H]
             | H : False |- _ => destruct H
             end; reflexivity.
Qed.

(** ** Annual aggregation *)

Section Annual.
Context {A : Type} `{Dtype A}.
Variable keep_attrs : bool.

Lemma annual_aggregate_samples (da : DataArray A) (method : string)
    (lo hi : Z) :
  (forall tv, In tv (samples da) -> lo <= year (fst tv) <= hi) ->
  (exists tv, In tv (samples da) /\ year (fst tv) = lo) ->
  (exists tv, In tv (samples da) /\ year (fst tv) = hi) ->
  samples (annual_aggregate keep_attrs da method)
  = map (fun y => (year_end y,
                   reduce_bin (if String.eqb method "sum" then nansum
                               else nanmean) (values_of_year da y)))
        (range lo (hi + 1)).
Proof.
  intros Hall Hlo Hhi. unfold annual_aggregate, annual_sum, annual_mean.
  destruct (String.eqb method "sum"); cbn [samples resample];
    rewrite (bins_span year (samples da) lo hi Hall Hlo Hhi), map_map;
    reflexivity.
Qed.

(** The annual series of a series in chronological order has one entry
    for every calendar year from the year of the earliest sample to the
    year of the latest one, in order and labelled with the last day of the
    year, also for a year without samples; the entry of a year that has
    samples is the sum, or the mean, of the values of that year. *)
Theorem annual_aggregate_years (da : DataArray A) (method : string)
    (lo hi : Z) :
  chronological da ->
  (forall tv, In tv (samples da) -> lo <= year (fst tv) <= hi) ->
  (exists tv, In tv (samples da) /\ year (fst tv) = lo) ->
  (exists tv, In tv (samples da) /\ year (fst tv) = hi) ->
  map fst (samples (annual_aggregate keep_attrs da method))
  = map (fun y => {| year := y; month := 12; day := 31 |}) (range lo (hi + 1))
  /\ Z.of_nat (List.length (samples (annual_aggregate keep_attrs da method)))
     = hi - lo + 1
  /\ forall y, lo <= y <= hi -> values_of_year da y <> [] ->
       In (year_end y,
           if String.eqb method "sum" then nansum (values_of_year da y)
           else nanmean (values_of_year da y))
          (samples (annual_aggregate keep_attrs da method)).
Proof.
  intros _ Hall Hlo Hhi.
  rewrite (annual_aggregate_samples da method lo hi Hall Hlo Hhi).
  split; [| split].
  - rewrite map_map. reflexivity.
  - rewrite length_map, range_length.
    destruct Hlo as (tv & Htv & Hy). specialize (Hall tv Htv). lia.
  - intros y Hy Hne. apply in_map_iff. exists y. split.
    + f_equal. unfold reduce_bin.
      destruct (values_of_year da y); [contradiction |].
      now destruct (String.eqb method "sum").
    + apply in_range. lia.
Qed.

End Annual.

(** ** Order in time *)

Lemma ts_leb_total (s t : Timestamp) : ts_leb s t = false -> ts_leb t s = true.
Proof.
  unfold ts_leb.
  destruct (Z.ltb_spec (year s) (year t)), (Z.ltb_spec (year t) (year s)),
    (Z.eqb_spec (year s) (year t)), (Z.eqb_spec (year t) (year s)),
    (Z.ltb_spec (month s) (month t)), (Z.ltb_spec (month t) (month s)),
    (Z.eqb_spec (month s) (month t)), (Z.eqb_spec (month t) (month s)),
    (Z.leb_spec (day s) (day t)), (Z.leb_spec (day t) (day s));
    cbn; intros; try reflexivity; try discriminate; lia.
Qed.

Lemma ts_leb_trans (r s t : Timestamp) :
  ts_leb r s = true -> ts_leb s t = true -> ts_leb r t = true.
Proof.
  unfold ts_leb.
  destruct (Z.ltb_spec (year r) (year s)), (Z.ltb_spec (year s) (year t)),
    (Z.ltb_spec (year r) (year t)),
    (Z.eqb_spec (year r) (year s)), (Z.eqb_spec (year s) (year t)),
    (Z.eqb_spec (year r) (year t)),
    (Z.ltb_spec (month r) (month s)), (Z.ltb_spec (month s) (month t)),
    (Z.ltb_spec (month r) (month t)),
    (Z.eqb_spec (month r) (month s)), (Z.eqb_spec (month s) (month t)),
    (Z.eqb_spec (month r) (month t)),
    (Z.leb_spec (day r) (day s)), (Z.leb_spec (day s) (day t)),
    (Z.leb_spec (day r) (day t));
    cbn; intros; try reflexivity; try discriminate; lia.
Qed.

Section Sorting.
Context {T : Type}.

Lemma insert_by_time_perm (x : Timestamp * T) (l : list (Timestamp * T)) :
  Permutation (insert_by ts_leb fst x l) (x :: l).
Proof.
  induction l as [| y l IH]; [reflexivity |].
  cbn [insert_by]. destruct (ts_leb (fst x) (fst y)); [reflexivity |].
  rewrite IH. apply perm_swap.
Qed.

Lemma insert_by_time_sorted (x : Timestamp * T) (l : list (Timestamp * T)) :
  StronglySorted (fun x y : Timestamp * T => ts_leb (fst x) (fst y) = true) l -> StronglySorted (fun x y : Timestamp * T => ts_leb (fst x) (fst y) = true) (insert_by ts_leb fst x l).
Proof.
  induction 1 as [| y l Hl IH Hy]; cbn [insert_by].
  - repeat constructor.
  - destruct (ts_leb (fst x) (fst y)) eqn:Hxy.
    + constructor; [now constructor |].
      constructor; [exact Hxy |].
      apply Forall_forall. intros z Hz.
      apply (ts_leb_trans _ (fst y)); [exact Hxy |].
      now apply (proj1 (Forall_forall _ _) Hy).
    + constructor; [exact IH |].
      apply Forall_forall. intros z Hz.
      apply (Permutation_in _ (insert_by_time_perm x l)) in Hz.
      destruct Hz as [<- | Hz]; [now apply ts_leb_total |].
      now apply (proj1 (Forall_forall _ _) Hy).
Qed.

Lemma sort_by_time_perm (l : list (Timestamp * T)) :
  Permutation (sort_by ts_leb fst l) l.
Proof.
  induction l as [| x l IH]; [reflexivity |].
  cbn [sort_by fold_right]. fold (sort_by ts_leb fst l).
  rewrite insert_by_time_perm. now constructor.
Qed.

Lemma sort_by_time_sorted (l : list (Timestamp * T)) :
  StronglySorted (fun x y : Timestamp * T => ts_leb (fst x) (fst y) = true) (sort_by ts_leb fst l).
Proof.
  induction l as [| x l IH]; [constructor |].
  cbn [sort_by fold_right]. now apply insert_by_time_sorted.
Qed.

End Sorting.

(** ** What [load_series] returns *)

Lemma dict_get_keys_only {V} (d : dict V) (k : string) :
  dict_keys d = [k] -> exists v, dict_get d k = Some v.
Proof.
  destruct d as [| [k' v'] d]; [discriminate |].
  cbn. intros [= -> _]. exists v'.
  unfold dict_get. cbn. now rewrite String.eqb_refl.
Qed.

Section Loading.
Context {A : Type} `{Dtype A}.
Variable keep_attrs : bool.
Variable xr_mean : DataArray A -> list string -> DataArray A.
Variable xr : Xarray A.

(** A name that [load_series] resolves is in the dataset. *)
Lemma resolve_target_present (ds : Dataset A) (path : Path)
    (variable target : string) :
  resolve_target ds path variable = Ok target ->
  ds_contains ds target = true.
Proof.
  destruct (ds_contains ds variable) eqn:Hlit.
  - rewrite resolve_target_literal by assumption. now intros [= <-].
  - destruct (find (ds_contains ds) (aliases_of variable)) as [a |] eqn:Hfind.
    + rewrite (resolve_target_alias ds path variable a Hlit Hfind).
      intros [= <-]. now apply find_some in Hfind.
    + rewrite resolve_target_fallback by assumption.
      destruct (dict_keys (data_vars ds)) as [| k [| k' ks]] eqn:Hkeys;
        try discriminate.
      intros [= <-]. destruct (dict_get_keys_only _ _ Hkeys) as [v Hv].
      unfold ds_contains, or_else. now rewrite Hv.
Qed.

(** [load_series] on an open dataset fails in two ways only: with the
    KeyError of the variable that is not found, which lists the data
    variables of the file, and with what [sortby("time").load()] raises on
    the array that was read, averaged and converted.  The name it reads is
    always in the dataset, so [ds[target_var]] never fails. *)
Theorem load_series_in_failures (ds : Dataset A) (path : Path)
    (variable : string) :
  (forall target, resolve_target ds path variable = Ok target ->
     ds_contains ds target = true
     /\ exists raw,
          ds_getitem ds target = Ok raw
          /\ load_series_in keep_attrs xr_mean xr ds path variable
             = sortby_time_load xr
                 (convert_units keep_attrs variable target
                    (spatial_mean xr_mean raw)))
  /\ (forall e,
        load_series_in keep_attrs xr_mean xr ds path variable = Raise e ->
        (e = KeyError ("Variável " ++ variable ++ " não encontrada em "
                         ++ path_name path ++ ". Disponíveis: "
                         ++ join ", " (dict_keys (data_vars ds)))
         /\ ds_contains ds variable = false
         /\ (forall a, In a (aliases_of variable) -> ds_contains ds a = false)
         /\ List.length (data_vars ds) <> 1%nat)
        \/ (exists target raw,
              resolve_target ds path variable = Ok target
              /\ ds_getitem ds target = Ok raw
              /\ sortby_raises xr
                   (convert_units keep_attrs variable target
                      (spatial_mean xr_mean raw)) = Some e)).
Proof.
  split.
  - intros target Hres.
    pose proof (resolve_target_present ds path variable target Hres) as Hin.
    split; [exact Hin |].
    destruct (ds_getitem_contains ds target Hin) as [da Hda].
    exists da. split; [exact Hda |].
    unfold load_series_in. now rewrite Hres, Hda.
  - intros e. unfold load_series_in.
    destruct (resolve_target ds path variable) as [target |] eqn:Hres.
    + pose proof (resolve_target_present ds path variable target Hres) as Hin.
      destruct (ds_getitem_contains ds target Hin) as [da Hda].
      rewrite Hda. cbv zeta. unfold sortby_time_load.
      destruct (sortby_raises xr _) as [e' |] eqn:Hsort; [| discriminate].
      intros [= <-]. right. now exists target, da.
    + intros [= <-]. left.
      destruct (ds_contains ds variable) eqn:Hlit;
        [now rewrite resolve_target_literal in Hres |].
      destruct (find (ds_contains ds) (aliases_of variable)) as [a |] eqn:Hfind;
        [now rewrite (resolve_target_alias ds path variable a Hlit Hfind)
           in Hres |].
      rewrite resolve_target_fallback in Hres by assumption.
      unfold dict_keys in *.
      destruct (data_vars ds) as [| [k v] [| kv d]]; cbn [map] in Hres;
        try discriminate; injection Hres as <-;
        (split; [reflexivity |]; split; [reflexivity |];
         split; [exact (find_none _ _ Hfind) | discriminate]).
Qed.

(** The series [load_series] returns is in chronological order, and its
    time steps are those of the variable it read, each as often as there. *)
Theorem load_series_in_sorted (ds : Dataset A) (path : Path)
    (variable : string) (out : DataArray A) :
  load_series_in keep_attrs xr_mean xr ds path variable = Ok out ->
  chronological out
  /\ exists target raw,
       resolve_target ds path variable = Ok target
       /\ ds_getitem ds target = Ok raw
       /\ Permutation (map fst (samples out))
                      (map fst (samples (spatial_mean xr_mean raw))).
Proof.
  unfold load_series_in.
  destruct (resolve_target ds path variable) as [target |] eqn:Hres;
    [| discriminate].
  destruct (ds_getitem ds target) as [raw |] eqn:Hraw; [| discriminate].
  cbv zeta. unfold sortby_time_load.
  destruct (sortby_raises xr _); [discriminate |].
  intros [= <-]. unfold chronological. cbn [samples sortby_time]. split.
  - apply (sort_by_time_sorted (T := A)).
  - exists target, raw. split; [reflexivity |]. split; [exact Hraw |].
    rewrite (sort_by_time_perm (T := A)).
    unfold convert_units.
    destruct (str_in variable TEMP_NAMES || str_in target TEMP_NAMES);
      [| reflexivity].
    destruct (kelvin_like _); [| reflexivity].
    cbn [samples set_attr da_sub_scalar]. rewrite map_map. reflexivity.
Qed.

(** The unit conversion can be applied any number of times: once is as good
    as twice, for every array.  It leaves the time steps and the dimensions
    alone, and an array that is read under no temperature name is returned
    as it is, whatever its unit says. *)
Theorem convert_units_idempotent (variable target : string)
    (da : DataArray A) :
  convert_units keep_attrs variable target
    (convert_units keep_attrs variable target da)
  = convert_units keep_attrs variable target da
  /\ map fst (samples (convert_units keep_attrs variable target da))
     = map fst (samples da)
  /\ dims (convert_units keep_attrs variable target da) = dims da
  /\ (str_in variable TEMP_NAMES = false ->
      str_in target TEMP_NAMES = false ->
      convert_units keep_attrs variable target da = da).
Proof.
  unfold convert_units.
  destruct (str_in variable TEMP_NAMES || str_in target TEMP_NAMES) eqn:Htemp.
  - destruct (kelvin_like
                (lower match dict_get (attrs da) "units" with
                       | Some u => u
                       | None => ""
                       end)) eqn:Hk.
    + split; [| split; [| split]].
      * cbn [attrs set_attr].
        now rewrite dict_get_set_same, kelvin_like_degC.
      * cbn [samples set_attr da_sub_scalar]. rewrite map_map. reflexivity.
      * reflexivity.
      * intros H1 H2. now rewrite H1, H2 in Htemp.
    + rewrite Hk. split; [| split; [| split]]; reflexivity.
  - split; [| split; [| split]]; reflexivity.
Qed.

End Loading.

(** ** The file locator: ties *)

Section SortTies.
Context {T : Type} (key : T -> Z).

(** After [sort(key=..., reverse=True)] the first element is the first of
    the list among those with the largest key. *)
Lemma sort_desc_first (l : list T) :
  match sort_by Z.geb key l with
  | [] => l = []
  | p :: _ =>
      exists before after,
        l = (before ++ p :: after)%list
        /\ (forall q, In q before -> key q < key p)
        /\ (forall q, In q after -> key q <= key p)
  end.
Proof.
  induction l as [| x l IH]; [reflexivity |].
  cbn [sort_by fold_right]. fold (sort_by Z.geb key l).
  destruct (sort_by Z.geb key l) as [| p s].
  - subst l. cbn. exists [], []. repeat split; intros q [].
  - destruct IH as (before & after & -> & Hb & Ha). cbn [insert_by].
    destruct (Z.geb_spec (key x) (key p)) as [Hxp | Hxp].
    + exists [], (before ++ p :: after)%list.
      split; [reflexivity |]. split; [intros q [] |].
      intros q [Hq | [<- | Hq]]%in_app_or.
      * specialize (Hb q Hq). lia.
      * lia.
      * specialize (Ha q Hq). lia.
    + exists (x :: before), after. split; [reflexivity |]. split; [| exact Ha].
      intros q [<- | Hq]; [lia | now apply Hb].
Qed.

End SortTies.

(** [find_file] returns None in two cases only, a missing folder and no
    match; and the file it returns is, among the candidates that were
    modified last, the one collected first: every candidate before it is
    strictly older.  The patterns are tried in the order [.nc] before
    [.zip], so of two equally recent matches the earlier pattern wins. *)
Theorem find_file_first_most_recent (fs : FileSystem) (base : Path)
    (experiment variable : string) :
  (find_file fs base experiment variable = None <->
   exists_ fs (folder_of base experiment) = false
   \/ candidates_of fs base experiment variable = [])
  /\ forall p,
       find_file fs base experiment variable = Some p ->
       exists before after,
         candidates_of fs base experiment variable
         = (before ++ p :: after)%list
         /\ (forall q, In q before -> st_mtime fs q < st_mtime fs p)
         /\ (forall q, In q after -> st_mtime fs q <= st_mtime fs p).
Proof.
  rewrite find_file_candidates.
  pose proof (sort_desc_first (st_mtime fs)
                (candidates_of fs base experiment variable)) as Hsort.
  destruct (exists_ fs (folder_of base experiment)); cbn [negb].
  - destruct (candidates_of fs base experiment variable) as [| c cs] eqn:Hc.
    + split; [split; [now right | reflexivity] | discriminate].
    + destruct (sort_by Z.geb (st_mtime fs) (c :: cs)) as [| p s];
        [discriminate |].
      cbn [hd_error]. split.
      * split; [discriminate | intros [Hf | Hn]; discriminate].
      * intros q [= <-]. exact Hsort.
  - split; [split; [now left | reflexivity] | discriminate].
Qed.

(** ** Monthly anomalies *)

Lemma sorted_lt_nodup (l : list Z) : StronglySorted Z.lt l -> NoDup l.
Proof.
  induction 1 as [| x l Hl IH Hx]; constructor; [| exact IH].
  intros Hin. pose proof (proj1 (Forall_forall _ _) Hx x Hin). lia.
Qed.

Lemma assoc_get_nodup {V} (l : list (Z * V)) (k : Z) (v : V) :
  NoDup (map fst l) -> In (k, v) l -> assoc_get Z.eqb l k = Some v.
Proof.
  induction l as [| [k' v'] l IH]; [intros _ [] |].
  cbn [map fst assoc_get]. intros Hnd [[= -> ->] | Hin].
  - now rewrite Z.eqb_refl.
  - inversion Hnd as [| ? ? Hnotin Hnd']; subst.
    destruct (Z.eqb_spec k k') as [-> | _]; [| now apply IH].
    exfalso. apply Hnotin. apply in_map_iff. now exists (k', v).
Qed.

Section MonthlyAnomalies.
Context {A : Type} `{Dtype A}.
Variable keep_attrs : bool.

Lemma monthly_climatology_months (da : DataArray A) (agg : string) :
  NoDup (map fst (monthly_climatology keep_attrs da agg)).
Proof.
  unfold monthly_climatology, groupby_month_mean.
  rewrite map_map. cbn [fst]. rewrite map_id.
  apply sorted_lt_nodup, sorted_unique_sorted.
Qed.

(** A climatology less itself, month by month. *)
Lemma clim_sub_same (ref clim : Climatology A) :
  (forall mv, In mv clim -> assoc_get Z.eqb ref (fst mv) = Some (snd mv)) ->
  clim_sub clim ref = map (fun mv => (fst mv, sub (snd mv) (snd mv))) clim.
Proof.
  unfold clim_sub. induction clim as [| mv clim IH]; intros Hin;
    [reflexivity |].
  cbn [flat_map map]. rewrite (Hin mv) by now left.
  cbn [app]. f_equal. apply IH. intros; apply Hin; now right.
Qed.

Lemma clim_sub_self (clim : Climatology A) :
  NoDup (map fst clim) ->
  clim_sub clim clim = map (fun mv => (fst mv, sub (snd mv) (snd mv))) clim.
Proof.
  intros Hnd. apply clim_sub_same. intros [m v] Hmv.
  now apply assoc_get_nodup.
Qed.

(** The monthly climatology of a series that covers whole years. *)
Lemma monthly_climatology_full (da : DataArray A) (method : string)
    (y0 n : Z) :
  1 <= n -> covers_full_years da y0 n ->
  monthly_climatology keep_attrs da method
  = map (fun m => (m, nanmean (map (fun y => monthly_value method da y m)
                                   (range y0 (y0 + n)))))
        (range 1 13).
Proof.
  intros Hn Hcover.
  unfold monthly_climatology, groupby_month_mean, month_values.
  rewrite (monthly_aggregate_full keep_attrs da method y0 n Hn Hcover).
  rewrite map_map. cbn [fst month_start month].
  rewrite (months_of_years y0 n Hn).
  apply map_ext_in. intros m Hm%in_range. f_equal. f_equal.
  rewrite filter_map_comm. cbn [fst month_start month].
  rewrite bins_of_month by lia.
  rewrite !map_map. cbn [snd].
  apply map_ext. intros y. f_equal; Z.div_mod_to_equations; lia.
Qed.

(** The monthly anomaly of a scenario is, for each of the twelve calendar
    months, the climatology of the scenario less the historical
    climatology of the same month, when both series are in chronological
    order and cover whole years (which need not be the same years, nor as
    many). *)
Theorem monthly_anomaly_full_years (agg : string)
    (hist : DataArray A) (scen : dict (DataArray A)) (name : string)
    (s : DataArray A) (y0 n y1 k : Z) :
  dict_get scen name = Some s ->
  chronological hist -> chronological s ->
  1 <= n -> covers_full_years hist y0 n ->
  1 <= k -> covers_full_years s y1 k ->
  dict_get (main_monthly_anoms keep_attrs agg hist scen) name
  = Some (map (fun m =>
                 (m, sub (nanmean (map (fun y => monthly_value agg s y m)
                                       (range y1 (y1 + k))))
                         (nanmean (map (fun y => monthly_value agg hist y m)
                                       (range y0 (y0 + n))))))
              [1; 2; 3; 4; 5; 6; 7; 8; 9; 10; 11; 12]).
Proof.
  intros Hget _ _ Hn Hhist Hk Hs. unfold main_monthly_anoms.
  rewrite !dict_get_map, Hget. cbn [option_map].
  rewrite (monthly_climatology_full hist agg y0 n Hn Hhist).
  rewrite (monthly_climatology_full s agg y1 k Hk Hs).
  reflexivity.
Qed.

End MonthlyAnomalies.

(** In exact arithmetic the monthly anomaly of a scenario that has the
    historical series (in chronological order) is zero in every month in
    which the climatology is a number, whatever the series covers; it is
    NaN where the climatology is. *)
Theorem monthly_anomaly_of_history_zero (keep_attrs : bool) (agg : string)
    (hist : DataArray Exact.xq) (scen : dict (DataArray Exact.xq))
    (name : string) :
  chronological hist ->
  dict_get scen name = Some hist ->
  dict_get (main_monthly_anoms keep_attrs agg hist scen) name
  = Some (map (fun mv => (fst mv,
                          match snd mv with
                          | Exact.Fin _ => Exact.Fin 0
                          | Exact.NaN => Exact.NaN
                          end))
              (monthly_climatology keep_attrs hist agg)).
Proof.
  intros _ Hget. unfold main_monthly_anoms.
  rewrite !dict_get_map, Hget. cbn [option_map]. f_equal.
  rewrite clim_sub_self by apply monthly_climatology_months.
  apply map_ext. intros [m [q |]]; cbn [fst snd]; [| reflexivity].
  f_equal. cbn [sub Exact.dtype Exact.lift2]. f_equal.
  change 0%Q with (Qred 0). apply Qred_complete. ring.
Qed.

(** ** Runs of [main] *)

Lemma in_events_bind {Ev X Y} (c : M (Ev := Ev) X) (k : X -> M (Ev := Ev) Y)
    (ev : Ev) :
  In ev (events (bind c k)) ->
  In ev (events c) \/ exists x, outcome c = Ok x /\ In ev (events (k x)).
Proof.
  destruct c as [out [x | e]]; unfold bind; cbn [events outcome fst snd].
  - destruct (k x) as [out' r] eqn:Hk. cbn [fst].
    intros [Hin | Hin]%in_app_or; [now left | right].
    exists x. rewrite Hk. now split.
  - now left.
Qed.

Lemma string_app_inv_head (a b c : string) : a ++ b = a ++ c -> b = c.
Proof.
  induction a as [| x a IH]; cbn; [trivial |]. intros [= Heq]. auto.
Qed.

Lemma dict_set_keeps {V} (d : dict V) (k k0 : string) (v0 : V) :
  dict_get d k <> None -> dict_get (dict_set d k0 v0) k <> None.
Proof.
  intros Hk. destruct (String.eqb_spec k k0) as [-> | Hne].
  - now rewrite dict_get_set_same.
  - now rewrite dict_get_set_other.
Qed.

Lemma dict_update_keeps {V} (d e : dict V) (k : string) :
  dict_get d k <> None -> dict_get (dict_update d e) k <> None.
Proof.
  unfold dict_update. revert d.
  induction e as [| [k0 v0] e IH]; intros d Hk; [exact Hk |].
  cbn [fold_left fst snd]. now apply IH, dict_set_keeps.
Qed.

Lemma dict_set_values {V} (P : V -> Prop) (d : dict V) (k : string) (v : V) :
  P v -> (forall kv, In kv d -> P (snd kv)) ->
  forall kv, In kv (dict_set d k v) -> P (snd kv).
Proof.
  intros Hv. unfold dict_set.
  induction d as [| [k' v'] d IH]; intros Hd kv; cbn [assoc_set].
  - intros [<- | []]. exact Hv.
  - destruct (String.eqb k k').
    + intros [<- | Hin]; [exact Hv | apply Hd; now right].
    + intros [<- | Hin]; [apply (Hd (k', v')); now left |].
      apply IH; [| exact Hin]. intros kv' Hkv'. apply Hd. now right.
Qed.

Lemma filter_nil_iff {T} (f : T -> bool) (l : list T) :
  filter f l = [] <-> forall x, In x l -> f x = false.
Proof.
  induction l as [| x l IH]; cbn [filter].
  - split; [intros _ y [] | reflexivity].
  - destruct (f x) eqn:Hx.
    + split; [discriminate |]. intros Hall.
      rewrite (Hall x) in Hx by now left. discriminate.
    + rewrite IH. split.
      * intros Hall y [<- | Hy]; [exact Hx | now apply Hall].
      * intros Hall y Hy. apply Hall. now right.
Qed.

Section Runs.
Context {A : Type} `{Dtype A}.
Variable keep_attrs : bool.
Variable xr_mean : DataArray A -> list string -> DataArray A.
Variable xr : Xarray A.
Variable scipy_stats : option (Genextreme A).
Variable fs : FileSystem.
Variable open_dataset_maybe_zip : Path -> result (Dataset A).
Variable load_wind_direction : Path -> result (option (DataArray A)).
Variable world : event -> option exn.

Lemma main_load_scenarios_none (args : Args) (exps : list string)
    (acc : dict (DataArray A)) :
  (forall e, In e exps -> scenario_path fs args e = None) ->
  main_load_scenarios keep_attrs xr_mean xr fs open_dataset_maybe_zip
    args exps acc
  = (map skip_warning exps, Ok acc).
Proof.
  induction exps as [| e exps IH]; intros Hnone; [reflexivity |].
  cbn [main_load_scenarios map]. rewrite (Hnone e) by now left.
  cbn [emit bind]. rewrite IH by (intros; apply Hnone; now right).
  reflexivity.
Qed.

Lemma main_load_scenarios_prints (args : Args) (exps : list string)
    (acc : dict (DataArray A)) (ev : event) :
  In ev (events (main_load_scenarios keep_attrs xr_mean xr fs
                   open_dataset_maybe_zip args exps acc)) ->
  exists line, ev = Print line.
Proof.
  revert acc. induction exps as [| e exps IH]; intros acc; [intros [] |].
  cbn [main_load_scenarios].
  destruct (scenario_path fs args e) as [p |].
  - intros [Hin | (s & _ & Hin)]%in_events_bind.
    + unfold lift in Hin. destruct Hin.
    + exact (IH _ Hin).
  - intros [Hin | (u & _ & Hin)]%in_events_bind.
    + destruct Hin as [<- | []]. now eexists.
    + exact (IH _ Hin).
Qed.

(** The mean that is subtracted is always there. *)
Lemma main_annual_anoms_ok (agg : string) (hist : DataArray A)
    (scen : dict (DataArray A)) :
  exists anoms, main_annual_anoms keep_attrs agg hist scen = Ok anoms.
Proof.
  unfold main_annual_anoms, main_hist_mean_scalar.
  rewrite dict_get_map.
  destruct (dict_get (dict_update _ _) "historical") eqn:Hget.
  - cbn [option_map]. now eexists.
  - exfalso. revert Hget. apply dict_update_keeps. discriminate.
Qed.

(** No return level comes out of the [try] block. *)
Lemma main_return_levels_empty (args : Args) (hist : DataArray A)
    (scen : dict (DataArray A)) :
  exists out,
    main_return_levels keep_attrs xr_mean scipy_stats args hist scen
    = (out, Ok [])
    /\ forall ev, In ev out -> exists line, ev = Print line.
Proof.
  unfold main_return_levels.
  destruct (str_in (variable args) WIND_SPEED_NAMES).
  - unfold main_levels_try. rewrite annual_max_undefined.
    eexists. split; [reflexivity |].
    intros ev [<- | []]. now eexists.
  - exists []. split; [reflexivity | intros ev []].
Qed.

Lemma plot_events (output : Path) :
  events (plot world output) = [SaveFig output].
Proof. unfold plot, perform. now destruct (world _). Qed.

Lemma plot_calm (output : Path) :
  (forall ev, world ev = None) ->
  plot world output = ([SaveFig output], Ok tt).
Proof. intros Hcalm. unfold plot, perform. now rewrite Hcalm. Qed.

(** What [main] may do while it renders, when there is no return level. *)
Lemma main_render_events (args : Args)
    (wind_dirs : dict (option (DataArray A))) (ev : event) :
  In ev (events (main_render world args wind_dirs [])) ->
  (exists line, ev = Print line)
  \/ exists kind,
       In kind [ "_climatologia_mensal.png"; "_serie_anual.png";
                 "_anomalias_mensais.png"; "_anomalias_anuais.png";
                 "_rosa_dos_ventos.png" ]
       /\ ev = SaveFig (path_div (output_dir args) (variable args ++ kind)).
Proof.
  unfold main_render.
  intros [Hin | (u1 & _ & Hin)]%in_events_bind;
    [rewrite plot_events in Hin; destruct Hin as [<- | []];
     right; eexists; split; [| reflexivity]; cbn [In]; tauto |].
  apply in_events_bind in Hin as [Hin | (u2 & _ & Hin)];
    [rewrite plot_events in Hin; destruct Hin as [<- | []];
     right; eexists; split; [| reflexivity]; cbn [In]; tauto |].
  apply in_events_bind in Hin as [Hin | (u3 & _ & Hin)];
    [rewrite plot_events in Hin; destruct Hin as [<- | []];
     right; eexists; split; [| reflexivity]; cbn [In]; tauto |].
  apply in_events_bind in Hin as [Hin | (u4 & _ & Hin)];
    [rewrite plot_events in Hin; destruct Hin as [<- | []];
     right; eexists; split; [| reflexivity]; cbn [In]; tauto |].
  apply in_events_bind in Hin as [Hin | (u5 & _ & Hin)].
  - destruct (str_in (variable args) WIND_SPEED_NAMES); [| destruct Hin].
    apply in_events_bind in Hin as [Hin | (u6 & _ & Hin)].
    + unfold plot_wind_rose in Hin.
      destruct (filter _ wind_dirs).
      * destruct Hin as [<- | []]. left. now eexists.
      * rewrite plot_events in Hin. destruct Hin as [<- | []].
        right. eexists. split; [| reflexivity]. cbn [In]. tauto.
    + destruct Hin as [<- | []]. left. now eexists.
  - destruct Hin as [<- | []]. left. now eexists.
Qed.

(** A comprehension whose body returns on every item is a map. *)
Lemma dict_traverse_ok {V W} (f : V -> result W) (g : V -> W) (d : dict V) :
  (forall kv, In kv d -> f (snd kv) = Ok (g (snd kv))) ->
  dict_traverse f d = Ok (dict_map g d).
Proof.
  induction d as [| [k v] d IH]; intros Hall; [reflexivity |].
  pose proof (Hall (k, v) (or_introl eq_refl)) as Hkv. cbn [snd] in Hkv.
  cbn [dict_traverse]. rewrite Hkv.
  rewrite IH by (intros; apply Hall; now right). reflexivity.
Qed.

(** What holds of every series that loads holds of every series stored. *)
Lemma main_load_scenarios_values (P : DataArray A -> Prop) (args : Args)
    (exps : list string) :
  (forall e p s, In e exps -> scenario_path fs args e = Some p ->
     Analysis.load_series keep_attrs xr_mean xr open_dataset_maybe_zip p
       (variable args) = Ok s -> P s) ->
  forall (acc loaded : dict (DataArray A)) (out : list event),
  (forall kv, In kv acc -> P (snd kv)) ->
  main_load_scenarios keep_attrs xr_mean xr fs open_dataset_maybe_zip
    args exps acc = (out, Ok loaded) ->
  forall kv, In kv loaded -> P (snd kv).
Proof.
  induction exps as [| x exps IH]; intros Hload acc loaded out Hacc Hrun.
  - cbn in Hrun. now injection Hrun as _ <-.
  - assert (Hrest : forall e p s, In e exps ->
              scenario_path fs args e = Some p ->
              Analysis.load_series keep_attrs xr_mean xr
                open_dataset_maybe_zip p (variable args) = Ok s -> P s)
      by (intros e p s He; apply Hload; now right).
    cbn [main_load_scenarios] in Hrun.
    destruct (scenario_path fs args x) as [p |] eqn:Hp.
    + destruct (Analysis.load_series _ _ _ _ p _) as [s | e] eqn:Hs;
        cbn [lift bind app] in Hrun; [| discriminate].
      destruct (main_load_scenarios _ _ _ _ _ _ exps _) as [out' res] eqn:Hrec.
      injection Hrun as _ ->.
      apply (IH Hrest _ _ _ (fun kv => dict_set_values P acc x s
                                         (Hload x p s (or_introl eq_refl) Hp Hs)
                                         Hacc kv) Hrec).
    + cbn [emit bind] in Hrun.
      destruct (main_load_scenarios _ _ _ _ _ _ exps _) as [out' res] eqn:Hrec.
      injection Hrun as _ ->. exact (IH Hrest _ _ _ Hacc Hrec).
Qed.

(** With scenario series that xarray resamples, what is left of [main]
    is the wind directions, the return levels and the figures. *)
Lemma main_with_scenarios_resampled (args : Args) (hist_path : Path)
    (hist_series : DataArray A) (hist_clim : Climatology A)
    (kv : string * DataArray A) (loaded : dict (DataArray A)) :
  (forall x, In x (kv :: loaded) ->
     forall freq, resample_raises xr freq (snd x) = None) ->
  main_with_scenarios keep_attrs xr_mean xr scipy_stats fs
    load_wind_direction world args hist_path hist_series hist_clim
    (kv :: loaded)
  = bind (lift (main_wind_dirs fs load_wind_direction args hist_path
                  (kv :: loaded)))
      (fun wind_dirs =>
         bind (main_return_levels keep_attrs xr_mean scipy_stats args
                 hist_series (kv :: loaded))
           (fun return_levels =>
              main_render world args wind_dirs return_levels)).
Proof.
  intros Hres. unfold main_with_scenarios. cbv zeta.
  rewrite (dict_traverse_ok _
             (fun v => monthly_climatology keep_attrs v
                         (get_agg_method (variable args))))
    by (intros x Hx; unfold run_monthly_climatology, resampling;
        now rewrite (Hres x Hx)).
  rewrite (dict_traverse_ok _
             (fun v => annual_aggregate keep_attrs v
                         (get_agg_method (variable args))))
    by (intros x Hx; unfold run_annual_aggregate, resampling;
        now rewrite (Hres x Hx)).
  destruct (main_annual_anoms_ok (get_agg_method (variable args)) hist_series
              (kv :: loaded)) as [anoms Hanoms].
  rewrite Hanoms. cbn [lift bind app].
  destruct (main_wind_dirs _ _ _ _ _) as [wind_dirs | e]; [| reflexivity].
  cbn [lift bind app].
  destruct (main_return_levels _ _ _ _ _ _) as [out [levels | e]];
    cbn [bind]; [| reflexivity].
  now destruct (main_render world args wind_dirs levels).
Qed.

(** A run in which the historical file and every scenario file that is
    found load, xarray resamples every series loaded, and at least one
    scenario file is found, gets as far as the wind directions, the return
    levels and the figures with a scenario stored. *)
Lemma main_reaches_figures (args : Args) (hist_path : Path)
    (hist_series : DataArray A) (found : string) :
  or_else (historical_file args)
          (find_file fs (data_dir args) "historical" (variable args))
  = Some hist_path ->
  Analysis.load_series keep_attrs xr_mean xr open_dataset_maybe_zip hist_path
    (variable args) = Ok hist_series ->
  (forall freq, resample_raises xr freq hist_series = None) ->
  (forall e p, In e (experiments args) -> scenario_path fs args e = Some p ->
     exists s, Analysis.load_series keep_attrs xr_mean xr
                 open_dataset_maybe_zip p (variable args) = Ok s
               /\ forall freq, resample_raises xr freq s = None) ->
  In found (experiments args) -> scenario_path fs args found <> None ->
  exists kv loaded,
    main keep_attrs xr_mean xr scipy_stats fs open_dataset_maybe_zip
         load_wind_direction world args
    = bind (map skip_warning (skipped fs args (experiments args)),
            Ok (kv :: loaded))
        (fun scenario_series =>
           bind (lift (main_wind_dirs fs load_wind_direction args hist_path
                         scenario_series))
             (fun wind_dirs =>
                bind (main_return_levels keep_attrs xr_mean scipy_stats args
                        hist_series scenario_series)
                  (fun return_levels =>
                     main_render world args wind_dirs return_levels))).
Proof.
  intros Hpath Hload Hres Hscen Hfound Hfound_path.
  rewrite (main_after_history keep_attrs xr_mean xr scipy_stats fs
             open_dataset_maybe_zip load_wind_direction world args
             hist_path hist_series Hpath Hload Hres).
  destruct (main_load_scenarios_skips keep_attrs xr_mean xr fs
              open_dataset_maybe_zip args (experiments args) [])
    as (loaded & Heq & Hpresent & _).
  { intros e p He Hp. destruct (Hscen e p He Hp) as (s & Hs & _).
    now exists s. }
  assert (Hall : forall x, In x loaded ->
            forall freq, resample_raises xr freq (snd x) = None).
  { apply (main_load_scenarios_values
             (fun s => forall freq, resample_raises xr freq s = None)
             args (experiments args))
      with (acc := [])
           (out := map skip_warning (skipped fs args (experiments args)));
      [| intros kv [] | exact Heq].
    intros e p s He Hp Hs. destruct (Hscen e p He Hp) as (s' & Hs' & Hok).
    rewrite Hs in Hs'. now injection Hs' as <-. }
  rewrite Heq.
  destruct (scenario_path fs args found) as [p |] eqn:Hp; [| contradiction].
  destruct (Hscen found p Hfound Hp) as (s & Hs & _).
  pose proof (Hpresent found p s Hfound Hp Hs) as Hin.
  destruct loaded as [| kv loaded]; [discriminate |].
  exists kv, loaded. unfold bind at 1 3.
  now rewrite (main_with_scenarios_resampled args hist_path hist_series _ kv
                 loaded Hall).
Qed.

(** When no scenario has a file, the run prints one warning per requested
    experiment and then stops with FileNotFoundError: nothing is drawn.
    The historical series is loaded and aggregated before that, so it has
    to be one that xarray resamples. *)
Theorem main_no_scenario_file (args : Args) (hist_path : Path)
    (hist_series : DataArray A) :
  or_else (historical_file args)
          (find_file fs (data_dir args) "historical" (variable args))
  = Some hist_path ->
  Analysis.load_series keep_attrs xr_mean xr open_dataset_maybe_zip hist_path
    (variable args) = Ok hist_series ->
  (forall freq, resample_raises xr freq hist_series = None) ->
  (forall e, In e (experiments args) -> scenario_path fs args e = None) ->
  main keep_attrs xr_mean xr scipy_stats fs open_dataset_maybe_zip
       load_wind_direction world args
  = (map (fun e => Print ("[aviso] Arquivo não encontrado para " ++ e
                            ++ ". Pulei.")) (experiments args),
     Raise (FileNotFoundError "Nenhum arquivo de cenário encontrado.")).
Proof.
  intros Hpath Hload Hres Hnone.
  rewrite (main_after_history keep_attrs xr_mean xr scipy_stats fs
             open_dataset_maybe_zip load_wind_direction world args
             hist_path hist_series Hpath Hload Hres).
  rewrite main_load_scenarios_none by assumption.
  unfold main_with_scenarios. cbn [bind raise]. now rewrite app_nil_r.
Qed.

(** A historical series that xarray does not resample, as one without a
    time step, ends the run with xarray's exception at the first
    aggregate, before any scenario is looked at: no warning is printed and
    no figure is written. *)
Theorem main_history_not_resampled (args : Args) (hist_path : Path)
    (hist_series : DataArray A) (exc : exn) :
  or_else (historical_file args)
          (find_file fs (data_dir args) "historical" (variable args))
  = Some hist_path ->
  Analysis.load_series keep_attrs xr_mean xr open_dataset_maybe_zip hist_path
    (variable args) = Ok hist_series ->
  resample_raises xr "1MS" hist_series = Some exc
  \/ (resample_raises xr "1MS" hist_series = None
      /\ resample_raises xr "YE" hist_series = Some exc) ->
  main keep_attrs xr_mean xr scipy_stats fs open_dataset_maybe_zip
       load_wind_direction world args
  = ([], Raise exc).
Proof.
  intros Hpath Hload Hres. unfold main, main_hist_path.
  rewrite Hpath. cbn [bind ret app]. rewrite Hload.
  cbn [lift bind app]. cbv zeta.
  unfold run_monthly_climatology, run_annual_aggregate, resampling.
  destruct Hres as [-> | [-> ->]]; reflexivity.
Qed.

(** A run for a variable that is no wind speed, in which the historical
    file and every scenario file that is found load, xarray resamples
    every series loaded, at least one scenario file is found and every
    figure can be written: it prints the warnings of the scenarios without
    a file, writes the four figures <variable>_climatologia_mensal.png,
    _serie_anual.png, _anomalias_mensais.png and _anomalias_anuais.png
    into the output directory, prints the closing line, and returns. *)
Theorem main_four_figures (args : Args) (hist_path : Path)
    (hist_series : DataArray A) (found : string) :
  or_else (historical_file args)
          (find_file fs (data_dir args) "historical" (variable args))
  = Some hist_path ->
  Analysis.load_series keep_attrs xr_mean xr open_dataset_maybe_zip hist_path
    (variable args) = Ok hist_series ->
  (forall freq, resample_raises xr freq hist_series = None) ->
  (forall e p, In e (experiments args) -> scenario_path fs args e = Some p ->
     exists s, Analysis.load_series keep_attrs xr_mean xr
                 open_dataset_maybe_zip p (variable args) = Ok s
               /\ forall freq, resample_raises xr freq s = None) ->
  In found (experiments args) -> scenario_path fs args found <> None ->
  str_in (variable args) WIND_SPEED_NAMES = false ->
  (forall ev, world ev = None) ->
  main keep_attrs xr_mean xr scipy_stats fs open_dataset_maybe_zip
       load_wind_direction world args
  = ((map skip_warning (skipped fs args (experiments args))
        ++ common_figures args
        ++ [Print ("[ok] Gráficos salvos em " ++ path_str (output_dir args))])%list,
     Ok tt).
Proof.
  intros Hpath Hload Hres Hscen Hfound Hfound_path Hwind Hcalm.
  destruct (main_reaches_figures args hist_path hist_series found
              Hpath Hload Hres Hscen Hfound Hfound_path)
    as (kv & loaded & ->).
  unfold main_wind_dirs, main_return_levels, main_render.
  rewrite Hwind. unfold plot, perform. rewrite !Hcalm.
  cbn [lift bind ret emit app]. reflexivity.
Qed.

(** Whatever the files hold and whatever fails, a run prints lines and
    writes figures of five kinds only, all named after the variable in the
    output directory; the figure of the return levels is never written, not
    for a wind speed either, because no return level is ever computed. *)
Theorem main_figures (args : Args) :
  (forall ev,
     In ev (events (main keep_attrs xr_mean xr scipy_stats fs
                         open_dataset_maybe_zip load_wind_direction world
                         args)) ->
     (exists line, ev = Print line)
     \/ exists kind,
          In kind [ "_climatologia_mensal.png"; "_serie_anual.png";
                    "_anomalias_mensais.png"; "_anomalias_anuais.png";
                    "_rosa_dos_ventos.png" ]
          /\ ev = SaveFig (path_div (output_dir args) (variable args ++ kind)))
  /\ ~ In (SaveFig (return_levels_figure args))
          (events (main keep_attrs xr_mean xr scipy_stats fs
                        open_dataset_maybe_zip load_wind_direction world
                        args)).
Proof.
  assert (Hall : forall ev,
     In ev (events (main keep_attrs xr_mean xr scipy_stats fs
                         open_dataset_maybe_zip load_wind_direction world
                         args)) ->
     (exists line, ev = Print line)
     \/ exists kind,
          In kind [ "_climatologia_mensal.png"; "_serie_anual.png";
                    "_anomalias_mensais.png"; "_anomalias_anuais.png";
                    "_rosa_dos_ventos.png" ]
          /\ ev = SaveFig (path_div (output_dir args) (variable args ++ kind))).
  { intros ev Hin. unfold main in Hin.
    apply in_events_bind in Hin as [Hin | (hist_path & _ & Hin)].
    { unfold main_hist_path in Hin. now destruct (or_else _ _). }
    apply in_events_bind in Hin as [[] | (hist_series & _ & Hin)].
    apply in_events_bind in Hin as [[] | (hist_clim & _ & Hin)].
    apply in_events_bind in Hin as [[] | (hist_annual & _ & Hin)].
    apply in_events_bind in Hin as [Hin | (scen & _ & Hin)].
    { left. exact (main_load_scenarios_prints _ _ _ _ Hin). }
    unfold main_with_scenarios in Hin.
    destruct scen as [| kv scen]; [destruct Hin |].
    apply in_events_bind in Hin as [[] | (clims & _ & Hin)].
    apply in_events_bind in Hin as [[] | (annual & _ & Hin)].
    apply in_events_bind in Hin as [[] | (anoms & _ & Hin)].
    apply in_events_bind in Hin as [[] | (wind_dirs & _ & Hin)].
    destruct (main_return_levels_empty args hist_series (kv :: scen))
      as (out & Hlevels & Hprints).
    rewrite Hlevels in Hin.
    apply in_events_bind in Hin as [Hin | (levels & Hout & Hin)].
    { left. exact (Hprints _ Hin). }
    cbn [outcome snd] in Hout. injection Hout as <-.
    exact (main_render_events _ _ _ Hin). }
  split; [exact Hall |].
  intros Hin. apply Hall in Hin as [[line Hline] | (kind & Hkind & Heq)];
    [discriminate |].
  injection Heq as Heq. unfold return_levels_figure, path_div in Heq.
  apply app_inj_tail in Heq as [_ Heq].
  apply string_app_inv_head in Heq. subst kind.
  cbn [In] in Hkind.
  repeat match goal with
         | H : _ \/ _ |- _ => destruct H as [H | H]
         | H : False |- _ => destruct H
         end; discriminate.
Qed.

End Runs.

(** ** The wind rose *)

Section WindRose.
Context {A : Type} `{Dtype A}.
Variable keep_attrs : bool.
Variable xr_mean : DataArray A -> list string -> DataArray A.
Variable xr : Xarray A.
Variable scipy_stats : option (Genextreme A).
Variable fs : FileSystem.
Variable open_dataset_maybe_zip : Path -> result (Dataset A).
Variable load_wind_direction : Path -> result (option (DataArray A)).
Variable world : event -> option exn.

Lemma plot_wind_rose_none (directions : dict (option (DataArray A)))
    (output : Path) :
  (forall kv, In kv directions -> snd kv = None) ->
  plot_wind_rose world directions output
  = ([Print "[aviso] Rosa dos ventos ignorada: componentes de vento (u/v) não encontrados."],
     Ok tt).
Proof.
  intros Hnone. unfold plot_wind_rose. cbv zeta.
  replace (filter _ directions) with (@nil (string * option (DataArray A)));
    [reflexivity |].
  symmetry. apply filter_nil_iff. intros kv Hin. now rewrite (Hnone kv Hin).
Qed.

(** The wind rose is written exactly when one series at least has a
    direction; when none has, the only effect is the warning. *)
Theorem plot_wind_rose_needs_direction
    (directions : dict (option (DataArray A))) (output : Path) :
  (In (SaveFig output) (events (plot_wind_rose world directions output))
   <-> exists label d, In (label, Some d) directions)
  /\ ((forall kv, In kv directions -> snd kv = None) ->
      plot_wind_rose world directions output
      = ([Print "[aviso] Rosa dos ventos ignorada: componentes de vento (u/v) não encontrados."],
         Ok tt)).
Proof.
  split; [| apply plot_wind_rose_none].
  unfold plot_wind_rose. cbv zeta.
  destruct (filter _ directions) as [| kv valid] eqn:Hvalid.
  - pose proof (proj1 (filter_nil_iff _ _) Hvalid) as Hnone. split.
    + intros [Hin | []]. discriminate.
    + intros (label & d & Hin). now specialize (Hnone _ Hin).
  - assert (Hin : In kv (filter
                (fun kv : string * option (DataArray A) =>
                   match snd kv with Some _ => true | None => false end)
                directions))
      by (rewrite Hvalid; now left).
    apply filter_In in Hin as [Hin Hsome].
    destruct kv as [label [d |]]; [| discriminate].
    rewrite plot_events. split; [| intros _; now left].
    intros _. now exists label, d.
Qed.

Lemma main_wind_dirs_loop_none (args : Args) (names : list string)
    (acc : dict (option (DataArray A))) :
  (forall p, load_wind_direction p = Ok None) ->
  (forall kv, In kv acc -> snd kv = None) ->
  exists wind_dirs,
    main_wind_dirs_loop fs load_wind_direction args names acc = Ok wind_dirs
    /\ forall kv, In kv wind_dirs -> snd kv = None.
Proof.
  intros Hload. revert acc.
  induction names as [| e names IH]; intros acc Hacc; cbn [main_wind_dirs_loop].
  - now exists acc.
  - destruct (scenario_path fs args e) as [p |].
    + rewrite Hload. apply IH.
      now apply (dict_set_values (fun v => v = None)).
    + apply IH. now apply (dict_set_values (fun v => v = None)).
Qed.

(** A run for a wind speed on files that hold no eastward or northward
    component (every other step succeeding, as for the four figures): the
    four common figures are written and nothing else; the wind rose and
    the return levels are replaced by warnings, and the run still ends
    well. *)
Theorem main_wind_speed_only (args : Args) (hist_path : Path)
    (hist_series : DataArray A) (found : string) :
  or_else (historical_file args)
          (find_file fs (data_dir args) "historical" (variable args))
  = Some hist_path ->
  Analysis.load_series keep_attrs xr_mean xr open_dataset_maybe_zip hist_path
    (variable args) = Ok hist_series ->
  (forall freq, resample_raises xr freq hist_series = None) ->
  (forall e p, In e (experiments args) -> scenario_path fs args e = Some p ->
     exists s, Analysis.load_series keep_attrs xr_mean xr
                 open_dataset_maybe_zip p (variable args) = Ok s
               /\ forall freq, resample_raises xr freq s = None) ->
  In found (experiments args) -> scenario_path fs args found <> None ->
  str_in (variable args) WIND_SPEED_NAMES = true ->
  (forall p, load_wind_direction p = Ok None) ->
  (forall ev, world ev = None) ->
  main keep_attrs xr_mean xr scipy_stats fs open_dataset_maybe_zip
       load_wind_direction world args
  = ((map skip_warning (skipped fs args (experiments args))
        ++ [Print ("[aviso] Não foi possível calcular níveis de retorno: "
                     ++ "name 'annual_max' is not defined")]
        ++ common_figures args
        ++ [Print "[aviso] Rosa dos ventos ignorada: componentes de vento (u/v) não encontrados.";
            Print "[aviso] Nenhum nível de retorno calculado.";
            Print ("[ok] Gráficos salvos em " ++ path_str (output_dir args))])%list,
     Ok tt).
Proof.
  intros Hpath Hload Hres Hscen Hfound Hfound_path Hwind Hdirs Hcalm.
  destruct (main_reaches_figures keep_attrs xr_mean xr scipy_stats fs
              open_dataset_maybe_zip load_wind_direction world args
              hist_path hist_series found
              Hpath Hload Hres Hscen Hfound Hfound_path)
    as (kv & loaded & ->).
  destruct (main_wind_dirs_loop_none args (dict_keys (kv :: loaded))
              (dict_set [] "historical" None) Hdirs) as (wind_dirs & Hloop & Hnone).
  { intros kv' [<- | []]. reflexivity. }
  unfold bind at 1. cbv beta.
  unfold main_wind_dirs, main_return_levels, main_levels_try.
  rewrite Hwind, Hdirs, Hloop, annual_max_undefined.
  cbn [lift bind ret emit app exn_str].
  unfold main_render. rewrite Hwind.
  rewrite (plot_wind_rose_none wind_dirs _ Hnone).
  unfold plot_return_levels, plot, perform. rewrite !Hcalm.
  cbn [lift bind ret emit app exn_str]. reflexivity.
Qed.

End WindRose.

(** ** The axis label *)

Lemma lstrip_empty_all_space (s : string) : lstrip s = "" -> all_space s = true.
Proof.
  induction s as [| c s IH]; cbn [lstrip all_space]; [reflexivity |].
  destruct (is_space c); [exact IH | discriminate].
Qed.

Lemma rstrip_empty_all_space (s : string) : rstrip s = "" -> all_space s = true.
Proof.
  induction s as [| c s IH]; cbn [rstrip all_space]; [reflexivity |].
  destruct (rstrip s); [| discriminate].
  destruct (is_space c); [intros _; now apply IH | discriminate].
Qed.

Lemma all_space_lstrip (s : string) :
  all_space (lstrip s) = true -> all_space s = true.
Proof.
  induction s as [| c s IH]; cbn [lstrip]; [trivial |].
  destruct (is_space c) eqn:Hc; [| trivial].
  intros Hs. cbn [all_space]. rewrite Hc. now apply IH.
Qed.

Lemma strip_empty_iff (s : string) : strip s = "" <-> all_space s = true.
Proof.
  unfold strip. split.
  - intros Hs. now apply all_space_lstrip, rstrip_empty_all_space.
  - intros Hs. now rewrite lstrip_all_space.
Qed.

(** The label of the value axis is the bare variable name when the
    historical series has no unit or a blank one, and else the name followed
    by the unit, stripped of the blanks around it, in parentheses. *)
Theorem main_y_label_unit {A} (args : Args) (hist_series : DataArray A) :
  main_y_label args hist_series
  = match dict_get (attrs hist_series) "units" with
    | Some u =>
        if all_space u then variable args
        else variable args ++ " (" ++ strip u ++ ")"
    | None => variable args
    end.
Proof.
  unfold main_y_label, format_label. cbv zeta.
  destruct (dict_get (attrs hist_series) "units") as [u |]; [| reflexivity].
  destruct (all_space u) eqn:Hu.
  - apply strip_empty_iff in Hu. now rewrite Hu.
  - destruct (String.eqb_spec (strip u) "") as [Hs | Hs].
    + apply strip_empty_iff in Hs. congruence.
    + apply String.eqb_neq in Hs. now rewrite Hs.
Qed.

(** ** The command line *)

Section RunFacts.
Context {A : Type} `{Dtype A}.
Variable keep_attrs : bool.
Variable xr_mean : DataArray A -> list string -> DataArray A.
Variable xr : Xarray A.
Variable scipy_stats : option (Genextreme A).
Variable fs : FileSystem.
Variable open_dataset_maybe_zip : Path -> result (Dataset A).
Variable load_wind_direction : Path -> result (option (DataArray A)).
Variable world : event -> option exn.
Variable Path_ : string -> Path.

(** The --scenario-file items are parsed before anything else: an item
    without "=" ends the run with the ValueError that quotes it before the
    historical file is looked for, so whatever the files are. *)
Theorem main_from_malformed_item (args : Args) (good : list string)
    (bad : string) (rest : list string) :
  (forall g, In g good -> contains "=" g = true) ->
  contains "=" bad = false ->
  main_from keep_attrs xr_mean xr scipy_stats fs open_dataset_maybe_zip
    load_wind_direction world Path_ (good ++ bad :: rest)%list args
  = ([], Raise (ValueError ("Formato inválido em --scenario-file: " ++ bad
                              ++ ". Use experimento=arquivo.nc"))).
Proof.
  intros Hgood Hbad. unfold main_from.
  replace (match (good ++ bad :: rest)%list with
           | [] => Ok []
           | _ => parse_scenario_files Path_ (good ++ bad :: rest)%list
           end)
    with (parse_scenario_files Path_ (good ++ bad :: rest)%list)
    by now destruct good.
  unfold parse_scenario_files.
  now rewrite (parse_from_malformed Path_ good bad rest [] Hgood Hbad).
Qed.

(** With well-formed items the run is [main] on the mapping they make: a
    scenario that an item names is read from the file of the last item
    that names it, and [find_file] is asked for the others only. *)
Theorem main_from_named_scenarios (args : Args) (items : list string) :
  (forall item, In item items -> contains "=" item = true) ->
  exists mapping,
    main_from keep_attrs xr_mean xr scipy_stats fs open_dataset_maybe_zip
      load_wind_direction world Path_ items args
    = Analysis.main keep_attrs xr_mean xr scipy_stats fs
        open_dataset_maybe_zip load_wind_direction world
        (with_scenario_map args mapping)
    /\ (forall name p,
          last_binding Path_ items name = Some p ->
          scenario_path fs (with_scenario_map args mapping) name = Some p)
    /\ (forall name,
          last_binding Path_ items name = None ->
          scenario_path fs (with_scenario_map args mapping) name
          = find_file fs (data_dir args) name (variable args)).
Proof.
  intros Hall. destruct (parse_from_ok Path_ items [] Hall) as (m & Heq & Hget).
  exists m. split; [| split].
  - unfold main_from.
    replace (match items with
             | [] => Ok []
             | _ => parse_scenario_files Path_ items
             end)
      with (parse_scenario_files Path_ items)
      by now destruct items.
    unfold parse_scenario_files. rewrite Heq. cbn [lift bind app].
    now destruct (Analysis.main _ _ _ _ _ _ _ _ _).
  - intros name p Hname. unfold scenario_path. cbn [scenario_map with_scenario_map].
    now rewrite Hget, Hname.
  - intros name Hname. unfold scenario_path.
    cbn [scenario_map with_scenario_map data_dir variable].
    now rewrite Hget, Hname.
Qed.

End RunFacts.

(** ** Sample runs *)

Lemma parse_scenario_files_malformed_sample :
  parse_scenario_files (fun s => [s]) ["ssp1_2_6=a.nc"; "ssp5_8_5"]
  = Raise (ValueError ("Formato inválido em --scenario-file: " ++ "ssp5_8_5"
                         ++ ". Use experimento=arquivo.nc")).
Proof.
  apply (parse_scenario_files_malformed (fun s => [s]) ["ssp1_2_6=a.nc"]
           "ssp5_8_5" []).
  - intros g [<- | []]. reflexivity.
  - reflexivity.
Defined.

Lemma parse_scenario_files_last_wins_sample :
  exists mapping,
    parse_scenario_files (fun s => [s]) ["ssp1_2_6=a.nc"; "ssp1_2_6=b.nc"]
    = Ok mapping
    /\ forall name,
         dict_get mapping name
         = last_binding (fun s => [s]) ["ssp1_2_6=a.nc"; "ssp1_2_6=b.nc"] name.
Proof.
  apply (parse_scenario_files_last_wins (fun s => [s])
           ["ssp1_2_6=a.nc"; "ssp1_2_6=b.nc"]).
  intros item [<- | [<- | []]]; reflexivity.
Defined.

Lemma parse_scenario_files_item_sample :
  parse_scenario_files (fun s => [s]) [" ssp1_2_6 = date/a.nc "]
  = Ok [("ssp1_2_6", ["date/a.nc"])].
Proof.
  exact (parse_scenario_files_item (fun s => [s]) "ssp1_2_6" "date/a.nc"
           " " " " " " " " eq_refl eq_refl eq_refl eq_refl eq_refl).
Defined.

Lemma open_dataset_maybe_zip_no_member_sample :
  open_dataset_maybe_zip (B := unit) sample_files ["date"; "empty.ZIP"]
    (fun _ => Ok tt)
  = ([ MkTemp ["tmp"; "td"]; ZipOpen ["date"; "empty.ZIP"];
       ZipClose ["date"; "empty.ZIP"]; RmTemp ["tmp"; "td"] ],
     Raise (FileNotFoundError ("Nenhum .nc dentro do zip: "
                                 ++ path_str ["date"; "empty.ZIP"]))).
Proof.
  apply (open_dataset_maybe_zip_no_member sample_files ["date"; "empty.ZIP"]
           (fun _ => Ok tt) ["readme.txt"]).
  - reflexivity.
  - reflexivity.
  - intros name [<- | []]. reflexivity.
Defined.

Lemma open_dataset_maybe_zip_plain_sample :
  events (open_dataset_maybe_zip (B := unit) sample_files ["date"; "tas.nc"]
            (fun _ => Ok tt))
  = [OpenDataset ["date"; "tas.nc"]; CloseDataset ["date"; "tas.nc"]].
Proof.
  apply (open_dataset_maybe_zip_plain sample_files ["date"; "tas.nc"]
           (fun _ => Ok tt)).
  discriminate.
Defined.

Lemma gap_years_chronological : chronological gap_years.
Proof. unfold chronological. cbn. repeat constructor. Qed.

Lemma full_year_chronological : chronological full_year.
Proof. unfold chronological. cbn. repeat constructor. Qed.

Lemma annual_aggregate_years_sample :
  map fst (samples (annual_aggregate true gap_years "mean"))
  = [ymd 2000 12 31; ymd 2001 12 31; ymd 2002 12 31]
  /\ In (ymd 2000 12 31, Exact.Fin 2)
        (samples (annual_aggregate true gap_years "mean")).
Proof.
  destruct (annual_aggregate_years true gap_years "mean" 2000 2002)
    as (Htimes & _ & Hvalues).
  - exact gap_years_chronological.
  - intros tv [<- | [<- | [<- | []]]]; cbn; lia.
  - exists (ymd 2000 1 15, Exact.Fin 1). split; [cbn; tauto | reflexivity].
  - exists (ymd 2002 3 1, Exact.Fin 5). split; [cbn; tauto | reflexivity].
  - split; [exact Htimes |].
    apply (Hvalues 2000); [lia | discriminate].
Defined.

Lemma load_series_in_sorted_sample :
  chronological
    {| dims := ["time"]; attrs := [("units", "m s-1")];
       samples := [ (ymd 2000 7 1, Exact.Fin 4);
                    (ymd 2001 7 1, Exact.Fin 6) ] |}.
Proof.
  apply (load_series_in_sorted true sample_xr_mean sample_xr speed_ds
           ["date"; "wind.nc"] "sfcWind"
           {| dims := ["time"]; attrs := [("units", "m s-1")];
              samples := [ (ymd 2000 7 1, Exact.Fin 4);
                           (ymd 2001 7 1, Exact.Fin 6) ] |}).
  reflexivity.
Defined.

Lemma monthly_anomaly_full_years_sample :
  dict_get (main_monthly_anoms true "mean" full_year [("ssp1_2_6", full_year)])
           "ssp1_2_6"
  = Some (map (fun m =>
                 (m, sub (nanmean (map (fun y => monthly_value "mean" full_year y m)
                                       (range 2000 (2000 + 1))))
                         (nanmean (map (fun y => monthly_value "mean" full_year y m)
                                       (range 2000 (2000 + 1))))))
              [1; 2; 3; 4; 5; 6; 7; 8; 9; 10; 11; 12]).
Proof.
  apply (monthly_anomaly_full_years true "mean" full_year
           [("ssp1_2_6", full_year)] "ssp1_2_6" full_year 2000 1 2000 1).
  - reflexivity.
  - exact full_year_chronological.
  - exact full_year_chronological.
  - lia.
  - exact full_year_covers.
  - lia.
  - exact full_year_covers.
Defined.

Lemma monthly_anomaly_of_history_zero_sample :
  dict_get (main_monthly_anoms true "mean" full_year [("ssp1_2_6", full_year)])
           "ssp1_2_6"
  = Some (map (fun m => (m, Exact.Fin 0))
              [1; 2; 3; 4; 5; 6; 7; 8; 9; 10; 11; 12]).
Proof.
  exact (monthly_anomaly_of_history_zero true "mean" full_year
           [("ssp1_2_6", full_year)] "ssp1_2_6" full_year_chronological
           eq_refl).
Defined.

(** A malformed item is reported although the sample directory has no
    historical file either. *)
Lemma main_from_malformed_item_sample :
  main_from true sample_xr_mean sample_xr (Some sample_genextreme) sample_fs
    sample_open (fun _ => Ok None) (fun _ => None) (fun s => [s])
    ["ssp1_2_6=a.nc"; "ssp5_8_5"] tas_args
  = ([], Raise (ValueError ("Formato inválido em --scenario-file: "
                              ++ "ssp5_8_5"
                              ++ ". Use experimento=arquivo.nc"))).
Proof.
  apply (main_from_malformed_item true sample_xr_mean sample_xr
           (Some sample_genextreme) sample_fs sample_open (fun _ => Ok None)
           (fun _ => None) (fun s => [s]) tas_args ["ssp1_2_6=a.nc"]
           "ssp5_8_5" []).
  - intros g [<- | []]. reflexivity.
  - reflexivity.
Defined.

(** ssp5_8_5, for which the sample directory has no file, named on the
    command line. *)
Lemma main_from_named_scenarios_sample :
  exists mapping,
    main_from true sample_xr_mean sample_xr (Some sample_genextreme)
      sample_fs sample_open (fun _ => Ok None) (fun _ => None)
      (fun s => [s]) ["ssp5_8_5 = extra.nc"] history_args
    = Analysis.main true sample_xr_mean sample_xr (Some sample_genextreme)
        sample_fs sample_open (fun _ => Ok None) (fun _ => None)
        (with_scenario_map history_args mapping)
    /\ scenario_path sample_fs (with_scenario_map history_args mapping)
         "ssp5_8_5" = Some ["extra.nc"]
    /\ scenario_path sample_fs (with_scenario_map history_args mapping)
         "ssp1_2_6" = Some ["date"; "projecao"; "b_ssp1_2_6_tas.nc"].
Proof.
  destruct (main_from_named_scenarios true sample_xr_mean sample_xr
              (Some sample_genextreme) sample_fs sample_open
              (fun _ => Ok None) (fun _ => None) (fun s => [s]) history_args
              ["ssp5_8_5 = extra.nc"])
    as (mapping & Hrun & Hnamed & Hother).
  - intros item [<- | []]. reflexivity.
  - exists mapping. split; [exact Hrun |]. split.
    + now apply Hnamed.
    + now rewrite Hother.
Defined.

Lemma main_no_scenario_file_sample :
  main true sample_xr_mean sample_xr (Some sample_genextreme) sample_fs
       sample_open (fun _ => Ok None) (fun _ => None) no_scenario_args
  = ([Print "[aviso] Arquivo não encontrado para ssp5_8_5. Pulei."],
     Raise (FileNotFoundError "Nenhum arquivo de cenário encontrado.")).
Proof.
  apply (main_no_scenario_file true sample_xr_mean sample_xr
           (Some sample_genextreme) sample_fs sample_open (fun _ => Ok None)
           (fun _ => None) no_scenario_args ["date"; "hist.nc"]
           tas_celsius_sample).
  - reflexivity.
  - reflexivity.
  - reflexivity.
  - intros e [<- | []]. reflexivity.
Defined.

(** A historical file whose variable has no time step: xarray's refusal to
    resample it ends the run at the first aggregate. *)
Lemma main_history_not_resampled_sample :
  main true sample_xr_mean sample_xr (Some sample_genextreme) sample_fs
       empty_open (fun _ => Ok None) (fun _ => None) history_args
  = ([], Raise (ValueError "cannot resample an empty array to 1MS")).
Proof.
  apply (main_history_not_resampled true sample_xr_mean sample_xr
           (Some sample_genextreme) sample_fs empty_open (fun _ => Ok None)
           (fun _ => None) history_args ["date"; "hist.nc"] empty_tas).
  - reflexivity.
  - reflexivity.
  - left. reflexivity.
Defined.

Lemma main_four_figures_sample :
  main true sample_xr_mean sample_xr (Some sample_genextreme) sample_fs
       sample_open (fun _ => Ok None) (fun _ => None) history_args
  = ([ Print "[aviso] Arquivo não encontrado para ssp5_8_5. Pulei.";
       SaveFig ["img"; "tas_climatologia_mensal.png"];
       SaveFig ["img"; "tas_serie_anual.png"];
       SaveFig ["img"; "tas_anomalias_mensais.png"];
       SaveFig ["img"; "tas_anomalias_anuais.png"];
       Print "[ok] Gráficos salvos em img" ],
     Ok tt).
Proof.
  apply (main_four_figures true sample_xr_mean sample_xr
           (Some sample_genextreme) sample_fs sample_open (fun _ => Ok None)
           (fun _ => None) history_args ["date"; "hist.nc"]
           tas_celsius_sample "ssp1_2_6").
  - reflexivity.
  - reflexivity.
  - reflexivity.
  - intros e p _ _. exists tas_celsius_sample. split; reflexivity.
  - cbn. tauto.
  - discriminate.
  - reflexivity.
  - reflexivity.
Defined.

Lemma main_wind_speed_only_sample :
  main true sample_xr_mean sample_xr (Some sample_genextreme) sample_fs
       speed_open (fun _ => Ok None) (fun _ => None) wind_only_args
  = ([ Print "[aviso] Não foi possível calcular níveis de retorno: name 'annual_max' is not defined";
       SaveFig ["img"; "sfcWind_climatologia_mensal.png"];
       SaveFig ["img"; "sfcWind_serie_anual.png"];
       SaveFig ["img"; "sfcWind_anomalias_mensais.png"];
       SaveFig ["img"; "sfcWind_anomalias_anuais.png"];
       Print "[aviso] Rosa dos ventos ignorada: componentes de vento (u/v) não encontrados.";
       Print "[aviso] Nenhum nível de retorno calculado.";
       Print "[ok] Gráficos salvos em img" ],
     Ok tt).
Proof.
  apply (main_wind_speed_only true sample_xr_mean sample_xr
           (Some sample_genextreme) sample_fs speed_open (fun _ => Ok None)
           (fun _ => None) wind_only_args ["date"; "hist.nc"]
           (sortby_time (convert_units true "sfcWind" "sfcWind"
                           (spatial_mean sample_xr_mean sfc_wind)))
           "ssp1_2_6").
  - reflexivity.
  - reflexivity.
  - reflexivity.
  - intros e p _ _.
    exists (sortby_time (convert_units true "sfcWind" "sfcWind"
                           (spatial_mean sample_xr_mean sfc_wind))).
    split; reflexivity.
  - cbn. tauto.
  - discriminate.
  - reflexivity.
  - reflexivity.
  - reflexivity.
Defined.

End AnalysisMore.
